(** * BCMS complaint management: row-level security, complaint lifecycle
      and the admin dashboard's derived views.

    The development follows the repository:
    - the SQL migration (types, tables, [has_role], the row-level-security
      policies, the signup and [updated_at] triggers);
    - the handlers of the dashboards ([handleSubmitComplaint],
      [handleStatusUpdate], [handleAssignStaff], [handlePromoteToStaff],
      [handleDemoteToStudent]), as the statements they send to the backend;
    - the derived views of [AdminDashboard.tsx] ([sortedComplaints],
      [categoryData], [last7DaysData], [overdueComplaints]). *)

From Stdlib Require Import List ZArith NArith Bool Lia String Ascii.
From Stdlib Require Import Permutation Sorted.
Import ListNotations.

(* ================================================================== *)
(** * Schema *)
(* ================================================================== *)

(** [UUID] columns.  A uuid is a 128-bit value; its text form has 36
    characters, so a uuid received by the client is never the empty string. *)
Definition uuid : Type := N.

(** [CREATE TYPE public.app_role AS ENUM ('student', 'staff', 'admin')] *)
Inductive app_role : Type := student | staff | admin.

(** [CREATE TYPE public.complaint_status AS ENUM (...)] *)
Inductive complaint_status : Type := pending | in_progress | resolved.

(** [CREATE TYPE public.complaint_category AS ENUM (...)] *)
Inductive complaint_category : Type :=
  academic | infrastructure | administrative | technical | other.

Definition app_role_eqb (a b : app_role) : bool :=
  match a, b with
  | student, student | staff, staff | admin, admin => true
  | _, _ => false
  end.

Definition complaint_status_eqb (a b : complaint_status) : bool :=
  match a, b with
  | pending, pending | in_progress, in_progress | resolved, resolved => true
  | _, _ => false
  end.

Definition complaint_category_eqb (a b : complaint_category) : bool :=
  match a, b with
  | academic, academic | infrastructure, infrastructure
  | administrative, administrative | technical, technical
  | other, other => true
  | _, _ => false
  end.

(** Rows of [public.user_roles]. *)
Module user_roles.
Record row : Type := mk {
  id : uuid;
  user_id : uuid;
  role : app_role
}.
End user_roles.

(** Rows of [public.complaints].  Timestamps are kept in the text form in
    which the client receives them ([created_at: string]). *)
Module complaints.
Record row : Type := mk {
  id : uuid;
  student_id : uuid;
  title : string;
  description : string;
  category : complaint_category;
  status : complaint_status;
  assigned_to : option uuid;
  created_at : string;
  updated_at : string
}.
End complaints.

(** Rows of [public.comments]. *)
Module comments.
Record row : Type := mk {
  id : uuid;
  complaint_id : uuid;
  user_id : uuid;
  message : string;
  created_at : string
}.
End comments.

(** The part of the database the policies and handlers touch;
    [auth_users] holds the ids of [auth.users], the target of the foreign
    keys. *)
Record database : Type := mkdb {
  auth_users : list uuid;
  tbl_user_roles : list user_roles.row;
  tbl_complaints : list complaints.row;
  tbl_comments : list comments.row
}.

(* ================================================================== *)
(** * SQL truth values *)
(* ================================================================== *)

(** A policy expression evaluates to true, false or NULL; a row passes a
    policy only when the expression is true. *)
Definition sql_bool : Type := option bool.

Definition sql_and (a b : sql_bool) : sql_bool :=
  match a, b with
  | Some false, _ | _, Some false => Some false
  | Some true, Some true => Some true
  | _, _ => None
  end.

Definition sql_or (a b : sql_bool) : sql_bool :=
  match a, b with
  | Some true, _ | _, Some true => Some true
  | Some false, Some false => Some false
  | _, _ => None
  end.

(** [a = b] on nullable uuid values. *)
Definition sql_eq (a b : option uuid) : sql_bool :=
  match a, b with
  | Some x, Some y => Some (N.eqb x y)
  | _, _ => None
  end.

Definition sql_true (b : sql_bool) : bool :=
  match b with
  | Some true => true
  | _ => false
  end.

(* ================================================================== *)
(** * Row-level security *)
(* ================================================================== *)

(** [public.has_role(_user_id, _role)]: [SECURITY DEFINER], so the
    sub-select sees every row of [user_roles]. *)
Definition has_role (db : database) (_user_id : uuid) (_role : app_role) : bool :=
  existsb
    (fun r => N.eqb (user_roles.user_id r) _user_id
              && app_role_eqb (user_roles.role r) _role)
    (tbl_user_roles db).

Section Policies.

(** The database the expressions are evaluated in, and [auth.uid()] of
    the authenticated principal (every policy is [TO authenticated]). *)
Variable db : database.
Variable uid : uuid.

(** ** Policies on [user_roles] *)

Definition Anyone_can_view_their_own_role (r : user_roles.row) : sql_bool :=
  sql_eq (Some uid) (Some (user_roles.user_id r)).

Definition Admins_can_manage_all_roles (r : user_roles.row) : sql_bool :=
  Some (has_role db uid admin).

(** ** Policies on [complaints] *)

Definition Students_can_view_own_complaints (c : complaints.row) : sql_bool :=
  sql_or
    (sql_or (sql_eq (Some uid) (Some (complaints.student_id c)))
            (Some (has_role db uid staff)))
    (Some (has_role db uid admin)).

Definition Students_can_create_complaints (c : complaints.row) : sql_bool :=
  sql_eq (Some uid) (Some (complaints.student_id c)).

(** [AND] binds tighter than [OR]. *)
Definition Staff_can_update_assigned_complaints (c : complaints.row) : sql_bool :=
  sql_or
    (sql_and (Some (has_role db uid staff))
             (sql_eq (Some uid) (complaints.assigned_to c)))
    (Some (has_role db uid admin)).

Definition Admins_can_manage_all_complaints (c : complaints.row) : sql_bool :=
  Some (has_role db uid admin).

(** The permissive policies that apply to a command are combined with
    [OR]; a [FOR ALL] policy applies to every command. *)

(** [SELECT] on [complaints]. *)
Definition canRead (c : complaints.row) : bool :=
  sql_true (sql_or (Students_can_view_own_complaints c)
                   (Admins_can_manage_all_complaints c)).

(** [INSERT] on [complaints]. *)
Definition canInsert (c : complaints.row) : bool :=
  sql_true (sql_or (Students_can_create_complaints c)
                   (Admins_can_manage_all_complaints c)).

(** The [UPDATE] policies of [complaints]. *)
Definition complaints_update_using (c : complaints.row) : bool :=
  sql_true (sql_or (Staff_can_update_assigned_complaints c)
                   (Admins_can_manage_all_complaints c)).

(** [UPDATE ... WHERE id = ...] on [complaints]: the statement reads the
    row, so the row has to pass the [SELECT] policies as well. *)
Definition canUpdate (c : complaints.row) : bool :=
  canRead c && complaints_update_using c.

(** The rows of [complaints] a query of the principal ranges over. *)
Definition visible_complaints : list complaints.row :=
  filter canRead (tbl_complaints db).

(** ** Policies on [comments] *)

(** The condition of the sub-select [SELECT 1 FROM public.complaints
    WHERE id = complaint_id AND (...)] on one row of [complaints]. *)
Definition accessible_complaint (complaint_id : uuid) (c : complaints.row) : sql_bool :=
  sql_and
    (sql_eq (Some (complaints.id c)) (Some complaint_id))
    (sql_or
       (sql_or (sql_eq (Some (complaints.student_id c)) (Some uid))
               (sql_eq (complaints.assigned_to c) (Some uid)))
       (Some (has_role db uid admin))).

(** [EXISTS (SELECT 1 FROM public.complaints WHERE ...)] over the rows
    the sub-select ranges over. *)
Definition exists_accessible_complaint (rows : list complaints.row)
    (complaint_id : uuid) : bool :=
  existsb (fun c => sql_true (accessible_complaint complaint_id c)) rows.

(** The sub-select of a policy is part of the principal's query and, unlike
    [has_role], not [SECURITY DEFINER]: row security is enabled on
    [public.complaints], so the sub-select ranges over the rows the
    principal may read, [visible_complaints]. *)
Definition Users_can_view_comments_on_accessible_complaints
    (m : comments.row) : sql_bool :=
  Some (exists_accessible_complaint visible_complaints (comments.complaint_id m)).

Definition Users_can_create_comments_on_accessible_complaints
    (m : comments.row) : sql_bool :=
  sql_and
    (sql_eq (Some uid) (Some (comments.user_id m)))
    (Some (exists_accessible_complaint visible_complaints (comments.complaint_id m))).

(** [SELECT] on [comments]. *)
Definition canReadComment (m : comments.row) : bool :=
  sql_true (Users_can_view_comments_on_accessible_complaints m).

(** [INSERT] on [comments]. *)
Definition canInsertComment (m : comments.row) : bool :=
  sql_true (Users_can_create_comments_on_accessible_complaints m).

End Policies.

(* ================================================================== *)
(** * Statements sent by the handlers *)
(* ================================================================== *)

(** A statement either commits a new database or fails as a whole
    ([if (error) throw error]); a failed statement changes nothing. *)
Inductive outcome : Type :=
| Committed (db' : database)
| Failed.

Definition uuid_in (x : uuid) (l : list uuid) : bool := existsb (N.eqb x) l.

(** ** [complaints] *)

Definition set_complaints (db : database) (cs : list complaints.row) : database :=
  {| auth_users := auth_users db;
     tbl_user_roles := tbl_user_roles db;
     tbl_complaints := cs;
     tbl_comments := tbl_comments db |}.

(** Trigger [update_complaints_updated_at]: [NEW.updated_at = now()]. *)
Definition update_updated_at (now : string) (c : complaints.row) : complaints.row :=
  {| complaints.id := complaints.id c;
     complaints.student_id := complaints.student_id c;
     complaints.title := complaints.title c;
     complaints.description := complaints.description c;
     complaints.category := complaints.category c;
     complaints.status := complaints.status c;
     complaints.assigned_to := complaints.assigned_to c;
     complaints.created_at := complaints.created_at c;
     complaints.updated_at := now |}.

Definition set_status (s : complaint_status) (c : complaints.row) : complaints.row :=
  {| complaints.id := complaints.id c;
     complaints.student_id := complaints.student_id c;
     complaints.title := complaints.title c;
     complaints.description := complaints.description c;
     complaints.category := complaints.category c;
     complaints.status := s;
     complaints.assigned_to := complaints.assigned_to c;
     complaints.created_at := complaints.created_at c;
     complaints.updated_at := complaints.updated_at c |}.

Definition set_assigned_to (a : option uuid) (c : complaints.row) : complaints.row :=
  {| complaints.id := complaints.id c;
     complaints.student_id := complaints.student_id c;
     complaints.title := complaints.title c;
     complaints.description := complaints.description c;
     complaints.category := complaints.category c;
     complaints.status := complaints.status c;
     complaints.assigned_to := a;
     complaints.created_at := complaints.created_at c;
     complaints.updated_at := complaints.updated_at c |}.

(** The foreign key of [assigned_to] ([REFERENCES auth.users(id)]),
    checked when a statement gives the column a new value. *)
Definition assigned_to_fk (db : database) (old new : complaints.row) : bool :=
  match complaints.assigned_to old, complaints.assigned_to new with
  | _, None => true
  | Some u, Some v => N.eqb u v || uuid_in v (auth_users db)
  | None, Some v => uuid_in v (auth_users db)
  end.

(** [UPDATE public.complaints SET ... WHERE id = complaintId] sent by the
    principal [uid].  The rows that match and pass [canUpdate] are
    rewritten by [set] and by the [updated_at] trigger; every rewritten row
    has to pass the policies again (no [WITH CHECK] is declared, so the
    [USING] expression is the check) and keep the foreign key.  [has_role]
    is [STABLE]: it reads the roles as they were when the statement began. *)
Definition update_complaint (db : database) (uid : uuid) (now : string)
    (complaintId : uuid) (set : complaints.row -> complaints.row) : outcome :=
  let hit c := N.eqb (complaints.id c) complaintId && canUpdate db uid c in
  let new c := update_updated_at now (set c) in
  if forallb (fun c => negb (hit c) || (canUpdate db uid (new c) && assigned_to_fk db c (new c)))
             (tbl_complaints db)
  then Committed (set_complaints db
                    (map (fun c => if hit c then new c else c) (tbl_complaints db)))
  else Failed.

(** [handleStatusUpdate]: [.update({ status: newStatus }).eq("id", id)]. *)
Definition handleStatusUpdate (db : database) (uid : uuid) (now : string)
    (id : uuid) (newStatus : complaint_status) : outcome :=
  update_complaint db uid now id (set_status newStatus).

(** [handleAssignStaff]:
    [.update({ assigned_to: staffId, status: "in_progress" }).eq("id", complaintId)]. *)
Definition handleAssignStaff (db : database) (uid : uuid) (now : string)
    (complaintId staffId : uuid) : outcome :=
  update_complaint db uid now complaintId
    (fun c => set_status in_progress (set_assigned_to (Some staffId) c)).

(** [handleSubmitComplaint]: [.insert([{ student_id: user.id, title,
    description, category, status: "pending" }])].  [new_id] is the value
    of [gen_random_uuid()] and [now] that of [now()]; [assigned_to] has no
    default and is NULL.  The row has to pass [canInsert], the primary key
    and the foreign key of [student_id]. *)
Definition handleSubmitComplaint (db : database) (uid : uuid) (new_id : uuid)
    (now : string) (title description : string) (category : complaint_category)
    : outcome :=
  let c := {| complaints.id := new_id;
              complaints.student_id := uid;
              complaints.title := title;
              complaints.description := description;
              complaints.category := category;
              complaints.status := pending;
              complaints.assigned_to := None;
              complaints.created_at := now;
              complaints.updated_at := now |} in
  if canInsert db uid c
     && negb (uuid_in new_id (map complaints.id (tbl_complaints db)))
     && uuid_in uid (auth_users db)
  then Committed (set_complaints db (tbl_complaints db ++ [c]))
  else Failed.

(** ** [user_roles] *)

Definition set_user_roles (db : database) (rs : list user_roles.row) : database :=
  {| auth_users := auth_users db;
     tbl_user_roles := rs;
     tbl_complaints := tbl_complaints db;
     tbl_comments := tbl_comments db |}.

Definition set_role (r : app_role) (x : user_roles.row) : user_roles.row :=
  {| user_roles.id := user_roles.id x;
     user_roles.user_id := user_roles.user_id x;
     user_roles.role := r |}.

(** [SELECT] and [UPDATE] on [user_roles]. *)
Definition canReadRole (db : database) (uid : uuid) (r : user_roles.row) : bool :=
  sql_true (sql_or (Anyone_can_view_their_own_role uid r)
                   (Admins_can_manage_all_roles db uid r)).

Definition canUpdateRole (db : database) (uid : uuid) (r : user_roles.row) : bool :=
  canReadRole db uid r && sql_true (Admins_can_manage_all_roles db uid r).

(** [UNIQUE(user_id, role)]. *)
Fixpoint unique_user_id_role (rs : list user_roles.row) : bool :=
  match rs with
  | [] => true
  | r :: rest =>
      negb (existsb (fun x => N.eqb (user_roles.user_id x) (user_roles.user_id r)
                              && app_role_eqb (user_roles.role x) (user_roles.role r))
                    rest)
      && unique_user_id_role rest
  end.

(** [UPDATE public.user_roles SET role = r WHERE user_id = userId] sent by
    the principal [uid]. *)
Definition update_role (db : database) (uid : uuid) (userId : uuid) (r : app_role)
    : outcome :=
  let hit x := N.eqb (user_roles.user_id x) userId && canUpdateRole db uid x in
  let rs := map (fun x => if hit x then set_role r x else x) (tbl_user_roles db) in
  if forallb (fun x => negb (hit x) || canUpdateRole db uid (set_role r x))
             (tbl_user_roles db)
     && unique_user_id_role rs
  then Committed (set_user_roles db rs)
  else Failed.

(** [handlePromoteToStaff]: [.update({ role: "staff" }).eq("user_id", userId)]. *)
Definition handlePromoteToStaff (db : database) (uid userId : uuid) : outcome :=
  update_role db uid userId staff.

(** [handleDemoteToStudent]: [.update({ role: "student" }).eq("user_id", userId)]. *)
Definition handleDemoteToStudent (db : database) (uid userId : uuid) : outcome :=
  update_role db uid userId student.

(** Trigger [on_auth_user_created] / [handle_new_user], the part on
    [user_roles]: the new user gets the role [student];
    [role_row_id] is the value of [gen_random_uuid()]. *)
Definition handle_new_user (db : database) (new_user role_row_id : uuid) : database :=
  {| auth_users := auth_users db ++ [new_user];
     tbl_user_roles := tbl_user_roles db
                       ++ [ {| user_roles.id := role_row_id;
                               user_roles.user_id := new_user;
                               user_roles.role := student |} ];
     tbl_complaints := tbl_complaints db;
     tbl_comments := tbl_comments db |}.

(** ** Sequences of operations *)

(** The requests of the handlers, each sent by a principal. *)
Inductive request : Type :=
| SubmitComplaint (uid new_id : uuid) (now : string)
                  (title description : string) (category : complaint_category)
| StatusUpdate (uid : uuid) (now : string) (id : uuid) (newStatus : complaint_status)
| AssignStaff (uid : uuid) (now : string) (complaintId staffId : uuid)
| PromoteToStaff (uid userId : uuid)
| DemoteToStudent (uid userId : uuid).

Definition handle (db : database) (q : request) : outcome :=
  match q with
  | SubmitComplaint uid new_id now t d c => handleSubmitComplaint db uid new_id now t d c
  | StatusUpdate uid now id s => handleStatusUpdate db uid now id s
  | AssignStaff uid now cid sid => handleAssignStaff db uid now cid sid
  | PromoteToStaff uid userId => handlePromoteToStaff db uid userId
  | DemoteToStudent uid userId => handleDemoteToStudent db uid userId
  end.

(** The database after a request: a failed statement leaves it as it was. *)
Definition step (db : database) (q : request) : database :=
  match handle db q with
  | Committed db' => db'
  | Failed => db
  end.

Definition run (db : database) (qs : list request) : database :=
  fold_left step qs db.

(** The role requests of the admin dashboard. *)
Definition is_role_request (q : request) : bool :=
  match q with
  | PromoteToStaff _ _ | DemoteToStudent _ _ => true
  | _ => false
  end.

(** The rows of [user_roles] of one user. *)
Definition role_rows (db : database) (u : uuid) : list user_roles.row :=
  filter (fun r => N.eqb (user_roles.user_id r) u) (tbl_user_roles db).

(** [canUpdateStatus] of the complaint page, on the role of the session. *)
Definition canUpdateStatus (userRole : option app_role) : bool :=
  match userRole with
  | Some staff | Some admin => true
  | _ => false
  end.

(* ================================================================== *)
(** * JavaScript [Date] (ECMA-262, Date objects) *)
(* ================================================================== *)

(** A time value is a number of milliseconds since the epoch, UTC.  The
    offset of the local zone, [LocalTZA], depends on the time (daylight
    saving) and is a parameter of the functions that read local fields. *)

Local Open Scope Z_scope.

Definition msPerDay : Z := 86400000.

Definition Day (t : Z) : Z := t / msPerDay.

Definition TimeWithinDay (t : Z) : Z := t mod msPerDay.

Definition DaysInYear (y : Z) : Z :=
  if negb (y mod 4 =? 0) then 365
  else if negb (y mod 100 =? 0) then 366
  else if negb (y mod 400 =? 0) then 365
  else 366.

Definition DayFromYear (y : Z) : Z :=
  365 * (y - 1970) + (y - 1969) / 4 - (y - 1901) / 100 + (y - 1601) / 400.

(** The largest [y] in [lo, hi) with [DayFromYear y <= d], by bisection. *)
Fixpoint year_search (fuel : nat) (lo hi d : Z) : Z :=
  match fuel with
  | O => lo
  | S fuel' =>
      if hi <=? lo + 1 then lo
      else
        let mid := (lo + hi) / 2 in
        if DayFromYear mid <=? d then year_search fuel' mid hi d
        else year_search fuel' lo mid d
  end.

(** Years of the time values a [Date] can hold lie in [-271821, 275760]. *)
Definition YearFromDay (d : Z) : Z := year_search 20 (-271822) 275761 d.

Definition YearFromTime (t : Z) : Z := YearFromDay (Day t).

Definition InLeapYear (t : Z) : Z :=
  if DaysInYear (YearFromTime t) =? 366 then 1 else 0.

Definition DayWithinYear (t : Z) : Z := Day t - DayFromYear (YearFromTime t).

(** Day number within the year of the first day of month [m] (0 to 11). *)
Definition month_start (leap m : Z) : Z :=
  if m =? 0 then 0
  else if m =? 1 then 31
  else if m =? 2 then 59 + leap
  else if m =? 3 then 90 + leap
  else if m =? 4 then 120 + leap
  else if m =? 5 then 151 + leap
  else if m =? 6 then 181 + leap
  else if m =? 7 then 212 + leap
  else if m =? 8 then 243 + leap
  else if m =? 9 then 273 + leap
  else if m =? 10 then 304 + leap
  else 334 + leap.

Definition MonthFromTime (t : Z) : Z :=
  let d := DayWithinYear t in
  let leap := InLeapYear t in
  if d <? 31 then 0
  else if d <? 59 + leap then 1
  else if d <? 90 + leap then 2
  else if d <? 120 + leap then 3
  else if d <? 151 + leap then 4
  else if d <? 181 + leap then 5
  else if d <? 212 + leap then 6
  else if d <? 243 + leap then 7
  else if d <? 273 + leap then 8
  else if d <? 304 + leap then 9
  else if d <? 334 + leap then 10
  else 11.

Definition DateFromTime (t : Z) : Z :=
  DayWithinYear t - month_start (InLeapYear t) (MonthFromTime t) + 1.

Definition HourFromTime (t : Z) : Z := (t / 3600000) mod 24.
Definition MinFromTime (t : Z) : Z := (t / 60000) mod 60.
Definition SecFromTime (t : Z) : Z := (t / 1000) mod 60.
Definition msFromTime (t : Z) : Z := t mod 1000.

Definition MakeTime (hour min sec ms : Z) : Z :=
  hour * 3600000 + min * 60000 + sec * 1000 + ms.

Definition MakeDay (year month date : Z) : Z :=
  let ym := year + month / 12 in
  let mn := month mod 12 in
  let leap := if DaysInYear ym =? 366 then 1 else 0 in
  DayFromYear ym + month_start leap mn + date - 1.

Definition MakeDate (day time : Z) : Z := day * msPerDay + time.

Section LocalZone.

(** [LocalTZA(t, isUTC)]: the offset of the local zone in milliseconds, at
    the time value [t] when [isUTC] is [true] and at the local time [t]
    when it is [false].  It is implementation-defined: it follows the rules
    of the zone of the browser. *)
Variable LocalTZA : Z -> bool -> Z.

Definition LocalTime (t : Z) : Z := t + LocalTZA t true.

Definition UTC (t : Z) : Z := t - LocalTZA t false.

(** [date.getDate()] *)
Definition getDate (t : Z) : Z := DateFromTime (LocalTime t).

(** [date.setDate(dt)]: the time value the date holds afterwards. *)
Definition setDate (t : Z) (dt : Z) : Z :=
  let lt := LocalTime t in
  UTC (MakeDate (MakeDay (YearFromTime lt) (MonthFromTime lt) dt)
                (TimeWithinDay lt)).

End LocalZone.

(** ** Rendering *)

Definition digit (n : Z) : ascii := ascii_of_N (48 + Z.to_N n).

Definition pad2 (n : Z) : string :=
  String (digit (n / 10)) (String (digit (n mod 10)) EmptyString).

Definition pad3 (n : Z) : string :=
  String (digit (n / 100)) (pad2 (n mod 100)).

Definition pad4 (n : Z) : string :=
  String (digit (n / 1000)) (pad3 (n mod 1000)).

Definition pad6 (n : Z) : string :=
  pad2 (n / 10000) ++ pad4 (n mod 10000).

(** The year of the ISO format: four digits, or a sign and six digits
    outside 0 to 9999. *)
Definition iso_year (y : Z) : string :=
  if (0 <=? y) && (y <=? 9999) then pad4 y
  else (if y <? 0 then "-" else "+") ++ pad6 (Z.abs y).

(** [date.toISOString().split('T')[0]]: the part [YYYY-MM-DD] of the ISO
    rendering, which is in UTC. *)
Definition toISOString_date (t : Z) : string :=
  iso_year (YearFromTime t) ++ "-" ++ pad2 (MonthFromTime t + 1)
    ++ "-" ++ pad2 (DateFromTime t).

(** [date.toISOString()] *)
Definition toISOString (t : Z) : string :=
  toISOString_date t ++ "T" ++ pad2 (HourFromTime t) ++ ":" ++ pad2 (MinFromTime t)
    ++ ":" ++ pad2 (SecFromTime t) ++ "." ++ pad3 (msFromTime t) ++ "Z".

Definition month_short (m : Z) : string :=
  nth (Z.to_nat m)
      ["Jan"; "Feb"; "Mar"; "Apr"; "May"; "Jun";
       "Jul"; "Aug"; "Sep"; "Oct"; "Nov"; "Dec"]%string ""%string.

Definition day_numeric (d : Z) : string :=
  if d <? 10 then String (digit d) EmptyString else pad2 d.

(** [date.toLocaleDateString('en-US', { month: 'short', day: 'numeric' })] *)
Definition toLocaleDateString_short (LocalTZA : Z -> bool -> Z) (t : Z) : string :=
  let lt := LocalTime LocalTZA t in
  month_short (MonthFromTime lt) ++ " " ++ day_numeric (DateFromTime lt).

(** ** Parsing *)

(** [new Date(s)] for the date-time strings the backend sends:
    [YYYY-MM-DDTHH:mm:ss], an optional fraction of a second (digits after
    the third are dropped) and [Z] or an offset [+HH:mm] / [-HH:mm].  Any
    other string gives [NaN], here [None]. *)

Definition digit_val (c : ascii) : option Z :=
  let n := N_of_ascii c in
  if ((48 <=? n) && (n <=? 57))%N then Some (Z.of_N n - 48) else None.

Fixpoint read_digits (n : nat) (acc : Z) (s : string) : option (Z * string) :=
  match n with
  | O => Some (acc, s)
  | S n' =>
      match s with
      | String c rest =>
          match digit_val c with
          | Some v => read_digits n' (10 * acc + v) rest
          | None => None
          end
      | EmptyString => None
      end
  end.

Definition expect (c : ascii) (s : string) : option string :=
  match s with
  | String c' rest => if Ascii.eqb c c' then Some rest else None
  | EmptyString => None
  end.

Fixpoint skip_digits (s : string) : string :=
  match s with
  | String c rest =>
      match digit_val c with
      | Some _ => skip_digits rest
      | None => s
      end
  | EmptyString => s
  end.

(** The digits after the decimal point, as milliseconds. *)
Definition read_fraction (s : string) : option (Z * string) :=
  match read_digits 1 0 s with
  | None => None
  | Some (d1, s1) =>
      match read_digits 1 0 s1 with
      | None => Some (100 * d1, s1)
      | Some (d2, s2) =>
          match read_digits 1 0 s2 with
          | None => Some (100 * d1 + 10 * d2, s2)
          | Some (d3, s3) => Some (100 * d1 + 10 * d2 + d3, skip_digits s3)
          end
      end
  end.

(** [Z] or a signed offset, as milliseconds east of UTC; nothing follows. *)
Definition read_offset (s : string) : option Z :=
  match s with
  | String "Z" EmptyString => Some 0
  | String sign rest =>
      match read_digits 2 0 rest with
      | Some (hh, rest1) =>
          match expect ":" rest1 with
          | Some rest2 =>
              match read_digits 2 0 rest2 with
              | Some (mm, EmptyString) =>
                  if (hh <=? 23) && (mm <=? 59) then
                    if Ascii.eqb sign "+" then Some ((hh * 60 + mm) * 60000)
                    else if Ascii.eqb sign "-" then Some (- ((hh * 60 + mm) * 60000))
                    else None
                  else None
              | _ => None
              end
          | None => None
          end
      | None => None
      end
  | EmptyString => None
  end.

Notation "'let?' x ':=' e 'in' k" :=
  (match e with Some x => k | None => None end)
  (at level 10, x pattern, e at level 100, k at level 200, only parsing).

Definition Date_parse (s : string) : option Z :=
  let? (year, s) := read_digits 4 0 s in
  let? s := expect "-" s in
  let? (month, s) := read_digits 2 0 s in
  let? s := expect "-" s in
  let? (date, s) := read_digits 2 0 s in
  let? s := expect "T" s in
  let? (hour, s) := read_digits 2 0 s in
  let? s := expect ":" s in
  let? (min, s) := read_digits 2 0 s in
  let? s := expect ":" s in
  let? (sec, s) := read_digits 2 0 s in
  let? (ms, s) := match expect "." s with
                  | Some s' => read_fraction s'
                  | None => Some (0, s)
                  end in
  let? offset := read_offset s in
  if (1 <=? month) && (month <=? 12) && (1 <=? date) && (date <=? 31)
     && (hour <=? 23) && (min <=? 59) && (sec <=? 59)
  then Some (MakeDate (MakeDay year (month - 1) date) (MakeTime hour min sec ms)
             - offset)
  else None.


(* ================================================================== *)
(** * Derived views of the admin dashboard *)
(* ================================================================== *)

(** [student_profile: { full_name: string } | null] *)
Record profile : Type := mkprofile { full_name : string }.

(** [type Complaint]: a row of [complaints] ([select("*")]) together with
    the profile of its student. *)
Record Complaint : Type := mkComplaint {
  row :> complaints.row;
  student_profile : option profile
}.

(** Truthiness of [c.assigned_to]: [null] is falsy, a uuid string is not
    empty and so truthy. *)
Definition truthy (a : option uuid) : bool :=
  match a with
  | Some _ => true
  | None => false
  end.

(** ** [sortedComplaints] *)

(** A JavaScript number that may be [NaN] ([None]). *)
Definition number : Type := option Z.

Definition number_sub (a b : number) : number :=
  match a, b with
  | Some x, Some y => Some (x - y)
  | _, _ => None
  end.

(** [a < b] on numbers: false when either side is [NaN]. *)
Definition number_lt (a b : number) : bool :=
  match a, b with
  | Some x, Some y => x <? y
  | _, _ => false
  end.

(** [new Date(s).getTime()] *)
Definition getTime (s : string) : number := Date_parse s.

(** [Array.prototype.sort(comparefn)].  The sort is stable and treats a
    [NaN] of the comparator as [+0]; an element is placed before the first
    element that has to come after it.  For a consistent comparator the
    result of a stable sort does not depend on the algorithm
    ([Array_sort_unique]). *)
Section ArraySort.

Variable A : Type.
Variable comparefn : A -> A -> number.

Definition SortCompare (x y : A) : Z :=
  match comparefn x y with
  | Some v => v
  | None => 0
  end.

Fixpoint insert_sorted (x : A) (l : list A) : list A :=
  match l with
  | [] => [x]
  | y :: l' => if SortCompare x y <=? 0 then x :: l else y :: insert_sorted x l'
  end.

Fixpoint Array_sort (l : list A) : list A :=
  match l with
  | [] => []
  | x :: l' => insert_sorted x (Array_sort l')
  end.

End ArraySort.

Arguments SortCompare {A} comparefn x y.
Arguments insert_sorted {A} comparefn x l.
Arguments Array_sort {A} comparefn l.

Section Views.

(** [String.prototype.localeCompare], which depends on the locale of the
    browser. *)
Variable localeCompare : string -> string -> Z.

(** The offset of the local zone of the browser, [LocalTZA(t, isUTC)]. *)
Variable LocalTZA : Z -> bool -> Z.

(** [a.student_profile?.full_name || ""] *)
Definition student_name (a : Complaint) : string :=
  match student_profile a with
  | Some p => full_name p
  | None => ""%string
  end.

(** The comparator of [sortedComplaints]: the [switch (sortBy)]. *)
Definition compareBy (sortBy : string) (a b : Complaint) : number :=
  if String.eqb sortBy "newest" then
    number_sub (getTime (complaints.created_at b)) (getTime (complaints.created_at a))
  else if String.eqb sortBy "oldest" then
    number_sub (getTime (complaints.created_at a)) (getTime (complaints.created_at b))
  else if String.eqb sortBy "student" then
    Some (localeCompare (student_name a) (student_name b))
  else if String.eqb sortBy "title" then
    Some (localeCompare (complaints.title a) (complaints.title b))
  else Some 0.

Definition sortedComplaints (sortBy : string) (filteredComplaints : list Complaint)
    : list Complaint :=
  Array_sort (compareBy sortBy) filteredComplaints.

Definition unassignedComplaints (sorted : list Complaint) : list Complaint :=
  filter (fun c : Complaint => negb (truthy (complaints.assigned_to c))) sorted.

Definition assignedComplaints (sorted : list Complaint) : list Complaint :=
  filter (fun c : Complaint => truthy (complaints.assigned_to c)) sorted.

(** ** [categoryData] *)

(** [{ name: string; value: number }] *)
Record category_count : Type := mkcount {
  name : complaint_category;
  value : nat
}.

(** [existing.value++] on the entry [acc.find(...)] returned: the first
    entry of that name, changed in place. *)
Fixpoint increment (category : complaint_category) (acc : list category_count)
    : list category_count :=
  match acc with
  | [] => []
  | item :: rest =>
      if complaint_category_eqb (name item) category
      then {| name := name item; value := S (value item) |} :: rest
      else item :: increment category rest
  end.

Definition categoryData (complaints : list Complaint) : list category_count :=
  fold_left
    (fun acc (complaint : Complaint) =>
       let category := complaints.category complaint in
       match find (fun item => complaint_category_eqb (name item) category) acc with
       | Some existing => increment category acc
       | None => acc ++ [ {| name := category; value := 1 |} ]
       end)
    complaints [].

(** ** [last7DaysData] *)

(** [{ date: string; complaints: number }] *)
Record day_count : Type := mkday {
  date : string;
  complaints : nat
}.

(** [now] is the time value of [new Date()]; the seven calls within one
    render are taken to return the same value. *)
Definition last7DaysData (now : Z) (complaints : list Complaint) : list day_count :=
  map
    (fun i =>
       let date := setDate LocalTZA now (getDate LocalTZA now - (6 - i)) in
       let dateString := toISOString_date date in
       let count :=
         List.length (filter (fun c : Complaint =>
                          String.prefix dateString (complaints.created_at c))
                        complaints) in
       {| date := toLocaleDateString_short LocalTZA date; complaints := count |})
    (map Z.of_nat (seq 0 7)).

(** ** [overdueComplaints] *)

Definition threeDaysAgo (now : Z) : Z :=
  setDate LocalTZA now (getDate LocalTZA now - 3).

Definition overdueComplaints (now : Z) (complaints : list Complaint) : list Complaint :=
  filter
    (fun c : Complaint =>
       complaint_status_eqb (complaints.status c) pending
       && negb (truthy (complaints.assigned_to c))
       && number_lt (getTime (complaints.created_at c)) (Some (threeDaysAgo now)))
    complaints.

End Views.

(* ================================================================== *)
(** * Profiles, comments and the other statements of the pages *)
(* ================================================================== *)

(** Rows of [public.profiles]. *)
Module profiles.
Record row : Type := mk {
  id : uuid;
  full_name : string;
  email : string;
  created_at : string;
  updated_at : string
}.
End profiles.

(** Policy "Users can view all profiles": [USING (true)]. *)
Definition Users_can_view_all_profiles (uid : uuid) (p : profiles.row) : sql_bool :=
  Some true.

(** Policy "Users can update own profile": [USING (auth.uid() = id)]. *)
Definition Users_can_update_own_profile (uid : uuid) (p : profiles.row) : sql_bool :=
  sql_eq (Some uid) (Some (profiles.id p)).

(** The rows of [profiles] a query of the principal ranges over. *)
Definition visible_profiles (uid : uuid) (ps : list profiles.row) : list profiles.row :=
  filter (fun p => sql_true (Users_can_view_all_profiles uid p)) ps.

(** The rows of [user_roles] a query of the principal ranges over. *)
Definition visible_roles (db : database) (uid : uuid) : list user_roles.row :=
  filter (canReadRole db uid) (tbl_user_roles db).

(** [public.get_user_role(_user_id)]: [SELECT role ... WHERE user_id =
    _user_id LIMIT 1].  Without [ORDER BY] the row is any of the user's
    rows; the first in the table is taken here. *)
Definition get_user_role (db : database) (_user_id : uuid) : option app_role :=
  option_map user_roles.role
    (find (fun r => N.eqb (user_roles.user_id r) _user_id) (tbl_user_roles db)).

(** ** [comments] *)

Definition set_comments (db : database) (ms : list comments.row) : database :=
  {| auth_users := auth_users db;
     tbl_user_roles := tbl_user_roles db;
     tbl_complaints := tbl_complaints db;
     tbl_comments := ms |}.

(** [INSERT INTO public.comments] sent by the principal [uid]: the row has
    to pass [canInsertComment], the primary key and the two foreign keys
    (foreign keys are checked on all rows, whatever the policies). *)
Definition insert_comment (db : database) (uid : uuid) (m : comments.row) : outcome :=
  if canInsertComment db uid m
     && negb (uuid_in (comments.id m) (map comments.id (tbl_comments db)))
     && uuid_in (comments.complaint_id m) (map complaints.id (tbl_complaints db))
     && uuid_in (comments.user_id m) (auth_users db)
  then Committed (set_comments db (tbl_comments db ++ [m]))
  else Failed.

Section ComplaintDetail.

(** [String.prototype.trim]. *)
Variable trim : string -> string.

(** [handleAddComment]: [if (!newComment.trim()) return;] and then
    [.insert({ complaint_id: id, user_id: user.id, message:
    newComment.trim() })].  [None]: no statement is sent.  [new_id] is the
    value of [gen_random_uuid()] and [now] that of [now()]. *)
Definition handleAddComment (db : database) (uid id new_id : uuid)
    (now newComment : string) : option outcome :=
  if String.eqb (trim newComment) "" then None
  else Some (insert_comment db uid
               {| comments.id := new_id;
                  comments.complaint_id := id;
                  comments.user_id := uid;
                  comments.message := trim newComment;
                  comments.created_at := now |}).

(** What a principal does on the pages: a request of the dashboards or a
    comment on the complaint page. *)
Inductive action : Type :=
| Handler (q : request)
| AddComment (uid id new_id : uuid) (now newComment : string).

(** The database after an action. *)
Definition act (db : database) (a : action) : database :=
  match a with
  | Handler q => step db q
  | AddComment uid id new_id now newComment =>
      match handleAddComment db uid id new_id now newComment with
      | Some (Committed db') => db'
      | _ => db
      end
  end.

End ComplaintDetail.

(** ** The fetches *)

(** [new Map(entries)] followed by [.get(key)]: the value of the last
    entry of that key, [undefined] ([None]) without one. *)
Definition Map_get {V : Type} (entries : list (uuid * V)) (key : uuid) : option V :=
  option_map snd (find (fun e => N.eqb (fst e) key) (rev entries)).

(** [type Comment] of the complaint page: a row of [comments] with the
    profile of its author. *)
Record Comment : Type := mkComment {
  comment_row :> comments.row;
  user_profile : option profile
}.

(** [type StaffMember] and [type User] of the admin dashboard. *)
Module StaffMember.
Record t : Type := mk {
  id : uuid;
  full_name : string;
  email : string
}.
End StaffMember.

Module User.
Record t : Type := mk {
  id : uuid;
  full_name : string;
  email : string;
  role : app_role
}.
End User.

(** The state [complaint] of the complaint page,
    [useState<Complaint | null>(null)]: [None] for [null], with which the
    page renders nothing, or a complaint with the profile of its student. *)
Definition page_complaint : Type := option (complaints.row * option profiles.row).

(** What a run of [fetchComplaintDetails] leaves: the state [complaint] of
    the page, or the error notice followed by [navigate("/")]. *)
Inductive detail : Type :=
| Page (complaint : page_complaint)
| DetailError.

Section Fetches.

(** [.order("created_at", { ascending })] on [complaints] and on
    [comments], done by the backend. *)
Variable order_complaints : bool -> list complaints.row -> list complaints.row.
Variable order_comments : bool -> list comments.row -> list comments.row.

(** The table [profiles]. *)
Variable tbl_profiles : list profiles.row.

Variable db : database.

(** [auth.uid()] of the session; [user] is not null on the pages. *)
Variable uid : uuid.

(** The profiles [.in("id", ids)] returns. *)
Definition profiles_in (ids : list uuid) : list profiles.row :=
  filter (fun p => uuid_in (profiles.id p) ids) (visible_profiles uid tbl_profiles).

(** [const profileMap = new Map(profiles?.map(p => [p.id, p]) || [])] and
    [data.map(c => ({ ...c, student_profile: profileMap.get(c.student_id) ||
    null }))]. *)
Definition complaintsWithProfiles (data : list complaints.row) : list Complaint :=
  let studentIds := map complaints.student_id data in
  let profileMap := map (fun p => (profiles.id p, p)) (profiles_in studentIds) in
  map (fun c =>
         {| row := c;
            student_profile :=
              option_map (fun p => {| full_name := profiles.full_name p |})
                         (Map_get profileMap (complaints.student_id c)) |})
      data.

(** [StudentDashboard.fetchComplaints]:
    [.select("*").eq("student_id", user.id).order("created_at", { ascending: false })]. *)
Definition fetchComplaints : list complaints.row :=
  order_complaints false
    (filter (fun c => N.eqb (complaints.student_id c) uid) (visible_complaints db uid)).

(** [StaffDashboard.fetchAssignedComplaints]:
    [.select("*").eq("assigned_to", user.id).order(...)], then the profiles
    of the students when the result is not empty. *)
Definition fetchAssignedComplaints : list Complaint :=
  let data :=
    order_complaints false
      (filter (fun c => sql_true (sql_eq (complaints.assigned_to c) (Some uid)))
              (visible_complaints db uid)) in
  match data with
  | [] => []
  | _ :: _ => complaintsWithProfiles data
  end.

(** [ComplaintDetail.fetchComplaintDetails], from the state [prev] of the
    page: [.select("*").eq("id", id).maybeSingle()], which is an error on
    more than one row, and then the profile of the student with
    [.single()], whose error is not looked at.  [setComplaint] is called
    under [if (data)] only: without a row the state stays as it was.  The
    function runs when the page is mounted, when [id] changes and after
    every status update. *)
Definition fetchComplaintDetails (prev : page_complaint) (id : uuid) : detail :=
  match filter (fun c => N.eqb (complaints.id c) id) (visible_complaints db uid) with
  | [] => Page prev
  | [data] =>
      Page (Some (data,
                  match filter (fun p => N.eqb (profiles.id p)
                                               (complaints.student_id data))
                               (visible_profiles uid tbl_profiles) with
                  | [p] => Some p
                  | _ => None
                  end))
  | _ => DetailError
  end.

(** The rows of [comments] a query of the principal ranges over. *)
Definition visible_comments : list comments.row :=
  filter (canReadComment db uid) (tbl_comments db).

(** [ComplaintDetail.fetchComments]:
    [.select("*").eq("complaint_id", id).order("created_at", { ascending: true })],
    then the profiles of the authors when the result is not empty. *)
Definition fetchComments (id : uuid) : list Comment :=
  let data :=
    order_comments true
      (filter (fun m => N.eqb (comments.complaint_id m) id) visible_comments) in
  match data with
  | [] => []
  | _ :: _ =>
      let userIds := map comments.user_id data in
      let profileMap := map (fun p => (profiles.id p, p)) (profiles_in userIds) in
      map (fun m =>
             {| comment_row := m;
                user_profile :=
                  option_map (fun p => {| full_name := profiles.full_name p |})
                             (Map_get profileMap (comments.user_id m)) |})
          data
  end.

(** The state of the admin dashboard that [fetchData] sets. *)
Record AdminState : Type := mkAdminState {
  st_complaints : list Complaint;
  st_staffMembers : list StaffMember.t;
  st_allUsers : list User.t
}.

(** [AdminDashboard.fetchData], from the state [prev] of the page.
    [setComplaints] is called on every run; [setStaffMembers] only when the
    query of the staff roles returns a row. *)
Definition fetchData (prev : AdminState) : AdminState :=
  let complaintsData := order_complaints false (visible_complaints db uid) in
  let staffData :=
    filter (fun r => app_role_eqb (user_roles.role r) staff) (visible_roles db uid) in
  let allProfilesData := visible_profiles uid tbl_profiles in
  let allRolesData := visible_roles db uid in
  let roleMap := map (fun r => (user_roles.user_id r, user_roles.role r)) allRolesData in
  {| st_complaints :=
       match complaintsData with
       | [] => []
       | _ :: _ => complaintsWithProfiles complaintsData
       end;
     st_staffMembers :=
       match staffData with
       | [] => st_staffMembers prev
       | _ :: _ =>
           let staffIds := map user_roles.user_id staffData in
           map (fun p => {| StaffMember.id := profiles.id p;
                            StaffMember.full_name := profiles.full_name p;
                            StaffMember.email := profiles.email p |})
               (profiles_in staffIds)
       end;
     st_allUsers :=
       map (fun p => {| User.id := profiles.id p;
                        User.full_name := profiles.full_name p;
                        User.email := profiles.email p;
                        User.role := match Map_get roleMap (profiles.id p) with
                                     | Some r => r
                                     | None => student
                                     end |})
           allProfilesData |}.

End Fetches.

(** ** Filters and counts of the admin dashboard *)

(** [s.includes(sub)] *)
Fixpoint includes (s sub : string) : bool :=
  String.prefix sub s
  || match s with
     | EmptyString => false
     | String _ rest => includes rest sub
     end.

Section Filters.

(** [String.prototype.toLowerCase]. *)
Variable toLowerCase : string -> string.

(** [filteredComplaints].  The two selects hold ["all"] ([None]) or one of
    their listed values: a status, the id of a staff member. *)
Definition filteredComplaints (searchQuery : string)
    (statusFilter : option complaint_status) (staffFilter : option uuid)
    (complaints : list Complaint) : list Complaint :=
  filter
    (fun complaint : Complaint =>
       let matchesSearch :=
         String.eqb searchQuery ""
         || includes (toLowerCase (complaints.title complaint)) (toLowerCase searchQuery)
         || match student_profile complaint with
            | Some p => includes (toLowerCase (full_name p)) (toLowerCase searchQuery)
            | None => false
            end in
       let matchesStatus :=
         match statusFilter with
         | None => true
         | Some s => complaint_status_eqb (complaints.status complaint) s
         end in
       let matchesStaff :=
         match staffFilter with
         | None => true
         | Some u => sql_true (sql_eq (complaints.assigned_to complaint) (Some u))
         end in
       matchesSearch && matchesStatus && matchesStaff)
    complaints.

End Filters.

Definition pendingCount (complaints : list Complaint) : nat :=
  List.length (filter (fun c : Complaint =>
                         complaint_status_eqb (complaints.status c) pending) complaints).

Definition inProgressCount (complaints : list Complaint) : nat :=
  List.length (filter (fun c : Complaint =>
                         complaint_status_eqb (complaints.status c) in_progress) complaints).

Definition resolvedCount (complaints : list Complaint) : nat :=
  List.length (filter (fun c : Complaint =>
                         complaint_status_eqb (complaints.status c) resolved) complaints).

Definition unassignedCount (complaints : list Complaint) : nat :=
  List.length (filter (fun c : Complaint => negb (truthy (complaints.assigned_to c)))
                      complaints).

(** [statusChartData]: name, value and colour of the three slices. *)
Definition statusChartData (complaints : list Complaint) : list (string * nat * string) :=
  [ ("Pending", pendingCount complaints, "hsl(var(--pending))");
    ("In Progress", inProgressCount complaints, "hsl(var(--in-progress))");
    ("Resolved", resolvedCount complaints, "hsl(var(--resolved))") ]%string.

(* ================================================================== *)
(** * Vocabulary of the statements *)
(* ================================================================== *)

(** The categories of a list in the order in which each occurs first,
    skipping those already [seen]. *)
Fixpoint first_occurrences (seen l : list complaint_category)
    : list complaint_category :=
  match l with
  | [] => []
  | x :: t =>
      if existsb (complaint_category_eqb x) seen then first_occurrences seen t
      else x :: first_occurrences (seen ++ [x]) t
  end.

(** The number of complaints of a category. *)
Definition count_category (k : complaint_category) (cs : list Complaint) : nat :=
  List.length (filter (fun c : Complaint => complaint_category_eqb (complaints.category c) k) cs).

(** One round of the [reduce] of [categoryData]. *)
Definition tally (acc : list category_count) (complaint : Complaint)
    : list category_count :=
  let category := complaints.category complaint in
  match find (fun item => complaint_category_eqb (name item) category) acc with
  | Some existing => increment category acc
  | None => acc ++ [ {| name := category; value := 1 |} ]
  end.

(** The count an accumulator holds for a category. *)
Definition held (k : complaint_category) (acc : list category_count) : nat :=
  match find (fun item => complaint_category_eqb (name item) k) acc with
  | Some e => value e
  | None => 0%nat
  end.

(** A comparator is consistent on the elements of a list when its ties
    form an equivalence and its two strict sides are transitive
    (ECMA-262, the consistent comparator of [Array.prototype.sort]). *)
Definition consistent {A : Type} (cmp : A -> A -> Z) (l : list A) : Prop :=
  (forall a, In a l -> cmp a a = 0)
  /\ (forall a b, In a l -> In b l -> cmp a b = 0 -> cmp b a = 0)
  /\ (forall a b c, In a l -> In b l -> In c l ->
                    cmp a b = 0 -> cmp b c = 0 -> cmp a c = 0)
  /\ (forall a b c, In a l -> In b l -> In c l ->
                    cmp a b < 0 -> cmp b c < 0 -> cmp a c < 0)
  /\ (forall a b c, In a l -> In b l -> In c l ->
                    0 < cmp a b -> 0 < cmp b c -> 0 < cmp a c).

(** The time value of [created_at], for a valid date. *)
Definition time_of (c : Complaint) : Z :=
  match getTime (complaints.created_at c) with
  | Some t => t
  | None => 0
  end.

(** [b] was not created after [a], both dates being valid. *)
Definition not_older (a b : Complaint) : Prop :=
  exists ta tb,
    getTime (complaints.created_at a) = Some ta
    /\ getTime (complaints.created_at b) = Some tb
    /\ tb <= ta.

(** A list in newest-first order ([created_at] descending). *)
Definition newest_first (cs : list Complaint) : Prop := Sorted not_older cs.




(* ================================================================== *)
(** * Scenarios *)
(* ================================================================== *)

(** A student (1), two staff members (7 and 8) and an admin (9). *)
Definition db_init : database :=
  {| auth_users := [1; 7; 8; 9]%N;
     tbl_user_roles :=
       [ user_roles.mk 101 1 student; user_roles.mk 107 7 staff;
         user_roles.mk 108 8 staff; user_roles.mk 109 9 admin ]%N;
     tbl_complaints := [];
     tbl_comments := [] |}.

(** The student files complaint 50 and the admin assigns it to 7. *)
Definition requests_assigned : list request :=
  [ SubmitComplaint 1 50 "2024-03-10T08:00:00+00:00" "Projector" "Broken" infrastructure;
    AssignStaff 9 "2024-03-10T09:00:00+00:00" 50 7 ]%N.

(** ... and the admin then demotes 7, who stays the assignee. *)
Definition db_demoted : database :=
  run db_init (requests_assigned ++ [DemoteToStudent 9 7]%N).

(** ... or 7 resolves the complaint instead. *)
Definition db_resolved : database :=
  run db_init
    (requests_assigned ++ [StatusUpdate 7 "2024-03-11T10:00:00+00:00" 50 resolved]%N).

(** Complaint 50 as the student filed it. *)
Definition complaint_50 : complaints.row :=
  {| complaints.id := 50%N;
     complaints.student_id := 1%N;
     complaints.title := "Projector";
     complaints.description := "Broken";
     complaints.category := infrastructure;
     complaints.status := pending;
     complaints.assigned_to := None;
     complaints.created_at := "2024-03-10T08:00:00+00:00";
     complaints.updated_at := "2024-03-10T08:00:00+00:00" |}.

(** Complaint 50 in [db_demoted]. *)
Definition complaint_50_assigned : complaints.row :=
  update_updated_at "2024-03-10T09:00:00+00:00"
    (set_status in_progress (set_assigned_to (Some 7%N) complaint_50)).

(** A comment of the student on complaint 50. *)
Definition comment_60 : comments.row :=
  {| comments.id := 60%N;
     comments.complaint_id := 50%N;
     comments.user_id := 1%N;
     comments.message := "Any news?";
     comments.created_at := "2024-03-10T12:00:00+00:00" |}.

(** A [localeCompare] that orders strings by their characters. *)
Definition localeCompare_ordinal (a b : string) : Z :=
  match String.compare a b with
  | Lt => -1
  | Eq => 0
  | Gt => 1
  end.

Definition complaint_at (id : uuid) (title : string) (category : complaint_category)
    (created_at : string) : Complaint :=
  {| row := {| complaints.id := id;
               complaints.student_id := 1%N;
               complaints.title := title;
               complaints.description := "";
               complaints.category := category;
               complaints.status := pending;
               complaints.assigned_to := None;
               complaints.created_at := created_at;
               complaints.updated_at := created_at |};
     student_profile := Some {| full_name := "Asha" |} |}.

(** Four complaints in newest-first order; 61 and 62 were created in the
    same millisecond. *)
Definition complaint_61 : Complaint :=
  complaint_at 61%N "Wifi" technical "2024-03-13T10:00:00.120001+00:00".
Definition complaint_62 : Complaint :=
  complaint_at 62%N "Grades" academic "2024-03-13T10:00:00.120+00:00".
Definition complaint_63 : Complaint :=
  complaint_at 63%N "Fees" administrative "2024-03-11T23:59:59+00:00".
Definition complaint_64 : Complaint :=
  complaint_at 64%N "Lab" technical "2024-03-07T00:00:00+00:00".

(** 2024-03-13T12:00:00Z, and a zone five and a half hours east of UTC
    all the year. *)
Definition now_0 : Z := 1710331200000.
Definition zone_0 : Z -> bool -> Z := fun _ _ => 19800000.

(** Central European time in 2024: one hour east of UTC, and two hours from
    31 March, 01:00 UTC, to 27 October, 01:00 UTC.  A local time that the
    change of 31 March skips or that of 27 October repeats is read with the
    offset before the change. *)
Definition zone_dst : Z -> bool -> Z :=
  fun t isUTC =>
    if isUTC
    then if (1711846800000 <=? t) && (t <? 1729990800000) then 7200000 else 3600000
    else if (1711854000000 <=? t) && (t <? 1729998000000) then 7200000 else 3600000.

(** 2024-04-01T10:00:00Z, noon in [zone_dst], and a pending, unassigned
    complaint created 71 hours and a half earlier. *)
Definition now_noon : Z := 1711965600000.
Definition complaint_73 : Complaint :=
  complaint_at 73%N "Door" infrastructure "2024-03-29T10:30:00+00:00".


(** [UPDATE public.user_roles SET role = r WHERE user_id = u] on one row,
    when the policies let the row through. *)
Definition retarget (u : uuid) (r : app_role) (x : user_roles.row) : user_roles.row :=
  if N.eqb (user_roles.user_id x) u then set_role r x else x.

(** [db_init] after the signup of the user 3, who is then made an admin
    by a row inserted beside the [student] row of the trigger. *)
Definition db_two_roles : database :=
  let db := handle_new_user db_init 3%N 103%N in
  set_user_roles db (tbl_user_roles db ++ [user_roles.mk 113%N 3%N admin]).

(** The columns of a complaint that its student wrote, with the key and
    the time of the insert. *)
Definition submitted (c : complaints.row)
    : uuid * uuid * string * string * complaint_category * string :=
  (complaints.id c, complaints.student_id c, complaints.title c,
   complaints.description c, complaints.category c, complaints.created_at c).

(** The database after a sequence of actions. *)
Definition perform (trim : string -> string) (db : database) (acts : list action)
    : database :=
  fold_left (act trim) acts db.

(** The foreign keys of [complaints] and [comments]
    ([REFERENCES auth.users(id)], [REFERENCES public.complaints(id)]). *)
Definition references_hold (db : database) : bool :=
  forallb (fun c => uuid_in (complaints.student_id c) (auth_users db)
                    && match complaints.assigned_to c with
                       | Some u => uuid_in u (auth_users db)
                       | None => true
                       end)
          (tbl_complaints db)
  && forallb (fun m => uuid_in (comments.complaint_id m)
                               (map complaints.id (tbl_complaints db))
                       && uuid_in (comments.user_id m) (auth_users db))
             (tbl_comments db).

(** [trim] on ASCII text: the white space of both ends is dropped. *)
Definition is_white_space (a : ascii) : bool :=
  existsb (Ascii.eqb a) [" "; "009"; "010"; "011"; "012"; "013"]%char.

Fixpoint trimStart (l : list ascii) : list ascii :=
  match l with
  | a :: rest => if is_white_space a then trimStart rest else l
  | [] => []
  end.

Definition trim_ascii (s : string) : string :=
  string_of_list_ascii
    (rev (trimStart (rev (trimStart (list_ascii_of_string s))))).

(** The student files complaint 50, the admin assigns it to 7 and the
    student asks for news. *)
Definition actions_commented : list action :=
  map Handler requests_assigned
  ++ [AddComment 1%N 50%N 60%N "2024-03-10T12:00:00+00:00" " Any news? "].

(** [db_init] after the signup of the user 2 and the complaint 50 of the
    student 1. *)
Definition db_two_students : database :=
  run (handle_new_user db_init 2%N 102%N)
      [SubmitComplaint 1%N 50%N "2024-03-10T08:00:00+00:00" "Projector" "Broken"
                       infrastructure].

(** [ORDER BY created_at] for time stamps written alike: by their
    characters, rows of one time stamp in the order of the table. *)
Definition order_by_created_at {A : Type} (created_at : A -> string)
    (ascending : bool) (l : list A) : list A :=
  Array_sort
    (fun a b => Some (if ascending
                      then localeCompare_ordinal (created_at a) (created_at b)
                      else localeCompare_ordinal (created_at b) (created_at a)))
    l.

(** The profiles of the users of [db_init]. *)
Definition profiles_init : list profiles.row :=
  [ profiles.mk 1 "Asha" "asha@example.org" "2024-03-01T00:00:00+00:00"
                "2024-03-01T00:00:00+00:00";
    profiles.mk 7 "Bala" "bala@example.org" "2024-03-01T00:00:00+00:00"
                "2024-03-01T00:00:00+00:00";
    profiles.mk 8 "Chitra" "chitra@example.org" "2024-03-01T00:00:00+00:00"
                "2024-03-01T00:00:00+00:00";
    profiles.mk 9 "Dev" "dev@example.org" "2024-03-01T00:00:00+00:00"
                "2024-03-01T00:00:00+00:00" ]%N.



(** Whether the principal takes part in a complaint: its student, an
    admin, or its assignee while staff. *)
Definition participant (db : database) (uid : uuid) (c : complaints.row) : bool :=
  N.eqb uid (complaints.student_id c)
  || has_role db uid admin
  || has_role db uid staff && sql_true (sql_eq (complaints.assigned_to c) (Some uid)).

(** The state of the admin dashboard before its first fetch. *)
Definition state_init : AdminState :=
  {| st_complaints := []; st_staffMembers := []; st_allUsers := [] |}.

(** [db_init] with one staff member, 7, only. *)
Definition db_one_staff : database :=
  {| auth_users := [1; 7; 9]%N;
     tbl_user_roles :=
       [ user_roles.mk 101 1 student; user_roles.mk 107 7 staff;
         user_roles.mk 109 9 admin ]%N;
     tbl_complaints := [];
     tbl_comments := [] |}.

(* ================================================================== *)
(** * Properties of the policies *)
(* ================================================================== *)

Lemma app_role_eqb_eq (a b : app_role) : app_role_eqb a b = true <-> a = b.
Proof. destruct a, b; simpl; split; congruence. Qed.

Lemma complaint_status_eqb_eq (a b : complaint_status) :
  complaint_status_eqb a b = true <-> a = b.
Proof. destruct a, b; simpl; split; congruence. Qed.

Lemma complaint_category_eqb_eq (a b : complaint_category) :
  complaint_category_eqb a b = true <-> a = b.
Proof. destruct a, b; simpl; split; congruence. Qed.

Lemma complaint_category_eqb_sym (a b : complaint_category) :
  complaint_category_eqb a b = complaint_category_eqb b a.
Proof. now destruct a, b. Qed.

Lemma sql_eq_true (a : option uuid) (x : uuid) :
  sql_true (sql_eq a (Some x)) = true <-> a = Some x.
Proof.
  destruct a as [y|]; simpl.
  - destruct (N.eqb_spec y x); split; congruence.
  - split; discriminate.
Qed.

Lemma sql_eq_sym (a b : option uuid) : sql_eq a b = sql_eq b a.
Proof. destruct a, b; simpl; try reflexivity. now rewrite N.eqb_sym. Qed.

(** The [SELECT] policies of [complaints] grant the owner, the staff role
    and the admin role, and nobody else. *)
Lemma canRead_spec (db : database) (uid : uuid) (c : complaints.row) :
  canRead db uid c
  = N.eqb uid (complaints.student_id c) || has_role db uid staff || has_role db uid admin.
Proof.
  unfold canRead, Students_can_view_own_complaints, Admins_can_manage_all_complaints.
  simpl.
  destruct (N.eqb uid (complaints.student_id c)), (has_role db uid staff),
    (has_role db uid admin); reflexivity.
Qed.

(** The [UPDATE] policies of [complaints] grant the assignee that holds
    the staff role and the admin role. *)
Lemma complaints_update_using_spec (db : database) (uid : uuid) (c : complaints.row) :
  complaints_update_using db uid c
  = has_role db uid staff && sql_true (sql_eq (complaints.assigned_to c) (Some uid))
    || has_role db uid admin.
Proof.
  unfold complaints_update_using, Staff_can_update_assigned_complaints,
    Admins_can_manage_all_complaints.
  rewrite (sql_eq_sym (Some uid)).
  destruct (complaints.assigned_to c) as [a|]; simpl.
  - destruct (N.eqb a uid), (has_role db uid staff), (has_role db uid admin); reflexivity.
  - destruct (has_role db uid staff), (has_role db uid admin); reflexivity.
Qed.

Lemma canUpdate_spec (db : database) (uid : uuid) (c : complaints.row) :
  canUpdate db uid c
  = has_role db uid staff && sql_true (sql_eq (complaints.assigned_to c) (Some uid))
    || has_role db uid admin.
Proof.
  unfold canUpdate. rewrite canRead_spec, complaints_update_using_spec.
  destruct (N.eqb uid (complaints.student_id c)), (has_role db uid staff),
    (has_role db uid admin), (sql_true (sql_eq (complaints.assigned_to c) (Some uid)));
    reflexivity.
Qed.

Lemma accessible_complaint_spec (db : database) (uid k : uuid) (c : complaints.row) :
  sql_true (accessible_complaint db uid k c)
  = N.eqb (complaints.id c) k
    && (N.eqb (complaints.student_id c) uid
        || sql_true (sql_eq (complaints.assigned_to c) (Some uid))
        || has_role db uid admin).
Proof.
  unfold accessible_complaint.
  destruct (complaints.assigned_to c) as [a|]; simpl.
  - destruct (N.eqb (complaints.id c) k), (N.eqb (complaints.student_id c) uid),
      (N.eqb a uid), (has_role db uid admin); reflexivity.
  - destruct (N.eqb (complaints.id c) k), (N.eqb (complaints.student_id c) uid),
      (has_role db uid admin); reflexivity.
Qed.

(** With [id] a primary key, a sub-select [WHERE id = k AND ...] is decided
    by the one row of that id. *)
Lemma existsb_primary_key (P : complaints.row -> bool) (k : uuid)
    (cs : list complaints.row) (c : complaints.row) :
  NoDup (map complaints.id cs) ->
  In c cs ->
  complaints.id c = k ->
  existsb (fun x => N.eqb (complaints.id x) k && P x) cs = P c.
Proof.
  intros Hpk Hin Hid. induction cs as [|x cs IH]; [contradiction|].
  simpl in Hpk. apply NoDup_cons_iff in Hpk. destruct Hpk as [Hx Hpk].
  simpl. destruct Hin as [->|Hin].
  - rewrite Hid, N.eqb_refl. simpl.
    destruct (P c); [reflexivity|]. simpl.
    apply not_true_is_false. intros He. apply existsb_exists in He.
    destruct He as [y [Hy Hk]]. apply andb_prop in Hk. destruct Hk as [Hk _].
    apply N.eqb_eq in Hk. apply Hx. rewrite Hid, <- Hk. now apply in_map.
  - destruct (N.eqb_spec (complaints.id x) k) as [Hxk|Hxk].
    + exfalso. apply Hx. rewrite Hxk, <- Hid. now apply in_map.
    + simpl. now apply IH.
Qed.

Lemma existsb_pointwise (A : Type) (f g : A -> bool) (l : list A) :
  (forall x, f x = g x) -> existsb f l = existsb g l.
Proof. intros H. induction l as [|x l IH]; simpl; [reflexivity|]. now rewrite H, IH. Qed.

(** The primary key stays one on the rows a filter keeps. *)
Lemma primary_key_filter (keep : complaints.row -> bool) (cs : list complaints.row) :
  NoDup (map complaints.id cs) -> NoDup (map complaints.id (filter keep cs)).
Proof.
  intros Hpk. induction cs as [|c cs IH]; simpl in *; [constructor|].
  apply NoDup_cons_iff in Hpk. destruct Hpk as [Hc Hpk].
  destruct (keep c); simpl; [|now apply IH].
  constructor; [|now apply IH].
  intros Hin. apply Hc. apply in_map_iff in Hin. destruct Hin as [y [Hy Hin]].
  apply filter_In in Hin. apply in_map_iff. exists y. tauto.
Qed.

(** Over all rows of [complaints], the sub-select of the comment policies
    holds for the student, the assignee and the admins of the complaint. *)
Lemma exists_accessible_complaint_all_rows (db : database) (uid : uuid)
    (m : comments.row) (c : complaints.row) :
  NoDup (map complaints.id (tbl_complaints db)) ->
  In c (tbl_complaints db) ->
  complaints.id c = comments.complaint_id m ->
  exists_accessible_complaint db uid (tbl_complaints db) (comments.complaint_id m) = true
  <-> uid = complaints.student_id c
      \/ complaints.assigned_to c = Some uid
      \/ has_role db uid admin = true.
Proof.
  intros Hpk Hin Hid. unfold exists_accessible_complaint.
  rewrite (existsb_pointwise _ _ _ _
             (accessible_complaint_spec db uid (comments.complaint_id m))).
  rewrite existsb_primary_key with (c := c) by assumption.
  rewrite !orb_true_iff, sql_eq_true, N.eqb_eq. intuition congruence.
Qed.

(** A comment is readable when its complaint is visible to the principal
    and the condition of the sub-select holds on it. *)
Lemma canReadComment_spec (db : database) (uid : uuid) (m : comments.row)
    (c : complaints.row) :
  NoDup (map complaints.id (tbl_complaints db)) ->
  In c (tbl_complaints db) ->
  complaints.id c = comments.complaint_id m ->
  canReadComment db uid m
  = canRead db uid c
    && (N.eqb (complaints.student_id c) uid
        || sql_true (sql_eq (complaints.assigned_to c) (Some uid))
        || has_role db uid admin).
Proof.
  intros Hpk Hin Hid.
  unfold canReadComment, Users_can_view_comments_on_accessible_complaints,
    exists_accessible_complaint, visible_complaints. simpl.
  rewrite (existsb_pointwise _ _ _ _ (accessible_complaint_spec db uid (comments.complaint_id m))).
  destruct (canRead db uid c) eqn:Hr.
  - simpl. rewrite existsb_primary_key with (c := c).
    + now destruct (_ || _).
    + now apply primary_key_filter.
    + apply filter_In. auto.
    + exact Hid.
  - simpl. apply not_true_is_false. intros He.
    destruct (existsb _ _) eqn:He'; [clear He|discriminate].
    apply existsb_exists in He'.
    destruct He' as [y [Hy Hk]]. apply filter_In in Hy. destruct Hy as [Hy Hry].
    apply andb_prop in Hk. destruct Hk as [Hk _]. apply N.eqb_eq in Hk.
    assert (y = c) as ->; [|congruence].
    clear - Hpk Hin Hy Hk Hid. rewrite <- Hid in Hk. clear Hid.
    induction (tbl_complaints db) as [|x l IH]; [contradiction|].
    simpl in Hpk. apply NoDup_cons_iff in Hpk. destruct Hpk as [Hx Hpk].
    destruct Hin as [->|Hin], Hy as [->|Hy]; auto.
    + exfalso. apply Hx. rewrite <- Hk. now apply in_map.
    + exfalso. apply Hx. rewrite Hk. now apply in_map.
Qed.

(** ** Complaint read *)

(** C1 (amended): a principal may read a complaint if and only if it is
    the complaint's student, or holds the staff role, or holds the admin
    role.  Being the assignee grants nothing by itself: an assignee that
    is not the student and holds neither role is denied. *)
Theorem canRead_iff (db : database) (uid : uuid) (c : complaints.row) :
  (canRead db uid c = true
   <-> uid = complaints.student_id c
       \/ has_role db uid staff = true
       \/ has_role db uid admin = true)
  /\ (complaints.assigned_to c = Some uid ->
      uid <> complaints.student_id c ->
      has_role db uid staff = false ->
      has_role db uid admin = false ->
      canRead db uid c = false).
Proof.
  rewrite canRead_spec. split.
  - rewrite !orb_true_iff, N.eqb_eq. tauto.
  - intros _ Hne -> ->. rewrite !orb_false_r. now apply N.eqb_neq.
Qed.

(** [canRead_iff] in [db_demoted]: the demoted assignee 7 cannot read
    complaint 50; the student 1, the staff member 8 and the admin 9 can. *)
Lemma canRead_iff_witness :
  canRead db_demoted 7%N complaint_50_assigned = false
  /\ canRead db_demoted 1%N complaint_50_assigned = true
  /\ canRead db_demoted 8%N complaint_50_assigned = true
  /\ canRead db_demoted 9%N complaint_50_assigned = true.
Proof.
  split; [|split; [|split]].
  - apply (canRead_iff db_demoted 7%N complaint_50_assigned);
      [reflexivity|discriminate|reflexivity|reflexivity].
  - apply (canRead_iff db_demoted 1%N complaint_50_assigned). left. reflexivity.
  - apply (canRead_iff db_demoted 8%N complaint_50_assigned). right. left. reflexivity.
  - apply (canRead_iff db_demoted 9%N complaint_50_assigned). right. right. reflexivity.
Defined.

(** C1 as stated fails: in [db_demoted] the principal 7 is the assignee of
    complaint 50 and holds only the student role; the read is denied. *)
Lemma canRead_assignee_counterexample :
  In complaint_50_assigned (tbl_complaints db_demoted)
  /\ ~ (canRead db_demoted 7%N complaint_50_assigned = true
        <-> 7%N = complaints.student_id complaint_50_assigned
            \/ complaints.assigned_to complaint_50_assigned = Some 7%N
            \/ has_role db_demoted 7%N staff = true
            \/ has_role db_demoted 7%N admin = true).
Proof.
  split; [left; reflexivity|].
  intros [_ H]. assert (canRead db_demoted 7%N complaint_50_assigned = true) as E.
  { apply H. right. left. reflexivity. }
  discriminate E.
Qed.

(** ** Complaint update *)

(** C3: a principal may update a complaint if and only if it holds the
    staff role and is the assignee, or holds the admin role; this holds of
    the [UPDATE] policies alone and of the update statement, which also
    reads the row.  A staff principal that is not the assignee and not an
    admin cannot update. *)
Theorem canUpdate_iff (db : database) (uid : uuid) (c : complaints.row) :
  (canUpdate db uid c = true
   <-> (has_role db uid staff = true /\ complaints.assigned_to c = Some uid)
       \/ has_role db uid admin = true)
  /\ (complaints_update_using db uid c = true
      <-> (has_role db uid staff = true /\ complaints.assigned_to c = Some uid)
          \/ has_role db uid admin = true)
  /\ (has_role db uid staff = true ->
      complaints.assigned_to c <> Some uid ->
      has_role db uid admin = false ->
      canUpdate db uid c = false).
Proof.
  rewrite canUpdate_spec, complaints_update_using_spec.
  rewrite !orb_true_iff, !andb_true_iff, sql_eq_true.
  split; [tauto|]. split; [tauto|].
  intros _ Hna Had. rewrite Had, orb_false_r. apply andb_false_iff. right.
  apply not_true_is_false. rewrite sql_eq_true. exact Hna.
Qed.

(** [canUpdate_iff] for complaint 50 assigned to 7: the staff member 8
    cannot update it, the assignee 7 and the admin 9 can. *)
Lemma canUpdate_iff_witness :
  canUpdate (run db_init requests_assigned) 8%N complaint_50_assigned = false
  /\ canUpdate (run db_init requests_assigned) 7%N complaint_50_assigned = true
  /\ canUpdate (run db_init requests_assigned) 9%N complaint_50_assigned = true.
Proof.
  split; [|split].
  - apply (canUpdate_iff (run db_init requests_assigned) 8%N complaint_50_assigned);
      [reflexivity|discriminate|reflexivity].
  - apply (canUpdate_iff (run db_init requests_assigned) 7%N complaint_50_assigned).
    left. split; reflexivity.
  - apply (canUpdate_iff (run db_init requests_assigned) 9%N complaint_50_assigned).
    right. reflexivity.
Defined.

(** ** Comment read *)

(** C4 (amended): for a comment [m] on the complaint [c], a principal may
    read [m] if and only if it is the student of [c], or holds the admin
    role, or is the assignee of [c] and holds the staff role: the
    sub-select of the policy ranges over the complaints the principal can
    read.  A staff principal that is neither the assignee nor the student
    nor an admin reads the complaint and is denied the comment. *)
Theorem canReadComment_iff (db : database) (uid : uuid) (m : comments.row)
    (c : complaints.row) :
  NoDup (map complaints.id (tbl_complaints db)) ->
  In c (tbl_complaints db) ->
  complaints.id c = comments.complaint_id m ->
  (canReadComment db uid m = true
   <-> uid = complaints.student_id c
       \/ has_role db uid admin = true
       \/ (complaints.assigned_to c = Some uid /\ has_role db uid staff = true))
  /\ (has_role db uid staff = true ->
      uid <> complaints.student_id c ->
      complaints.assigned_to c <> Some uid ->
      has_role db uid admin = false ->
      canRead db uid c = true /\ canReadComment db uid m = false).
Proof.
  intros Hpk Hin Hid.
  rewrite (canReadComment_spec db uid m c Hpk Hin Hid), canRead_spec.
  split.
  - rewrite andb_true_iff, !orb_true_iff, sql_eq_true, !N.eqb_eq.
    split; [|intuition congruence].
    intros [[[Ho|Hs]|Had] [[Ho'|Ha]|Had']]; auto.
  - intros Hs Hne Hna Had. rewrite Hs, Had, orb_true_r. simpl. split; [reflexivity|].
    rewrite orb_false_r, orb_false_iff. split.
    + apply N.eqb_neq. congruence.
    + apply not_true_is_false. rewrite sql_eq_true. exact Hna.
Qed.

(** C4 as stated fails: in [db_demoted] the principal 7 is the assignee of
    complaint 50, the parent of [comment_60], and holds only the student
    role.  No complaint is visible to 7, so the sub-select of the comment
    policy finds no row and the comment is not readable. *)
Lemma canReadComment_assignee_counterexample :
  In complaint_50_assigned (tbl_complaints db_demoted)
  /\ complaints.id complaint_50_assigned = comments.complaint_id comment_60
  /\ visible_complaints db_demoted 7%N = []
  /\ ~ (canReadComment db_demoted 7%N comment_60 = true
        <-> 7%N = complaints.student_id complaint_50_assigned
            \/ complaints.assigned_to complaint_50_assigned = Some 7%N
            \/ has_role db_demoted 7%N admin = true).
Proof.
  split; [left; reflexivity|]. split; [reflexivity|]. split; [reflexivity|].
  intros [_ H]. assert (canReadComment db_demoted 7%N comment_60 = true) as E.
  { apply H. right. left. reflexivity. }
  discriminate E.
Qed.

(** [canReadComment_iff] on [db_init] with complaint 50 assigned: the
    staff member 8 reads the complaint and not the comment. *)
Lemma canReadComment_iff_witness :
  canRead (run db_init requests_assigned) 8%N complaint_50_assigned = true
  /\ canReadComment (run db_init requests_assigned) 8%N comment_60 = false.
Proof.
  apply (canReadComment_iff (run db_init requests_assigned) 8%N comment_60
           complaint_50_assigned).
  - vm_compute. repeat constructor. intros [].
  - left. reflexivity.
  - reflexivity.
  - reflexivity.
  - discriminate.
  - discriminate.
  - reflexivity.
Defined.

(* ================================================================== *)
(** * Properties of the handlers *)
(* ================================================================== *)

(** ** Assignment *)

Lemma admin_canUpdate (db : database) (uid : uuid) (c : complaints.row) :
  has_role db uid admin = true -> canUpdate db uid c = true.
Proof. intros H. rewrite canUpdate_spec, H. apply orb_true_r. Qed.

(** The update statement of an admin commits when the rewritten rows keep
    the foreign key, and rewrites exactly the rows of the given id. *)
Lemma admin_update_complaint (db : database) (uid : uuid) (now : string)
    (complaintId : uuid) (set : complaints.row -> complaints.row) :
  has_role db uid admin = true ->
  (forall c, assigned_to_fk db c (update_updated_at now (set c)) = true) ->
  update_complaint db uid now complaintId set
  = Committed
      (set_complaints db
         (map (fun c => if N.eqb (complaints.id c) complaintId
                        then update_updated_at now (set c) else c)
              (tbl_complaints db))).
Proof.
  intros Hadmin Hfk. unfold update_complaint.
  replace (forallb _ (tbl_complaints db)) with true.
  - f_equal. f_equal. apply map_ext. intros c.
    now rewrite (admin_canUpdate _ _ _ Hadmin), andb_true_r.
  - symmetry. apply forallb_forall. intros c _.
    rewrite (admin_canUpdate db uid (update_updated_at now (set c)) Hadmin), Hfk.
    apply orb_true_r.
Qed.

(** What an assignment request leaves in [complaints]: the table as it
    was (the statement failed), or the table with the rows the statement
    hit rewritten. *)
Lemma step_AssignStaff_rows (db : database) (uid : uuid) (now : string)
    (complaintId staffId : uuid) :
  exists hit : complaints.row -> bool,
    tbl_complaints (step db (AssignStaff uid now complaintId staffId))
    = map (fun c => if N.eqb (complaints.id c) complaintId && hit c
                    then update_updated_at now
                           (set_status in_progress (set_assigned_to (Some staffId) c))
                    else c)
          (tbl_complaints db).
Proof.
  unfold step. simpl. unfold handleAssignStaff, update_complaint.
  destruct (forallb _ (tbl_complaints db)).
  - exists (canUpdate db uid). reflexivity.
  - exists (fun _ => false). symmetry.
    induction (tbl_complaints db) as [|c cs IH]; simpl; [reflexivity|].
    now rewrite andb_false_r, IH.
Qed.

(** C2 (amended): every assignment or re-assignment sent by
    [handleAssignStaff] writes [assigned_to] and [status] in one statement.
    Whoever sends it and whatever the ids, after the request every
    complaint is as it was or is a complaint of the given id with the new
    assignee and the status [in_progress]; so a complaint whose assignee
    changed has the status [in_progress], whatever its status was before.
    The users, the roles and the comments are as they were.  Sent by an
    admin for a known user, the statement commits and rewrites the rows of
    that id, and only them. *)
Theorem handleAssignStaff_sets_in_progress (db : database) (uid : uuid)
    (now : string) (complaintId staffId : uuid) :
  (Forall2
     (fun c c' =>
        c' = c
        \/ (complaints.id c = complaintId
            /\ c' = update_updated_at now
                      (set_status in_progress (set_assigned_to (Some staffId) c))))
     (tbl_complaints db)
     (tbl_complaints (step db (AssignStaff uid now complaintId staffId)))
   /\ Forall2
        (fun c c' =>
           complaints.assigned_to c' <> complaints.assigned_to c ->
           complaints.status c' = in_progress
           /\ complaints.assigned_to c' = Some staffId)
        (tbl_complaints db)
        (tbl_complaints (step db (AssignStaff uid now complaintId staffId)))
   /\ auth_users (step db (AssignStaff uid now complaintId staffId)) = auth_users db
   /\ tbl_user_roles (step db (AssignStaff uid now complaintId staffId))
      = tbl_user_roles db
   /\ tbl_comments (step db (AssignStaff uid now complaintId staffId))
      = tbl_comments db)
  /\ (has_role db uid admin = true ->
      uuid_in staffId (auth_users db) = true ->
      exists db',
        handleAssignStaff db uid now complaintId staffId = Committed db'
        /\ tbl_complaints db'
           = map (fun c => if N.eqb (complaints.id c) complaintId
                           then update_updated_at now
                                  (set_status in_progress
                                     (set_assigned_to (Some staffId) c))
                           else c)
                 (tbl_complaints db)
        /\ (forall c', In c' (tbl_complaints db') ->
                       complaints.id c' = complaintId ->
                       complaints.status c' = in_progress
                       /\ complaints.assigned_to c' = Some staffId)
        /\ tbl_user_roles db' = tbl_user_roles db
        /\ tbl_comments db' = tbl_comments db).
Proof.
  split.
  - destruct (step_AssignStaff_rows db uid now complaintId staffId) as [hit Hrows].
    rewrite Hrows. clear Hrows. split; [|split; [|split; [|split]]].
    + induction (tbl_complaints db) as [|c cs IH]; simpl; [constructor|].
      constructor; [|exact IH].
      destruct (N.eqb_spec (complaints.id c) complaintId) as [E|E]; simpl; [|now left].
      destruct (hit c); [right; now split|now left].
    + induction (tbl_complaints db) as [|c cs IH]; simpl; [constructor|].
      constructor; [|exact IH].
      destruct (N.eqb (complaints.id c) complaintId && hit c); simpl.
      * intros _. now split.
      * intros Hne. now contradiction Hne.
    + unfold step. simpl. unfold handleAssignStaff, update_complaint.
      now destruct (forallb _ _).
    + unfold step. simpl. unfold handleAssignStaff, update_complaint.
      now destruct (forallb _ _).
    + unfold step. simpl. unfold handleAssignStaff, update_complaint.
      now destruct (forallb _ _).
  - intros Hadmin Hstaff. eexists. split; [|split; [|split; [|split]]].
    + unfold handleAssignStaff. apply admin_update_complaint; [exact Hadmin|].
      intros c. unfold assigned_to_fk. simpl. rewrite Hstaff.
      destruct (complaints.assigned_to c); [apply orb_true_r|reflexivity].
    + reflexivity.
    + simpl. intros c' Hin Hid. apply in_map_iff in Hin.
      destruct Hin as [c [Hc Hin]].
      destruct (N.eqb_spec (complaints.id c) complaintId) as [E|E].
      * subst c'. simpl. split; reflexivity.
      * subst c'. contradiction.
    + reflexivity.
    + reflexivity.
Qed.

(** C2 as stated fails: in [db_resolved] complaint 50 is assigned to 7 and
    resolved; the admin 9 re-assigns it to 8, and its status becomes
    [in_progress]. *)
Lemma reassign_resets_status_counterexample :
  exists db',
    handleAssignStaff db_resolved 9%N "2024-03-12T09:00:00+00:00" 50%N 8%N = Committed db'
    /\ map complaints.assigned_to (tbl_complaints db_resolved) = [Some 7%N]
    /\ map complaints.assigned_to (tbl_complaints db') = [Some 8%N]
    /\ map complaints.status (tbl_complaints db_resolved) = [resolved]
    /\ map complaints.status (tbl_complaints db') = [in_progress].
Proof. eexists. repeat split; reflexivity. Qed.

(** [handleAssignStaff_sets_in_progress] on the re-assignment of the
    resolved complaint 50. *)
Lemma handleAssignStaff_sets_in_progress_witness :
  exists db',
    handleAssignStaff db_resolved 9%N "2024-03-12T09:00:00+00:00" 50%N 8%N = Committed db'
    /\ tbl_complaints db'
       = map (fun c => if N.eqb (complaints.id c) 50%N
                       then update_updated_at "2024-03-12T09:00:00+00:00"
                              (set_status in_progress (set_assigned_to (Some 8%N) c))
                       else c)
             (tbl_complaints db_resolved)
    /\ (forall c', In c' (tbl_complaints db') ->
                   complaints.id c' = 50%N ->
                   complaints.status c' = in_progress
                   /\ complaints.assigned_to c' = Some 8%N)
    /\ tbl_user_roles db' = tbl_user_roles db_resolved
    /\ tbl_comments db' = tbl_comments db_resolved.
Proof.
  destruct (handleAssignStaff_sets_in_progress db_resolved 9%N
              "2024-03-12T09:00:00+00:00" 50%N 8%N) as [_ Hadmin].
  apply Hadmin; reflexivity.
Defined.

(** Other senders and ids on complaint 50, assigned to 7: the request of
    the staff member 8 commits and hits no row, that of the assignee 7 for
    8 fails, and so does that of the admin for an id that is no user. *)
Example handleAssignStaff_other_senders :
  handleAssignStaff (run db_init requests_assigned) 8%N "2024-03-12T09:00:00+00:00"
                    50%N 8%N
  = Committed (run db_init requests_assigned)
  /\ handleAssignStaff (run db_init requests_assigned) 7%N "2024-03-12T09:00:00+00:00"
                       50%N 8%N
     = Failed
  /\ handleAssignStaff (run db_init requests_assigned) 9%N "2024-03-12T09:00:00+00:00"
                       50%N 77%N
     = Failed.
Proof. repeat split; reflexivity. Qed.

(** ** Roles *)

(** No request adds or removes a row of [user_roles], or moves a row to
    another user. *)
Lemma step_user_ids (db : database) (q : request) :
  map user_roles.user_id (tbl_user_roles (step db q))
  = map user_roles.user_id (tbl_user_roles db).
Proof.
  unfold step.
  destruct q; simpl;
    try (unfold handleSubmitComplaint; destruct (_ && _); reflexivity);
    try (unfold handleStatusUpdate, handleAssignStaff, update_complaint;
         destruct (forallb _ _); reflexivity);
    unfold handlePromoteToStaff, handleDemoteToStudent, update_role;
    (destruct (_ && _); [|reflexivity]); simpl;
    rewrite map_map; apply map_ext; intros x; now destruct (_ && _).
Qed.

Lemma run_user_ids (qs : list request) (db : database) :
  map user_roles.user_id (tbl_user_roles (run db qs))
  = map user_roles.user_id (tbl_user_roles db).
Proof.
  unfold run. revert db. induction qs as [|q qs IH]; intros db; simpl; [reflexivity|].
  now rewrite IH, step_user_ids.
Qed.

Lemma role_rows_length (db : database) (u : uuid) :
  List.length (role_rows db u)
  = List.length (filter (fun x => N.eqb x u) (map user_roles.user_id (tbl_user_roles db))).
Proof.
  unfold role_rows. induction (tbl_user_roles db) as [|r l IH]; simpl; [reflexivity|].
  destruct (N.eqb (user_roles.user_id r) u); simpl; now rewrite IH.
Qed.

(** C5: a user that has exactly one role row has exactly one role row
    after any sequence of promote-to-staff and demote-to-student requests,
    whoever sends them and whichever users they name. *)
Theorem role_rows_unique_preserved (db : database) (u : uuid) (qs : list request) :
  Forall (fun q => is_role_request q = true) qs ->
  List.length (role_rows db u) = 1%nat ->
  List.length (role_rows (run db qs) u) = 1%nat.
Proof.
  intros _ H. rewrite role_rows_length in *. now rewrite run_user_ids.
Qed.

(** [role_rows_unique_preserved] for a user created by the signup trigger,
    promoted, demoted and promoted again by the admin 9. *)
Lemma role_rows_unique_preserved_witness :
  List.length
    (role_rows (run (handle_new_user db_init 2%N 102%N)
                    [PromoteToStaff 9 2; DemoteToStudent 9 2; PromoteToStaff 9 2]%N) 2%N)
  = 1%nat.
Proof.
  apply (role_rows_unique_preserved (handle_new_user db_init 2%N 102%N) 2%N
           [PromoteToStaff 9 2; DemoteToStudent 9 2; PromoteToStaff 9 2]%N).
  - repeat constructor.
  - reflexivity.
Defined.

(** The requests of the witness do change the role of the user. *)
Example promote_demote_promote :
  map user_roles.role
    (role_rows (run (handle_new_user db_init 2%N 102%N)
                    [PromoteToStaff 9 2; DemoteToStudent 9 2; PromoteToStaff 9 2]%N) 2%N)
  = [staff].
Proof. reflexivity. Qed.

(** ** The primary key of [complaints] *)

Lemma fresh_key_last (ids : list uuid) (new_id : uuid) :
  NoDup ids -> ~ In new_id ids -> NoDup (ids ++ [new_id]).
Proof.
  intros Hpk Hfresh. induction ids as [|k ids IH]; simpl.
  - constructor; [intros []|constructor].
  - apply NoDup_cons_iff in Hpk. destruct Hpk as [Hk Hpk]. constructor.
    + rewrite in_app_iff. simpl. intros [H|[H|[]]]; [tauto|].
      apply Hfresh. left. now symmetry.
    + apply IH; [exact Hpk|]. intros H. apply Hfresh. now right.
Qed.

(** Every request keeps [id] a key of [complaints]. *)
Lemma step_primary_key (db : database) (q : request) :
  NoDup (map complaints.id (tbl_complaints db)) ->
  NoDup (map complaints.id (tbl_complaints (step db q))).
Proof.
  intros Hpk. unfold step.
  destruct q; simpl;
    try (unfold handlePromoteToStaff, handleDemoteToStudent, update_role;
         destruct (_ && _); exact Hpk);
    try (unfold handleStatusUpdate, handleAssignStaff, update_complaint;
         destruct (forallb _ _); [|exact Hpk]; simpl;
         rewrite map_map;
         erewrite map_ext; [exact Hpk|];
         intros c; now destruct (_ && _)).
  unfold handleSubmitComplaint.
  destruct (canInsert _ _ _); simpl; [|exact Hpk].
  destruct (uuid_in new_id _) eqn:Hfresh; simpl; [exact Hpk|].
  destruct (uuid_in uid _); simpl; [|exact Hpk].
  rewrite map_app. simpl. apply fresh_key_last; [exact Hpk|].
  intros Hin. apply not_true_iff_false in Hfresh. apply Hfresh.
  apply existsb_exists. exists new_id. split; [exact Hin|apply N.eqb_refl].
Qed.

(** ** Status and assignment are independent *)

Lemma has_role_set_complaints (db : database) (cs : list complaints.row)
    (uid : uuid) (r : app_role) :
  has_role (set_complaints db cs) uid r = has_role db uid r.
Proof. reflexivity. Qed.

(** C6: a complaint filed by a user and then resolved by an admin on the
    complaint page is resolved and unassigned.  Both requests are permitted
    (they commit, and the page offers the status control to an admin), so
    no invariant ties the status to the presence of an assignee. *)
Theorem resolved_unassigned_reachable (db : database) (s a new_id : uuid)
    (now1 now2 : string) (title description : string)
    (category : complaint_category) :
  uuid_in s (auth_users db) = true ->
  has_role db a admin = true ->
  uuid_in new_id (map complaints.id (tbl_complaints db)) = false ->
  exists db1 db2 c,
    handle db (SubmitComplaint s new_id now1 title description category) = Committed db1
    /\ canUpdateStatus (Some admin) = true
    /\ handle db1 (StatusUpdate a now2 new_id resolved) = Committed db2
    /\ run db [ SubmitComplaint s new_id now1 title description category;
                StatusUpdate a now2 new_id resolved ] = db2
    /\ In c (tbl_complaints db2)
    /\ complaints.id c = new_id
    /\ complaints.status c = resolved
    /\ complaints.assigned_to c = None.
Proof.
  intros Hs Ha Hnew.
  set (c0 := {| complaints.id := new_id; complaints.student_id := s;
                complaints.title := title; complaints.description := description;
                complaints.category := category; complaints.status := pending;
                complaints.assigned_to := None; complaints.created_at := now1;
                complaints.updated_at := now1 |}).
  set (db1 := set_complaints db (tbl_complaints db ++ [c0])).
  assert (H1 : handle db (SubmitComplaint s new_id now1 title description category)
               = Committed db1).
  { simpl. unfold handleSubmitComplaint. fold c0.
    assert (canInsert db s c0 = true) as ->.
    { unfold canInsert, Students_can_create_complaints. simpl.
      rewrite N.eqb_refl. reflexivity. }
    rewrite Hnew, Hs. reflexivity. }
  assert (H2 : handle db1 (StatusUpdate a now2 new_id resolved)
               = Committed
                   (set_complaints db1
                      (map (fun c => if N.eqb (complaints.id c) new_id
                                     then update_updated_at now2 (set_status resolved c)
                                     else c)
                           (tbl_complaints db1)))).
  { simpl. unfold handleStatusUpdate. apply admin_update_complaint.
    - exact Ha.
    - intros c. unfold assigned_to_fk. simpl.
      destruct (complaints.assigned_to c); [|reflexivity].
      now rewrite N.eqb_refl. }
  eexists db1, _, (update_updated_at now2 (set_status resolved c0)).
  split; [exact H1|]. split; [reflexivity|]. split; [exact H2|].
  split; [|split; [|repeat split]].
  - unfold run. simpl. unfold step. rewrite H1, H2. reflexivity.
  - simpl. apply in_map_iff. exists c0. split.
    + simpl. now rewrite N.eqb_refl.
    + apply in_or_app. right. left. reflexivity.
Qed.

(** [resolved_unassigned_reachable] on [db_init]: the student 1 files
    complaint 50 and the admin 9 resolves it. *)
Lemma resolved_unassigned_reachable_witness :
  exists db1 db2 c,
    handle db_init (SubmitComplaint 1%N 50%N "2024-03-10T08:00:00+00:00"
                      "Projector" "Broken" infrastructure) = Committed db1
    /\ canUpdateStatus (Some admin) = true
    /\ handle db1 (StatusUpdate 9%N "2024-03-10T09:00:00+00:00" 50%N resolved)
       = Committed db2
    /\ run db_init [ SubmitComplaint 1%N 50%N "2024-03-10T08:00:00+00:00"
                       "Projector" "Broken" infrastructure;
                     StatusUpdate 9%N "2024-03-10T09:00:00+00:00" 50%N resolved ] = db2
    /\ In c (tbl_complaints db2)
    /\ complaints.id c = 50%N
    /\ complaints.status c = resolved
    /\ complaints.assigned_to c = None.
Proof.
  apply (resolved_unassigned_reachable db_init 1%N 9%N 50%N); reflexivity.
Defined.

(* ================================================================== *)
(** * Properties of the derived views *)
(* ================================================================== *)

(** ** [categoryData] *)

Lemma categoryData_fold (cs : list Complaint) :
  categoryData cs = fold_left tally cs [].
Proof. reflexivity. Qed.

Lemma find_name_existsb (k : complaint_category) (acc : list category_count) :
  existsb (complaint_category_eqb k) (map name acc)
  = match find (fun item => complaint_category_eqb (name item) k) acc with
    | Some _ => true
    | None => false
    end.
Proof.
  induction acc as [|e acc IH]; simpl; [reflexivity|].
  rewrite (complaint_category_eqb_sym k).
  now destruct (complaint_category_eqb (name e) k).
Qed.

Lemma increment_names (k : complaint_category) (acc : list category_count) :
  map name (increment k acc) = map name acc.
Proof.
  induction acc as [|e acc IH]; simpl; [reflexivity|].
  destruct (complaint_category_eqb (name e) k); simpl; [reflexivity|now rewrite IH].
Qed.

Lemma tally_names (acc : list category_count) (c : Complaint) :
  map name (tally acc c)
  = map name acc
    ++ (if existsb (complaint_category_eqb (complaints.category c)) (map name acc)
        then [] else [complaints.category c]).
Proof.
  unfold tally. rewrite find_name_existsb.
  destruct (find _ acc).
  - now rewrite increment_names, app_nil_r.
  - now rewrite map_app.
Qed.

Lemma fold_tally_names (cs : list Complaint) (acc : list category_count) :
  map name (fold_left tally cs acc)
  = map name acc ++ first_occurrences (map name acc) (map (fun c : Complaint => complaints.category c) cs).
Proof.
  revert acc. induction cs as [|c cs IH]; intros acc; simpl.
  - now rewrite app_nil_r.
  - rewrite IH, tally_names.
    destruct (existsb _ (map name acc)).
    + now rewrite app_nil_r.
    + now rewrite <- app_assoc.
Qed.

Lemma held_increment (k k' : complaint_category) (acc : list category_count) :
  find (fun item => complaint_category_eqb (name item) k') acc <> None ->
  held k (increment k' acc)
  = (held k acc + if complaint_category_eqb k' k then 1 else 0)%nat.
Proof.
  unfold held. induction acc as [|e acc IH]; simpl; [congruence|].
  intros Hf. destruct (complaint_category_eqb (name e) k') eqn:E'.
  - apply complaint_category_eqb_eq in E'. subst k'. simpl.
    destruct (complaint_category_eqb (name e) k); simpl; lia.
  - simpl. destruct (complaint_category_eqb (name e) k) eqn:E.
    + apply complaint_category_eqb_eq in E. subst k.
      rewrite complaint_category_eqb_sym, E'. lia.
    + now apply IH.
Qed.

Lemma held_app_new (k k' : complaint_category) (acc : list category_count) :
  find (fun item => complaint_category_eqb (name item) k') acc = None ->
  held k (acc ++ [ {| name := k'; value := 1 |} ])
  = (held k acc + if complaint_category_eqb k' k then 1 else 0)%nat.
Proof.
  unfold held. induction acc as [|e acc IH]; simpl.
  - intros _. now destruct (complaint_category_eqb k' k).
  - destruct (complaint_category_eqb (name e) k') eqn:E'; [discriminate|].
    intros Hf. destruct (complaint_category_eqb (name e) k) eqn:E.
    + apply complaint_category_eqb_eq in E. subst k.
      rewrite complaint_category_eqb_sym, E'. lia.
    + now apply IH.
Qed.

Lemma held_tally (k : complaint_category) (acc : list category_count) (c : Complaint) :
  held k (tally acc c)
  = (held k acc + if complaint_category_eqb (complaints.category c) k then 1 else 0)%nat.
Proof.
  unfold tally.
  destruct (find (fun item => complaint_category_eqb (name item) (complaints.category c)) acc)
    eqn:Hf.
  - apply held_increment. congruence.
  - now apply held_app_new.
Qed.

Lemma held_fold_tally (k : complaint_category) (cs : list Complaint)
    (acc : list category_count) :
  held k (fold_left tally cs acc) = (held k acc + count_category k cs)%nat.
Proof.
  revert acc. induction cs as [|c cs IH]; intros acc; simpl.
  - unfold count_category. simpl. lia.
  - rewrite IH, held_tally. unfold count_category. simpl.
    destruct (complaint_category_eqb (complaints.category c) k); simpl; lia.
Qed.

Lemma sum_increment (k : complaint_category) (acc : list category_count) :
  find (fun item => complaint_category_eqb (name item) k) acc <> None ->
  list_sum (map value (increment k acc)) = S (list_sum (map value acc)).
Proof.
  induction acc as [|e acc IH]; simpl; [congruence|].
  destruct (complaint_category_eqb (name e) k); simpl; [reflexivity|].
  intros Hf. rewrite IH by exact Hf. lia.
Qed.

Lemma sum_fold_tally (cs : list Complaint) (acc : list category_count) :
  list_sum (map value (fold_left tally cs acc))
  = (list_sum (map value acc) + List.length cs)%nat.
Proof.
  revert acc. induction cs as [|c cs IH]; intros acc; simpl; [lia|].
  rewrite IH. unfold tally.
  destruct (find (fun item => complaint_category_eqb (name item) (complaints.category c)) acc)
    eqn:Hf.
  - rewrite sum_increment by congruence. lia.
  - rewrite map_app, list_sum_app. simpl. lia.
Qed.

Lemma first_occurrences_In (k : complaint_category) (l seen : list complaint_category) :
  In k (first_occurrences seen l) <-> In k l /\ ~ In k seen.
Proof.
  revert seen. induction l as [|x l IH]; intros seen; simpl; [tauto|].
  destruct (existsb (complaint_category_eqb x) seen) eqn:E.
  - rewrite IH. apply existsb_exists in E. destruct E as [y [Hy E]].
    apply complaint_category_eqb_eq in E. subst y.
    split; [tauto|]. intros [[->|H] Hn]; tauto.
  - simpl. rewrite IH, in_app_iff. simpl.
    assert (~ In x seen) as Hx.
    { intros Hin. apply not_true_iff_false in E. apply E. apply existsb_exists.
      exists x. split; [exact Hin|]. now apply complaint_category_eqb_eq. }
    split.
    + intros [->|[H Hn]]; tauto.
    + intros [[->|H] Hn]; [tauto|].
      destruct (complaint_category_eqb x k) eqn:Ek.
      * apply complaint_category_eqb_eq in Ek. tauto.
      * right. split; [exact H|]. intros [Hs|[Hs|[]]]; [tauto|].
        subst. apply not_true_iff_false in Ek. apply Ek.
        now apply complaint_category_eqb_eq.
Qed.

Lemma first_occurrences_NoDup (l seen : list complaint_category) :
  NoDup (first_occurrences seen l).
Proof.
  revert seen. induction l as [|x l IH]; intros seen; simpl; [constructor|].
  destruct (existsb (complaint_category_eqb x) seen); [apply IH|].
  constructor; [|apply IH].
  rewrite first_occurrences_In, in_app_iff. simpl. tauto.
Qed.

Lemma held_of_entry (e : category_count) (acc : list category_count) :
  NoDup (map name acc) -> In e acc -> held (name e) acc = value e.
Proof.
  unfold held. induction acc as [|x acc IH]; simpl; [contradiction|].
  intros Hnd Hin. apply NoDup_cons_iff in Hnd. destruct Hnd as [Hx Hnd].
  destruct Hin as [->|Hin].
  - assert (complaint_category_eqb (name e) (name e) = true) as ->
        by now apply complaint_category_eqb_eq.
    reflexivity.
  - destruct (complaint_category_eqb (name x) (name e)) eqn:E.
    + apply complaint_category_eqb_eq in E. exfalso. apply Hx. rewrite E.
      now apply in_map.
    + now apply IH.
Qed.

Lemma count_category_pos (k : complaint_category) (cs : list Complaint) :
  (exists c : Complaint, In c cs /\ complaints.category c = k)
  <-> (1 <= count_category k cs)%nat.
Proof.
  unfold count_category. induction cs as [|c cs IH]; simpl.
  - split; [intros [c [[] _]]|lia].
  - destruct (complaint_category_eqb (complaints.category c) k) eqn:E; simpl.
    + apply complaint_category_eqb_eq in E. split; [lia|]. intros _. exists c. tauto.
    + rewrite <- IH. split.
      * intros [c' [[->|Hin] Hk]].
        -- apply complaint_category_eqb_eq in Hk. congruence.
        -- exists c'. tauto.
      * intros [c' [Hin Hk]]. exists c'. tauto.
Qed.

(** C10: the entries of [categoryData] are the categories that occur in
    the list, each once, in the order of their first occurrence; the value
    of an entry is the number of complaints of its category, at least one;
    a category without complaints has no entry; the values add up to the
    number of complaints. *)
Theorem categoryData_first_occurrence_counts (cs : list Complaint) :
  map name (categoryData cs)
  = first_occurrences [] (map (fun c : Complaint => complaints.category c) cs)
  /\ NoDup (map name (categoryData cs))
  /\ (forall k, In k (map name (categoryData cs))
                <-> exists c : Complaint, In c cs /\ complaints.category c = k)
  /\ (forall k, count_category k cs = 0%nat -> ~ In k (map name (categoryData cs)))
  /\ (forall e, In e (categoryData cs) ->
                value e = count_category (name e) cs /\ (1 <= value e)%nat)
  /\ list_sum (map value (categoryData cs)) = List.length cs.
Proof.
  assert (Hn : map name (categoryData cs)
               = first_occurrences [] (map (fun c : Complaint => complaints.category c) cs)).
  { rewrite categoryData_fold. now rewrite fold_tally_names. }
  assert (Hin : forall k, In k (map name (categoryData cs))
                          <-> exists c : Complaint, In c cs /\ complaints.category c = k).
  { intros k. rewrite Hn, first_occurrences_In, in_map_iff. simpl.
    split.
    - intros [[c [Hc Hin]] _]. exists c. tauto.
    - intros [c [Hin Hc]]. split; [exists c|]; tauto. }
  assert (Hnd : NoDup (map name (categoryData cs))).
  { rewrite Hn. apply first_occurrences_NoDup. }
  split; [exact Hn|]. split; [exact Hnd|]. split; [exact Hin|].
  split; [|split].
  - intros k Hz Hk. apply Hin, count_category_pos in Hk. lia.
  - intros e He.
    assert (value e = count_category (name e) cs) as Hv.
    { rewrite <- (held_of_entry e (categoryData cs) Hnd He).
      rewrite categoryData_fold. now rewrite held_fold_tally. }
    split; [exact Hv|]. rewrite Hv. apply count_category_pos, Hin.
    now apply in_map.
  - rewrite categoryData_fold. now rewrite sum_fold_tally.
Qed.

Example categoryData_example :
  categoryData [complaint_61; complaint_62; complaint_63; complaint_64]
  = [ {| name := technical; value := 2 |}; {| name := academic; value := 1 |};
      {| name := administrative; value := 1 |} ].
Proof. reflexivity. Qed.

(** [categoryData_first_occurrence_counts] on the four complaints: no
    entry for the category [other], which has no complaint, and the values
    add up to four. *)
Lemma categoryData_first_occurrence_counts_witness :
  ~ In other (map name (categoryData [complaint_61; complaint_62; complaint_63; complaint_64]))
  /\ list_sum (map value (categoryData [complaint_61; complaint_62; complaint_63; complaint_64]))
     = 4%nat.
Proof.
  destruct (categoryData_first_occurrence_counts
              [complaint_61; complaint_62; complaint_63; complaint_64])
    as (_ & _ & _ & Hzero & _ & Hsum).
  split; [apply Hzero; reflexivity|exact Hsum].
Defined.

(** ** [Array.prototype.sort] *)

Section ArraySortFacts.

Variable A : Type.
Variable comparefn : A -> A -> number.

Local Abbreviation cmp := (SortCompare comparefn).

Lemma insert_sorted_perm (x : A) (l : list A) :
  Permutation (x :: l) (insert_sorted comparefn x l).
Proof.
  induction l as [|y l IH]; simpl; [apply Permutation_refl|].
  destruct (cmp x y <=? 0); [apply Permutation_refl|].
  eapply perm_trans; [apply perm_swap|]. now apply perm_skip.
Qed.

Lemma Array_sort_perm (l : list A) : Permutation l (Array_sort comparefn l).
Proof.
  induction l as [|x l IH]; simpl; [constructor|].
  eapply perm_trans; [|apply insert_sorted_perm]. now apply perm_skip.
Qed.

Lemma Array_sort_In (x : A) (l : list A) :
  In x (Array_sort comparefn l) <-> In x l.
Proof.
  split; apply Permutation_in;
    [apply Permutation_sym|]; apply Array_sort_perm.
Qed.

(** A consistent comparator cannot put [a] after [b] and [b] after [a]. *)
Lemma consistent_antisym (l : list A) (a b : A) :
  consistent cmp l -> In a l -> In b l -> 0 < cmp a b -> cmp b a < 0.
Proof.
  intros (Hrefl & Hsym & _ & _ & Hgt) Ha Hb Hab.
  destruct (Z.lt_trichotomy (cmp b a) 0) as [H|[H|H]]; [exact H| |].
  - apply (Hsym b a Hb Ha) in H. lia.
  - pose proof (Hgt a b a Ha Hb Ha Hab H) as Haa.
    rewrite (Hrefl a Ha) in Haa. lia.
Qed.

Lemma consistent_incl (l l' : list A) :
  (forall x, In x l' -> In x l) -> consistent cmp l -> consistent cmp l'.
Proof.
  intros Hi (H1 & H2 & H3 & H4 & H5). repeat split; intros.
  - apply H1; auto.
  - apply H2; auto.
  - apply H3 with (b := b); auto.
  - apply H4 with (b := b); auto.
  - apply H5 with (b := b); auto.
Qed.

Lemma insert_sorted_ties (k x : A) (l : list A) :
  (forall y, In y l -> cmp k x = 0 -> cmp k y = 0 -> cmp x y <= 0) ->
  filter (fun y => cmp k y =? 0) (insert_sorted comparefn x l)
  = filter (fun y => cmp k y =? 0) (x :: l).
Proof.
  induction l as [|y l IH]; intros H; simpl; [reflexivity|].
  destruct (Z.leb_spec (cmp x y) 0) as [Hle|Hgt]; [reflexivity|].
  simpl. rewrite IH by (intros; apply H; simpl; auto). simpl.
  destruct (Z.eqb_spec (cmp k x) 0) as [Hx|Hx];
    destruct (Z.eqb_spec (cmp k y) 0) as [Hy|Hy]; try reflexivity.
  specialize (H y (or_introl eq_refl) Hx Hy). lia.
Qed.

(** The sort is stable: the elements that tie with [k] keep their order. *)
Lemma Array_sort_stable (k : A) (l : list A) :
  consistent cmp (k :: l) ->
  filter (fun y => cmp k y =? 0) (Array_sort comparefn l)
  = filter (fun y => cmp k y =? 0) l.
Proof.
  intros Hc. induction l as [|x l IH]; simpl; [reflexivity|].
  rewrite insert_sorted_ties.
  - simpl. rewrite IH; [reflexivity|].
    revert Hc. apply consistent_incl. simpl. tauto.
  - intros y Hy Hx Hky. apply (proj1 (Array_sort_In y l)) in Hy.
    destruct Hc as (_ & Hsym & Htrans & _).
    assert (cmp x k = 0) as Hxk by (apply Hsym; simpl; auto).
    assert (cmp x y = 0) as Hxy.
    { apply (Htrans x k y); simpl; auto. }
    lia.
Qed.

(** A list whose neighbours are in order is returned as it is. *)
Lemma Array_sort_fixpoint (l : list A) :
  Sorted (fun a b => cmp a b <= 0) l -> Array_sort comparefn l = l.
Proof.
  intros Hs. induction Hs as [|x l Hs IH Hhd]; simpl; [reflexivity|].
  rewrite IH. destruct Hhd as [|y l' Hxy]; simpl; [reflexivity|].
  destruct (Z.leb_spec (cmp x y) 0); [reflexivity|lia].
Qed.

(** ** Any stable sort gives the same list *)

Lemma consistent_antisym_lt (l : list A) (a b : A) :
  consistent cmp l -> In a l -> In b l -> cmp a b < 0 -> 0 < cmp b a.
Proof.
  intros (Hrefl & Hsym & _ & Hlt & _) Ha Hb Hab.
  destruct (Z.lt_trichotomy (cmp b a) 0) as [H|[H|H]]; [| |exact H].
  - pose proof (Hlt a b a Ha Hb Ha Hab H) as Haa.
    rewrite (Hrefl a Ha) in Haa. lia.
  - apply (Hsym b a Hb Ha) in H. lia.
Qed.

Lemma consistent_le_trans (l : list A) (a b c : A) :
  consistent cmp l -> In a l -> In b l -> In c l ->
  cmp a b <= 0 -> cmp b c <= 0 -> cmp a c <= 0.
Proof.
  intros Hc Ha Hb Hc' Hab Hbc.
  pose proof Hc as (Hrefl & Hsym & Heq & Hlt & Hgt).
  destruct (Z.lt_trichotomy (cmp a c) 0) as [H|[H|H]]; [lia|lia|exfalso].
  pose proof (consistent_antisym l a c Hc Ha Hc' H) as Hca.
  assert (cmp a b < 0 \/ cmp a b = 0) as [Hab'|Hab'] by lia;
    assert (cmp b c < 0 \/ cmp b c = 0) as [Hbc'|Hbc'] by lia.
  - pose proof (Hlt a b c Ha Hb Hc' Hab' Hbc'). lia.
  - pose proof (Hlt c a b Hc' Ha Hb Hca Hab') as Hcb.
    pose proof (Hsym b c Hb Hc' Hbc'). lia.
  - pose proof (Hlt b c a Hb Hc' Ha Hbc' Hca) as Hba.
    pose proof (Hsym a b Ha Hb Hab'). lia.
  - pose proof (Heq a b c Ha Hb Hc' Hab' Hbc'). lia.
Qed.

Lemma insert_sorted_StronglySorted (x : A) (l : list A) :
  consistent cmp (x :: l) ->
  StronglySorted (fun a b => cmp a b <= 0) l ->
  StronglySorted (fun a b => cmp a b <= 0) (insert_sorted comparefn x l).
Proof.
  intros Hc Hs. induction Hs as [|y l Hs IH Hall]; simpl.
  - repeat constructor.
  - rewrite Forall_forall in Hall.
    destruct (Z.leb_spec (cmp x y) 0) as [Hle|Hgt].
    + constructor; [now constructor; [|apply Forall_forall]|].
      constructor; [exact Hle|]. apply Forall_forall. intros z Hz.
      apply (consistent_le_trans (x :: y :: l) x y z Hc); simpl; auto.
    + constructor.
      * apply IH. revert Hc. apply consistent_incl. simpl. tauto.
      * apply Forall_forall. intros z Hz.
        apply (Permutation_in _ (Permutation_sym (insert_sorted_perm x l))) in Hz.
        destruct Hz as [<-|Hz]; [|now apply Hall].
        apply Z.lt_le_incl. apply (consistent_antisym (x :: y :: l) x y Hc); simpl; auto.
Qed.

Lemma Array_sort_StronglySorted (l : list A) :
  consistent cmp l ->
  StronglySorted (fun a b => cmp a b <= 0) (Array_sort comparefn l).
Proof.
  induction l as [|x l IH]; intros Hc; simpl; [constructor|].
  apply insert_sorted_StronglySorted.
  - revert Hc. apply consistent_incl. simpl. intros y [->|Hy]; [tauto|].
    right. now apply Array_sort_In.
  - apply IH. revert Hc. apply consistent_incl. simpl. tauto.
Qed.

(** Two sorted arrangements of the same elements that keep the ties in
    the same order are the same list. *)
Lemma stable_sorted_unique (l1 l2 : list A) :
  consistent cmp l1 ->
  Permutation l1 l2 ->
  StronglySorted (fun a b => cmp a b <= 0) l1 ->
  StronglySorted (fun a b => cmp a b <= 0) l2 ->
  (forall k, In k l1 ->
     filter (fun y => cmp k y =? 0) l1 = filter (fun y => cmp k y =? 0) l2) ->
  l1 = l2.
Proof.
  revert l2. induction l1 as [|x l1 IH]; intros l2 Hc Hp Hs1 Hs2 Hties.
  - apply Permutation_nil in Hp. now subst.
  - destruct l2 as [|y l2].
    { apply Permutation_sym, Permutation_nil in Hp. discriminate. }
    apply StronglySorted_inv in Hs1. destruct Hs1 as [Hs1 Hx].
    apply StronglySorted_inv in Hs2. destruct Hs2 as [Hs2 Hy].
    rewrite Forall_forall in Hx, Hy.
    pose proof Hc as (Hrefl & Hsym & _).
    assert (In y (x :: l1)) as Hyin
        by (apply (Permutation_in _ (Permutation_sym Hp)); simpl; auto).
    assert (In x (y :: l2)) as Hxin by (apply (Permutation_in _ Hp); simpl; auto).
    assert (cmp x y <= 0) as Hxy.
    { destruct Hyin as [<-|Hyin]; [rewrite Hrefl; simpl; auto; lia|now apply Hx]. }
    assert (cmp y x <= 0) as Hyx.
    { destruct Hxin as [<-|Hxin]; [rewrite Hrefl; simpl; auto; lia|now apply Hy]. }
    assert (cmp x y = 0) as Htie.
    { assert (cmp x y < 0 \/ cmp x y = 0) as [Hlt|Heq] by lia; [|exact Heq].
      pose proof (consistent_antisym_lt (x :: l1) x y Hc (or_introl eq_refl) Hyin Hlt).
      lia. }
    assert (x = y) as <-.
    { pose proof (Hties x (or_introl eq_refl)) as H. simpl in H.
      rewrite (Hrefl x (or_introl eq_refl)), Htie in H. simpl in H. congruence. }
    f_equal. apply IH.
    + revert Hc. apply consistent_incl. simpl. tauto.
    + now apply Permutation_cons_inv in Hp.
    + exact Hs1.
    + exact Hs2.
    + intros k Hk. pose proof (Hties k (or_intror Hk)) as H. simpl in H.
      destruct (cmp k x =? 0); congruence.
Qed.

(** Every arrangement that meets the contract of a stable sort is the one
    [Array_sort] returns. *)
Lemma Array_sort_unique (l l' : list A) :
  consistent cmp l ->
  Permutation l l' ->
  StronglySorted (fun a b => cmp a b <= 0) l' ->
  (forall k, In k l ->
     filter (fun y => cmp k y =? 0) l' = filter (fun y => cmp k y =? 0) l) ->
  l' = Array_sort comparefn l.
Proof.
  intros Hc Hp Hs Hties. apply stable_sorted_unique.
  - revert Hc. apply consistent_incl. intros x Hx.
    now apply (Permutation_in _ (Permutation_sym Hp)).
  - eapply perm_trans; [apply Permutation_sym, Hp|apply Array_sort_perm].
  - exact Hs.
  - now apply Array_sort_StronglySorted.
  - intros k Hk. apply (Permutation_in _ (Permutation_sym Hp)) in Hk.
    rewrite (Hties k Hk). symmetry. apply Array_sort_stable.
    revert Hc. apply consistent_incl. intros x [->|Hx]; assumption.
Qed.

End ArraySortFacts.

(** ** [sortedComplaints] *)

(** With valid dates the comparator of "newest" is the difference of the
    two time values. *)
Lemma SortCompare_newest (localeCompare : string -> string -> Z)
    (cs : list Complaint) (a b : Complaint) :
  Forall (fun c : Complaint => getTime (complaints.created_at c) <> None) cs ->
  In a cs -> In b cs ->
  SortCompare (compareBy localeCompare "newest") a b = time_of b - time_of a.
Proof.
  intros Hv Ha Hb. rewrite Forall_forall in Hv.
  pose proof (Hv a Ha) as Hva. pose proof (Hv b Hb) as Hvb.
  unfold SortCompare, compareBy, time_of. simpl.
  destruct (getTime (complaints.created_at a)); [|congruence].
  destruct (getTime (complaints.created_at b)); [|congruence].
  reflexivity.
Qed.

(** ... and so it is consistent. *)
Lemma newest_consistent (localeCompare : string -> string -> Z) (cs : list Complaint) :
  Forall (fun c : Complaint => getTime (complaints.created_at c) <> None) cs ->
  consistent (SortCompare (compareBy localeCompare "newest")) cs.
Proof.
  intros Hv. repeat split; intros;
    repeat match goal with
           | H : context [SortCompare _ ?x ?y] |- _ =>
               rewrite (SortCompare_newest localeCompare cs x y) in H by assumption
           end;
    rewrite (SortCompare_newest localeCompare cs) by assumption; lia.
Qed.

Lemma not_older_SortCompare (localeCompare : string -> string -> Z) (a b : Complaint) :
  not_older a b -> SortCompare (compareBy localeCompare "newest") a b <= 0.
Proof.
  intros (ta & tb & Ea & Eb & Hle). unfold SortCompare, compareBy. simpl.
  rewrite Ea, Eb. simpl. lia.
Qed.

(** C9: [sortedComplaints] returns a permutation of its input; when the
    comparator of the chosen key is consistent on the list, the result is
    in the order of the comparator and the sort is stable: the complaints
    that tie with a complaint [k] of the list keep their input order.  A
    list already in newest-first order is returned unchanged by the key
    "newest". *)
Theorem sortedComplaints_stable (localeCompare : string -> string -> Z) :
  (forall (sortBy : string) (cs : list Complaint),
      Permutation cs (sortedComplaints localeCompare sortBy cs)
      /\ (consistent (SortCompare (compareBy localeCompare sortBy)) cs ->
          StronglySorted
            (fun a b => SortCompare (compareBy localeCompare sortBy) a b <= 0)
            (sortedComplaints localeCompare sortBy cs)
          /\ forall k, In k cs ->
               filter (fun y => SortCompare (compareBy localeCompare sortBy) k y =? 0)
                      (sortedComplaints localeCompare sortBy cs)
               = filter (fun y => SortCompare (compareBy localeCompare sortBy) k y =? 0)
                        cs))
  /\ (forall cs : list Complaint,
        newest_first cs -> sortedComplaints localeCompare "newest" cs = cs).
Proof.
  split.
  - intros sortBy cs. unfold sortedComplaints. split; [apply Array_sort_perm|].
    intros Hc. split; [now apply Array_sort_StronglySorted|].
    intros k Hk. apply Array_sort_stable.
    revert Hc. apply consistent_incl. intros x [->|Hx]; assumption.
  - intros cs Hs. unfold sortedComplaints. apply Array_sort_fixpoint.
    unfold newest_first in Hs. induction Hs as [|x l Hs IH Hhd]; constructor.
    + exact IH.
    + destruct Hhd as [|y l' Hxy]; constructor.
      now apply not_older_SortCompare.
Qed.

Example sortedComplaints_newest_shuffled :
  sortedComplaints localeCompare_ordinal "newest"
    [complaint_63; complaint_61; complaint_64; complaint_62]
  = [complaint_61; complaint_62; complaint_63; complaint_64].
Proof. vm_compute. reflexivity. Qed.

Example sortedComplaints_title :
  map (fun c : Complaint => complaints.title c)
    (sortedComplaints localeCompare_ordinal "title"
       [complaint_61; complaint_62; complaint_63; complaint_64])
  = ["Fees"; "Grades"; "Lab"; "Wifi"]%string.
Proof. vm_compute. reflexivity. Qed.

(** [sortedComplaints_stable] on the four complaints: shuffled, the tie of
    61 and 62 is kept in input order; in newest-first order the list is
    returned as it is. *)
Lemma sortedComplaints_stable_witness :
  (StronglySorted
     (fun a b => SortCompare (compareBy localeCompare_ordinal "newest") a b <= 0)
     (sortedComplaints localeCompare_ordinal "newest"
        [complaint_63; complaint_62; complaint_64; complaint_61])
   /\ filter (fun y => SortCompare (compareBy localeCompare_ordinal "newest")
                                   complaint_62 y =? 0)
             (sortedComplaints localeCompare_ordinal "newest"
                [complaint_63; complaint_62; complaint_64; complaint_61])
      = [complaint_62; complaint_61])
  /\ sortedComplaints localeCompare_ordinal "newest"
       [complaint_61; complaint_62; complaint_63; complaint_64]
     = [complaint_61; complaint_62; complaint_63; complaint_64].
Proof.
  destruct (sortedComplaints_stable localeCompare_ordinal) as [Hstable Hfix].
  split.
  - destruct (Hstable "newest"%string
                [complaint_63; complaint_62; complaint_64; complaint_61])
      as [_ H].
    destruct H as [Hsorted Hties].
    + apply newest_consistent. repeat constructor; vm_compute; discriminate.
    + split; [exact Hsorted|].
      rewrite (Hties complaint_62); [reflexivity|simpl; auto].
  - apply Hfix. unfold newest_first.
    repeat constructor;
      (do 2 eexists; split; [vm_compute; reflexivity|];
       split; [vm_compute; reflexivity|vm_compute; discriminate]).
Defined.

(** ** [Date] *)

Example toISOString_leap_day :
  toISOString 951782400999 = "2000-02-29T00:00:00.999Z"%string.
Proof. vm_compute. reflexivity. Qed.

Example toISOString_before_epoch :
  toISOString (-1) = "1969-12-31T23:59:59.999Z"%string.
Proof. vm_compute. reflexivity. Qed.

Example Date_parse_utc :
  Date_parse "2024-03-13T12:00:00+00:00" = Some now_0.
Proof. vm_compute. reflexivity. Qed.

Example Date_parse_offset_fraction :
  Date_parse "2024-03-13T17:30:00.123456+05:30" = Some (now_0 + 123).
Proof. vm_compute. reflexivity. Qed.

Example Date_parse_toISOString :
  Date_parse (toISOString 951782400999) = Some 951782400999.
Proof. vm_compute. reflexivity. Qed.

Example Date_parse_invalid : Date_parse "yesterday" = None.
Proof. reflexivity. Qed.

Example setDate_across_months :
  toISOString (setDate zone_0 now_0 (getDate zone_0 now_0 - 20))
  = "2024-02-22T12:00:00.000Z"%string.
Proof. vm_compute. reflexivity. Qed.


Lemma DayFromYear_lt (y1 y2 : Z) : y1 < y2 -> DayFromYear y1 < DayFromYear y2.
Proof. unfold DayFromYear. intros H. Z.div_mod_to_equations; lia. Qed.

Lemma DayFromYear_le (y1 y2 : Z) : y1 <= y2 -> DayFromYear y1 <= DayFromYear y2.
Proof.
  intros H. destruct (Z.eq_dec y1 y2) as [->|Hne]; [lia|].
  apply Z.lt_le_incl, DayFromYear_lt. lia.
Qed.

Lemma year_search_spec (fuel : nat) (lo hi d : Z) :
  lo < hi ->
  hi - lo <= 2 ^ Z.of_nat fuel ->
  DayFromYear lo <= d < DayFromYear hi ->
  lo <= year_search fuel lo hi d < hi
  /\ DayFromYear (year_search fuel lo hi d) <= d
     < DayFromYear (year_search fuel lo hi d + 1).
Proof.
  revert lo hi. induction fuel as [|fuel IH]; intros lo hi Hlt Hsz Hd.
  - simpl in *. assert (hi = lo + 1) as -> by lia. lia.
  - cbn [year_search].
    destruct (Z.leb_spec hi (lo + 1)) as [Hs|Hs].
    + assert (hi = lo + 1) as -> by lia. lia.
    + rewrite Nat2Z.inj_succ, Z.pow_succ_r in Hsz by lia.
      assert (lo < (lo + hi) / 2 < hi) as Hmid by (Z.div_mod_to_equations; lia).
      assert ((lo + hi) / 2 - lo <= 2 ^ Z.of_nat fuel
              /\ hi - (lo + hi) / 2 <= 2 ^ Z.of_nat fuel) as [Hl Hr].
      { revert Hsz. generalize (2 ^ Z.of_nat fuel). intros p Hp.
        Z.div_mod_to_equations. lia. }
      destruct (Z.leb_spec (DayFromYear ((lo + hi) / 2)) d) as [Hc|Hc].
      * specialize (IH ((lo + hi) / 2) hi). lia.
      * specialize (IH lo ((lo + hi) / 2)). lia.
Qed.

Lemma YearFromDay_spec (d : Z) :
  DayFromYear (-271822) <= d < DayFromYear 275761 ->
  -271822 <= YearFromDay d < 275761
  /\ DayFromYear (YearFromDay d) <= d < DayFromYear (YearFromDay d + 1).
Proof.
  intros Hd. unfold YearFromDay. apply year_search_spec; [lia| |exact Hd].
  change (2 ^ Z.of_nat 20) with 1048576. lia.
Qed.

(** On the days a [Date] can hold, [YearFromDay] is the largest year that
    begins on or before the day, as ECMA-262 defines [YearFromTime]. *)
Lemma YearFromDay_largest (d y : Z) :
  -100000000 <= d <= 100000000 ->
  DayFromYear (YearFromDay d) <= d
  /\ (DayFromYear y <= d -> y <= YearFromDay d).
Proof.
  intros Hd.
  assert (DayFromYear (-271822) <= d < DayFromYear 275761) as Hr.
  { change (DayFromYear (-271822)) with (-100000474).
    change (DayFromYear 275761) with 100000110. lia. }
  destruct (YearFromDay_spec d Hr) as [_ [Hlo Hhi]]. split; [exact Hlo|].
  intros Hy. destruct (Z.le_gt_cases y (YearFromDay d)) as [|Hgt]; [assumption|].
  pose proof (DayFromYear_le (YearFromDay d + 1) y). lia.
Qed.


Opaque YearFromDay.

Lemma MonthFromTime_range (t : Z) : 0 <= MonthFromTime t <= 11.
Proof.
  unfold MonthFromTime.
  repeat match goal with
         | |- context [if ?b then _ else _] => destruct b
         end; lia.
Qed.

(** The day of a time value, from its year, month and date. *)
Lemma Day_from_fields (t : Z) :
  Day t
  = DayFromYear (YearFromTime t) + month_start (InLeapYear t) (MonthFromTime t)
    + DateFromTime t - 1.
Proof. unfold DateFromTime, DayWithinYear. lia. Qed.

Lemma MakeDay_in_year (year month date : Z) :
  0 <= month <= 11 ->
  MakeDay year month date
  = DayFromYear year + month_start (if DaysInYear year =? 366 then 1 else 0) month
    + date - 1.
Proof.
  intros Hm. unfold MakeDay.
  rewrite (Z.div_small month 12), (Z.mod_small month 12) by lia.
  now rewrite Z.add_0_r.
Qed.

Lemma MakeDay_fields (t k : Z) :
  MakeDay (YearFromTime t) (MonthFromTime t) (DateFromTime t - k) = Day t - k.
Proof.
  rewrite MakeDay_in_year by apply MonthFromTime_range.
  fold (InLeapYear t). rewrite (Day_from_fields t). lia.
Qed.

(** [date.setDate(date.getDate() - k)] moves the local time back by [k]
    days and reads the result in the zone again. *)
Lemma setDate_getDate (LocalTZA : Z -> bool -> Z) (t k : Z) :
  setDate LocalTZA t (getDate LocalTZA t - k)
  = UTC LocalTZA (LocalTime LocalTZA t - k * msPerDay).
Proof.
  unfold setDate, getDate, MakeDate. rewrite MakeDay_fields. f_equal.
  generalize (LocalTime LocalTZA t). intros lt. unfold Day, TimeWithinDay.
  pose proof (Z.div_mod lt msPerDay) as H.
  unfold msPerDay in *. lia.
Qed.

(** The time value moves by the [k] days and by the change of the offset
    of the zone between the two times. *)
Lemma setDate_getDate_shift (LocalTZA : Z -> bool -> Z) (t k : Z) :
  setDate LocalTZA t (getDate LocalTZA t - k)
  = t - k * msPerDay
    + (LocalTZA t true - LocalTZA (LocalTime LocalTZA t - k * msPerDay) false).
Proof. rewrite setDate_getDate. unfold UTC. unfold LocalTime at 1. lia. Qed.







(** ** Rendering of dates *)













(** ** [overdueComplaints] *)

(** C8 (amended): a complaint is in the overdue set if and only if it is
    in the list, its status is pending, it has no assignee, and its
    [created_at] is a valid date older than the threshold of
    [setDate(getDate() - 3)]: [now] minus three days, moved by the change
    of the offset of the local zone between [now] and the same local time
    three days earlier.  Without such a change the threshold is [now]
    minus three days.  When the offset changes by less than a day, a
    pending, unassigned complaint created four days before [now] is
    overdue and one created two days before [now] is not. *)
Theorem overdueComplaints_iff (LocalTZA : Z -> bool -> Z) (now : Z)
    (cs : list Complaint) :
  (forall c : Complaint,
      In c (overdueComplaints LocalTZA now cs)
      <-> In c cs
          /\ complaints.status c = pending
          /\ complaints.assigned_to c = None
          /\ exists t, getTime (complaints.created_at c) = Some t
                       /\ t < now - 3 * msPerDay
                              + (LocalTZA now true
                                 - LocalTZA (LocalTime LocalTZA now - 3 * msPerDay) false))
  /\ (LocalTZA (LocalTime LocalTZA now - 3 * msPerDay) false = LocalTZA now true ->
      forall c : Complaint,
        In c (overdueComplaints LocalTZA now cs)
        <-> In c cs
            /\ complaints.status c = pending
            /\ complaints.assigned_to c = None
            /\ exists t, getTime (complaints.created_at c) = Some t
                         /\ t < now - 3 * msPerDay)
  /\ (Z.abs (LocalTZA now true - LocalTZA (LocalTime LocalTZA now - 3 * msPerDay) false)
      < msPerDay ->
      (forall c : Complaint,
          In c cs ->
          complaints.status c = pending ->
          complaints.assigned_to c = None ->
          getTime (complaints.created_at c) = Some (now - 4 * msPerDay) ->
          In c (overdueComplaints LocalTZA now cs))
      /\ (forall c : Complaint,
            getTime (complaints.created_at c) = Some (now - 2 * msPerDay) ->
            ~ In c (overdueComplaints LocalTZA now cs))).
Proof.
  assert (Hiff : forall c : Complaint,
             In c (overdueComplaints LocalTZA now cs)
             <-> In c cs
                 /\ complaints.status c = pending
                 /\ complaints.assigned_to c = None
                 /\ exists t, getTime (complaints.created_at c) = Some t
                              /\ t < now - 3 * msPerDay
                                     + (LocalTZA now true
                                        - LocalTZA (LocalTime LocalTZA now - 3 * msPerDay)
                                                   false)).
  { intros c. unfold overdueComplaints, threeDaysAgo.
    rewrite filter_In, setDate_getDate_shift, !andb_true_iff, complaint_status_eqb_eq.
    generalize (now - 3 * msPerDay
                + (LocalTZA now true
                   - LocalTZA (LocalTime LocalTZA now - 3 * msPerDay) false)).
    intros threshold.
    assert (negb (truthy (complaints.assigned_to c)) = true
            <-> complaints.assigned_to c = None) as ->.
    { destruct (complaints.assigned_to c); simpl; split; congruence. }
    assert (number_lt (getTime (complaints.created_at c)) (Some threshold) = true
            <-> exists t, getTime (complaints.created_at c) = Some t
                          /\ t < threshold) as ->.
    { destruct (getTime (complaints.created_at c)) as [t|]; simpl.
      - rewrite Z.ltb_lt. split.
        + intros H. exists t. auto.
        + intros [t' [E H]]. congruence.
      - split; [discriminate|]. intros [t' [E _]]. discriminate. }
    tauto. }
  split; [exact Hiff|]. split.
  - intros Hsame c. rewrite Hiff, Hsame.
    replace (now - 3 * msPerDay + (LocalTZA now true - LocalTZA now true))
      with (now - 3 * msPerDay) by lia.
    reflexivity.
  - generalize dependent
      (LocalTZA now true - LocalTZA (LocalTime LocalTZA now - 3 * msPerDay) false).
    intros shift Hiff Hshift. split.
    + intros c Hin Hs Ha Ht. apply Hiff. repeat split; auto.
      exists (now - 4 * msPerDay). split; [exact Ht|]. unfold msPerDay in *. lia.
    + intros c Ht Hin. apply Hiff in Hin. destruct Hin as (_ & _ & _ & t & E & Hlt).
      rewrite Ht in E. injection E as <-. unfold msPerDay in *. lia.
Qed.

Example threeDaysAgo_example :
  toISOString (threeDaysAgo zone_0 now_0) = "2024-03-10T12:00:00.000Z"%string.
Proof. vm_compute. reflexivity. Qed.

(** In [zone_dst] the clocks went forward on 31 March: three days before
    noon of 1 April is noon of 29 March, 71 hours earlier. *)
Example threeDaysAgo_dst_example :
  toISOString (threeDaysAgo zone_dst now_noon) = "2024-03-29T11:00:00.000Z"%string
  /\ now_noon - threeDaysAgo zone_dst now_noon = 71 * 3600000.
Proof. vm_compute. split; reflexivity. Qed.

(** C8 as stated fails in a zone with daylight saving: at [now_noon] in
    [zone_dst] the complaint 73, pending, unassigned and created 71 hours
    and a half before, is overdue, and it is not older than [now_noon]
    minus three days. *)
Lemma overdueComplaints_dst_counterexample :
  ~ (In complaint_73 (overdueComplaints zone_dst now_noon [complaint_73])
     <-> complaints.status complaint_73 = pending
         /\ complaints.assigned_to complaint_73 = None
         /\ exists t, getTime (complaints.created_at complaint_73) = Some t
                      /\ t < now_noon - 3 * msPerDay).
Proof.
  intros [H _].
  assert (Hin : In complaint_73 (overdueComplaints zone_dst now_noon [complaint_73]))
    by (vm_compute; left; reflexivity).
  destruct (H Hin) as (_ & _ & t & E & Hlt).
  vm_compute in E. injection E as <-. vm_compute in Hlt. discriminate.
Qed.

(** [overdueComplaints_iff] at [now_noon] in [zone_dst], where the offset
    changed by an hour within the three days: a complaint created four
    days earlier is overdue, one created two days earlier is not. *)
Lemma overdueComplaints_iff_witness :
  In (complaint_at 71%N "Heating" infrastructure "2024-03-28T10:00:00+00:00")
     (overdueComplaints zone_dst now_noon
        [ complaint_at 71%N "Heating" infrastructure "2024-03-28T10:00:00+00:00";
          complaint_at 72%N "Parking" other "2024-03-30T10:00:00+00:00" ])
  /\ ~ In (complaint_at 72%N "Parking" other "2024-03-30T10:00:00+00:00")
          (overdueComplaints zone_dst now_noon
             [ complaint_at 71%N "Heating" infrastructure "2024-03-28T10:00:00+00:00";
               complaint_at 72%N "Parking" other "2024-03-30T10:00:00+00:00" ]).
Proof.
  destruct (overdueComplaints_iff zone_dst now_noon
              [ complaint_at 71%N "Heating" infrastructure "2024-03-28T10:00:00+00:00";
                complaint_at 72%N "Parking" other "2024-03-30T10:00:00+00:00" ])
    as (_ & _ & H).
  destruct H as [H4 H2]; [vm_compute; reflexivity|].
  split.
  - apply H4; [left; reflexivity|reflexivity|reflexivity|vm_compute; reflexivity].
  - apply H2. vm_compute. reflexivity.
Defined.

(** ** [last7DaysData] *)



Example last7DaysData_example :
  last7DaysData zone_0 now_0 [complaint_61; complaint_62; complaint_63; complaint_64]
  = [ {| date := "Mar 7"; complaints := 1 |}; {| date := "Mar 8"; complaints := 0 |};
      {| date := "Mar 9"; complaints := 0 |}; {| date := "Mar 10"; complaints := 0 |};
      {| date := "Mar 11"; complaints := 1 |}; {| date := "Mar 12"; complaints := 0 |};
      {| date := "Mar 13"; complaints := 2 |} ].
Proof. vm_compute. reflexivity. Qed.



(* ================================================================== *)
(** * Further properties of the handlers *)
(* ================================================================== *)

Lemma set_complaints_same (db : database) : set_complaints db (tbl_complaints db) = db.
Proof. now destruct db. Qed.


Lemma map_unchanged (A : Type) (f : A -> A) (l : list A) :
  (forall x, In x l -> f x = x) -> map f l = l.
Proof.
  intros H. induction l as [|x l IH]; simpl; [reflexivity|].
  rewrite H by (left; reflexivity). rewrite IH; [reflexivity|].
  intros y Hy. apply H. now right.
Qed.

(** The policies of [complaints] do not look at the status or at
    [updated_at]. *)
Lemma canUpdate_status_change (db : database) (uid : uuid) (now : string)
    (s : complaint_status) (c : complaints.row) :
  canUpdate db uid (update_updated_at now (set_status s c)) = canUpdate db uid c.
Proof. now rewrite !canUpdate_spec. Qed.

Lemma assigned_to_fk_unchanged (db : database) (old new : complaints.row) :
  complaints.assigned_to new = complaints.assigned_to old ->
  assigned_to_fk db old new = true.
Proof.
  intros E. unfold assigned_to_fk. rewrite E.
  destruct (complaints.assigned_to old); [|reflexivity]. now rewrite N.eqb_refl.
Qed.

(** X1: a status update never fails, whatever the principal, the id and
    the two statuses: it rewrites the status (and [updated_at]) of the
    complaints of that id the principal may update and nothing else. *)
Theorem handleStatusUpdate_commits (db : database) (uid : uuid) (now : string)
    (id : uuid) (newStatus : complaint_status) :
  handleStatusUpdate db uid now id newStatus
  = Committed
      (set_complaints db
         (map (fun c => if N.eqb (complaints.id c) id && canUpdate db uid c
                        then update_updated_at now (set_status newStatus c)
                        else c)
              (tbl_complaints db))).
Proof.
  unfold handleStatusUpdate, update_complaint.
  replace (forallb _ (tbl_complaints db)) with true; [reflexivity|].
  symmetry. apply forallb_forall. intros c _.
  rewrite canUpdate_status_change, assigned_to_fk_unchanged by reflexivity.
  now destruct (N.eqb (complaints.id c) id), (canUpdate db uid c).
Qed.

(** X2: a status update sent by a principal that is not an admin, for an
    id under which no complaint is assigned to the principal, commits and
    leaves the database as it was: no error tells the principal that
    nothing changed. *)
Theorem handleStatusUpdate_denied_silently (db : database) (uid : uuid)
    (now : string) (id : uuid) (newStatus : complaint_status) :
  has_role db uid admin = false ->
  (forall c, In c (tbl_complaints db) ->
             complaints.id c = id -> complaints.assigned_to c <> Some uid) ->
  handleStatusUpdate db uid now id newStatus = Committed db.
Proof.
  intros Hadmin Hnot. unfold handleStatusUpdate, update_complaint.
  assert (Hhit : forall c, In c (tbl_complaints db) ->
                   N.eqb (complaints.id c) id && canUpdate db uid c = false).
  { intros c Hin. destruct (N.eqb_spec (complaints.id c) id) as [E|E]; [|reflexivity].
    simpl. rewrite canUpdate_spec, Hadmin, orb_false_r.
    apply andb_false_iff. right. apply not_true_is_false.
    rewrite sql_eq_true. now apply Hnot. }
  replace (forallb _ (tbl_complaints db)) with true.
  - rewrite map_unchanged; [now rewrite set_complaints_same|].
    intros c Hin. now rewrite (Hhit c Hin).
  - symmetry. apply forallb_forall. intros c Hin. now rewrite (Hhit c Hin).
Qed.

(** [handleStatusUpdate_denied_silently] for the staff member 8, to whom
    the complaint page offers the status control, on complaint 50, which
    is assigned to 7. *)
Lemma handleStatusUpdate_denied_silently_witness :
  canUpdateStatus (Some staff) = true
  /\ handleStatusUpdate (run db_init requests_assigned) 8%N
       "2024-03-11T10:00:00+00:00" 50%N resolved
     = Committed (run db_init requests_assigned).
Proof.
  split; [reflexivity|].
  apply (handleStatusUpdate_denied_silently (run db_init requests_assigned) 8%N).
  - reflexivity.
  - intros c [<-|[]] _. discriminate.
Defined.

(** X3: assigning a complaint twice to the same staff member leaves the
    database that the second assignment alone would leave. *)
Theorem handleAssignStaff_twice (db : database) (uid : uuid) (now1 now2 : string)
    (complaintId staffId : uuid) :
  has_role db uid admin = true ->
  uuid_in staffId (auth_users db) = true ->
  run db [ AssignStaff uid now1 complaintId staffId;
           AssignStaff uid now2 complaintId staffId ]
  = run db [ AssignStaff uid now2 complaintId staffId ].
Proof.
  intros Hadmin Hstaff.
  assert (Hfk : forall (d : database) (now : string) c,
            auth_users d = auth_users db ->
            assigned_to_fk d c
              (update_updated_at now
                 (set_status in_progress (set_assigned_to (Some staffId) c))) = true).
  { intros d now c Hd. unfold assigned_to_fk. simpl. rewrite Hd, Hstaff.
    destruct (complaints.assigned_to c); [apply orb_true_r|reflexivity]. }
  unfold run. simpl. unfold step. simpl. unfold handleAssignStaff.
  rewrite (admin_update_complaint db uid now1 complaintId _ Hadmin)
    by (intros c; now apply Hfk).
  rewrite (admin_update_complaint db uid now2 complaintId _ Hadmin)
    by (intros c; now apply Hfk).
  rewrite admin_update_complaint; [|exact Hadmin|intros c; now apply Hfk].
  unfold set_complaints. simpl. f_equal. rewrite map_map. apply map_ext.
  intros c. destruct (N.eqb_spec (complaints.id c) complaintId) as [E|E]; simpl.
  - rewrite E, N.eqb_refl. reflexivity.
  - apply N.eqb_neq in E. now rewrite E.
Qed.

(** [handleAssignStaff_twice] for the admin 9 and the staff member 7 on
    complaint 50. *)
Lemma handleAssignStaff_twice_witness :
  run db_resolved [ AssignStaff 9 "2024-03-12T09:00:00+00:00" 50 7;
                    AssignStaff 9 "2024-03-12T09:05:00+00:00" 50 7 ]%N
  = run db_resolved [ AssignStaff 9 "2024-03-12T09:05:00+00:00" 50 7 ]%N.
Proof.
  apply (handleAssignStaff_twice db_resolved 9%N); reflexivity.
Defined.

(** X4: a principal that is not an admin never changes who a complaint is
    assigned to: the assignment request either fails, or hits no row, or
    re-writes the principal's own id. *)
Theorem non_admin_cannot_reassign (db : database) (uid : uuid) (now : string)
    (complaintId staffId : uuid) :
  has_role db uid admin = false ->
  map complaints.assigned_to
      (tbl_complaints (step db (AssignStaff uid now complaintId staffId)))
  = map complaints.assigned_to (tbl_complaints db).
Proof.
  intros Hadmin. unfold step. simpl. unfold handleAssignStaff, update_complaint.
  destruct (forallb _ (tbl_complaints db)) eqn:Hall; [|reflexivity].
  simpl. rewrite map_map. apply map_ext_in. intros c Hin.
  rewrite forallb_forall in Hall. specialize (Hall c Hin).
  destruct (N.eqb (complaints.id c) complaintId && canUpdate db uid c) eqn:Hhit;
    [|reflexivity].
  simpl in Hall. apply andb_prop in Hall. destruct Hall as [Hnew _].
  apply andb_prop in Hhit. destruct Hhit as [_ Hold].
  rewrite canUpdate_spec, Hadmin, orb_false_r in Hnew, Hold.
  apply andb_prop in Hnew, Hold. destruct Hnew as [_ Hnew]. destruct Hold as [_ Hold].
  apply sql_eq_true in Hold. simpl in Hnew. simpl.
  destruct (N.eqb_spec staffId uid) as [->|]; [now rewrite Hold|discriminate].
Qed.

(** [non_admin_cannot_reassign] for the assignee 7 of complaint 50, who
    tries to pass it on to 8. *)
Lemma non_admin_cannot_reassign_witness :
  map complaints.assigned_to
      (tbl_complaints (step (run db_init requests_assigned)
                            (AssignStaff 7 "2024-03-11T10:00:00+00:00" 50 8)%N))
  = [Some 7%N].
Proof.
  apply (non_admin_cannot_reassign (run db_init requests_assigned) 7%N).
  reflexivity.
Defined.

(** ** Roles *)

(** X5: a principal that is not an admin changes no role: its promote
    and demote requests, on itself or on anybody else, leave [user_roles]
    as it was. *)
Theorem only_admins_change_roles (db : database) (uid userId : uuid) :
  has_role db uid admin = false ->
  tbl_user_roles (step db (PromoteToStaff uid userId)) = tbl_user_roles db
  /\ tbl_user_roles (step db (DemoteToStudent uid userId)) = tbl_user_roles db.
Proof.
  intros Hadmin.
  assert (H : forall r, tbl_user_roles
                          (match update_role db uid userId r with
                           | Committed db' => db'
                           | Failed => db
                           end) = tbl_user_roles db).
  { intros r. unfold update_role.
    destruct (_ && unique_user_id_role _); [|reflexivity]. simpl.
    apply map_unchanged. intros x _.
    unfold canUpdateRole, Admins_can_manage_all_roles. simpl.
    now rewrite Hadmin, !andb_false_r. }
  split; apply H.
Qed.

(** [only_admins_change_roles] for the student 1 promoting itself. *)
Lemma only_admins_change_roles_witness :
  tbl_user_roles (step db_init (PromoteToStaff 1 1)%N) = tbl_user_roles db_init
  /\ tbl_user_roles (step db_init (DemoteToStudent 1 9)%N) = tbl_user_roles db_init.
Proof.
  split.
  - apply (only_admins_change_roles db_init 1%N 1%N). reflexivity.
  - apply (only_admins_change_roles db_init 1%N 9%N). reflexivity.
Defined.

Lemma admin_canUpdateRole (db : database) (uid : uuid) (x : user_roles.row) :
  has_role db uid admin = true -> canUpdateRole db uid x = true.
Proof.
  intros H. unfold canUpdateRole, canReadRole, Admins_can_manage_all_roles,
    Anyone_can_view_their_own_role. simpl. rewrite H.
  now destruct (N.eqb uid (user_roles.user_id x)).
Qed.

(** The role statement of an admin rewrites the rows of the user and then
    meets the constraint [UNIQUE(user_id, role)] or fails. *)
Lemma admin_update_role (db : database) (uid userId : uuid) (r : app_role) :
  has_role db uid admin = true ->
  update_role db uid userId r
  = if unique_user_id_role (map (retarget userId r) (tbl_user_roles db))
    then Committed (set_user_roles db (map (retarget userId r) (tbl_user_roles db)))
    else Failed.
Proof.
  intros Hadmin. unfold update_role.
  assert (map (fun x => if N.eqb (user_roles.user_id x) userId && canUpdateRole db uid x
                        then set_role r x else x) (tbl_user_roles db)
          = map (retarget userId r) (tbl_user_roles db)) as ->.
  { apply map_ext. intros x. unfold retarget.
    now rewrite (admin_canUpdateRole db uid x Hadmin), andb_true_r. }
  replace (forallb _ (tbl_user_roles db)) with true; [reflexivity|].
  symmetry. apply forallb_forall. intros x _.
  rewrite (admin_canUpdateRole db uid (set_role r x) Hadmin). apply orb_true_r.
Qed.

Lemma retarget_other_user (u : uuid) (r : app_role) (rs : list user_roles.row) :
  filter (fun x => N.eqb (user_roles.user_id x) u) rs = [] ->
  map (retarget u r) rs = rs.
Proof.
  intros H. apply map_unchanged. intros x Hx. unfold retarget.
  destruct (N.eqb (user_roles.user_id x) u) eqn:E; [|reflexivity].
  assert (In x (filter (fun x => N.eqb (user_roles.user_id x) u) rs)) as Hin
      by (apply filter_In; auto).
  rewrite H in Hin. contradiction.
Qed.

Lemma retarget_user_id (u : uuid) (r : app_role) (x : user_roles.row) :
  user_roles.user_id (retarget u r x) = user_roles.user_id x.
Proof. unfold retarget. now destruct (N.eqb (user_roles.user_id x) u). Qed.

Lemma retarget_rows (u v : uuid) (r : app_role) (rs : list user_roles.row) :
  filter (fun x => N.eqb (user_roles.user_id x) v) (map (retarget u r) rs)
  = if N.eqb v u
    then map (set_role r) (filter (fun x => N.eqb (user_roles.user_id x) u) rs)
    else filter (fun x => N.eqb (user_roles.user_id x) v) rs.
Proof.
  induction rs as [|x rs IH]; simpl; [now destruct (N.eqb v u)|].
  rewrite retarget_user_id, IH.
  destruct (N.eqb_spec v u) as [Evu|Evu].
  - subst v. unfold retarget. now destruct (N.eqb (user_roles.user_id x) u).
  - destruct (N.eqb_spec (user_roles.user_id x) v) as [E|E]; [|reflexivity].
    f_equal. unfold retarget.
    destruct (N.eqb_spec (user_roles.user_id x) u); [congruence|reflexivity].
Qed.

Lemma existsb_key_retarget (u k : uuid) (r rho : app_role) (rs : list user_roles.row) :
  k <> u ->
  existsb (fun y => N.eqb (user_roles.user_id y) k && app_role_eqb (user_roles.role y) rho)
          (map (retarget u r) rs)
  = existsb (fun y => N.eqb (user_roles.user_id y) k && app_role_eqb (user_roles.role y) rho)
            rs.
Proof.
  intros Hk. induction rs as [|y rs IH]; simpl; [reflexivity|]. rewrite IH. f_equal.
  unfold retarget. destruct (N.eqb_spec (user_roles.user_id y) u) as [E|E]; [|reflexivity].
  simpl. rewrite E. assert (N.eqb u k = false) as -> by (apply N.eqb_neq; congruence).
  reflexivity.
Qed.

(** The constraint survives the statement when the user has at most one
    row ... *)
Lemma retarget_unique (u : uuid) (r : app_role) (rs : list user_roles.row) :
  unique_user_id_role rs = true ->
  (List.length (filter (fun x => N.eqb (user_roles.user_id x) u) rs) <= 1)%nat ->
  unique_user_id_role (map (retarget u r) rs) = true.
Proof.
  induction rs as [|x rs IH]; simpl; [reflexivity|]. intros Hu Hlen.
  apply andb_prop in Hu. destruct Hu as [Hx Hu].
  destruct (N.eqb_spec (user_roles.user_id x) u) as [E|E]; simpl in Hlen.
  - assert (filter (fun x => N.eqb (user_roles.user_id x) u) rs = []) as Hnone.
    { destruct (filter _ rs); [reflexivity|simpl in Hlen; lia]. }
    rewrite (retarget_other_user u r rs Hnone), Hu, andb_true_r.
    unfold retarget. apply N.eqb_eq in E. rewrite E. simpl. apply N.eqb_eq in E. rewrite E.
    apply negb_true_iff, not_true_is_false. intros He. apply existsb_exists in He.
    destruct He as [y [Hy Hk]]. apply andb_prop in Hk. destruct Hk as [Hk _].
    assert (In y (filter (fun x => N.eqb (user_roles.user_id x) u) rs)) as Hin
        by (apply filter_In; auto).
    rewrite Hnone in Hin. contradiction.
  - rewrite (IH Hu Hlen), andb_true_r.
    assert (retarget u r x = x) as ->
        by (unfold retarget; apply N.eqb_neq in E; now rewrite E).
    now rewrite existsb_key_retarget.
Qed.

(** ... and is violated when the user has two rows or more. *)
Lemma retarget_not_unique (u : uuid) (r : app_role) (rs : list user_roles.row) :
  (2 <= List.length (filter (fun x => N.eqb (user_roles.user_id x) u) rs))%nat ->
  unique_user_id_role (map (retarget u r) rs) = false.
Proof.
  induction rs as [|x rs IH]; simpl; [lia|]. intros Hlen.
  destruct (N.eqb_spec (user_roles.user_id x) u) as [E|E]; simpl in Hlen.
  - apply andb_false_iff. left. apply negb_false_iff.
    destruct (filter (fun x => N.eqb (user_roles.user_id x) u) rs) as [|y l] eqn:Hf;
      [simpl in Hlen; lia|].
    assert (In y (filter (fun x => N.eqb (user_roles.user_id x) u) rs)) as Hy
        by (rewrite Hf; left; reflexivity).
    apply filter_In in Hy. destruct Hy as [Hy Hyu].
    apply existsb_exists. exists (retarget u r y). split; [now apply in_map|].
    unfold retarget. apply N.eqb_eq in E. rewrite E, Hyu. simpl.
    apply N.eqb_eq in E. apply N.eqb_eq in Hyu.
    rewrite E, Hyu, N.eqb_refl. now destruct r.
  - apply andb_false_iff. right. now apply IH.
Qed.

Lemma has_role_rows (db : database) (u : uuid) (r : app_role) :
  has_role db u r = existsb (fun x => app_role_eqb (user_roles.role x) r) (role_rows db u).
Proof.
  unfold has_role, role_rows. induction (tbl_user_roles db) as [|x rs IH]; simpl;
    [reflexivity|].
  destruct (N.eqb (user_roles.user_id x) u); simpl; now rewrite IH.
Qed.

(** X6: when an admin promotes a user that has one role row, the
    statement commits; the row of the user then holds [staff], the rows of
    the other users are as before, and the policies let the user read
    every complaint at once. *)
Theorem handlePromoteToStaff_grants_staff (db : database) (uid userId : uuid) :
  has_role db uid admin = true ->
  unique_user_id_role (tbl_user_roles db) = true ->
  List.length (role_rows db userId) = 1%nat ->
  exists db',
    handlePromoteToStaff db uid userId = Committed db'
    /\ role_rows db' userId = map (set_role staff) (role_rows db userId)
    /\ (forall v, v <> userId -> role_rows db' v = role_rows db v)
    /\ has_role db' userId staff = true
    /\ (forall c, canRead db' userId c = true)
    /\ tbl_complaints db' = tbl_complaints db.
Proof.
  intros Hadmin Huniq Hone. unfold handlePromoteToStaff.
  rewrite (admin_update_role db uid userId staff Hadmin).
  rewrite retarget_unique by (try exact Huniq; unfold role_rows in Hone; lia).
  eexists. split; [reflexivity|].
  assert (Hrows : role_rows (set_user_roles db (map (retarget userId staff) (tbl_user_roles db)))
                            userId
                  = map (set_role staff) (role_rows db userId)).
  { unfold role_rows. simpl. now rewrite retarget_rows, N.eqb_refl. }
  assert (Hstaff : has_role (set_user_roles db (map (retarget userId staff)
                                                    (tbl_user_roles db)))
                            userId staff = true).
  { rewrite has_role_rows, Hrows.
    destruct (role_rows db userId) as [|x l]; [discriminate Hone|]. reflexivity. }
  split; [exact Hrows|]. split; [|split; [exact Hstaff|split; [|reflexivity]]].
  - intros v Hv. unfold role_rows. simpl. rewrite retarget_rows.
    apply N.eqb_neq in Hv. now rewrite Hv.
  - intros c. rewrite canRead_spec, Hstaff. now rewrite orb_true_r.
Qed.

(** [handlePromoteToStaff_grants_staff] for a user created by the signup
    trigger and promoted by the admin 9. *)
Lemma handlePromoteToStaff_grants_staff_witness :
  exists db',
    handlePromoteToStaff (handle_new_user db_init 2%N 102%N) 9%N 2%N = Committed db'
    /\ role_rows db' 2%N
       = map (set_role staff) (role_rows (handle_new_user db_init 2%N 102%N) 2%N)
    /\ (forall v, v <> 2%N ->
          role_rows db' v = role_rows (handle_new_user db_init 2%N 102%N) v)
    /\ has_role db' 2%N staff = true
    /\ (forall c, canRead db' 2%N c = true)
    /\ tbl_complaints db' = tbl_complaints (handle_new_user db_init 2%N 102%N).
Proof.
  apply (handlePromoteToStaff_grants_staff (handle_new_user db_init 2%N 102%N) 9%N 2%N);
    reflexivity.
Defined.

(** X7: a user that has two role rows or more (say [student] from the
    signup trigger and [admin] beside it) can be neither promoted nor
    demoted: the statement of the admin would give the user the same role
    twice and fails on [UNIQUE(user_id, role)]. *)
Theorem role_change_fails_on_two_rows (db : database) (uid userId : uuid) :
  has_role db uid admin = true ->
  (2 <= List.length (role_rows db userId))%nat ->
  handlePromoteToStaff db uid userId = Failed
  /\ handleDemoteToStudent db uid userId = Failed.
Proof.
  intros Hadmin Htwo. unfold handlePromoteToStaff, handleDemoteToStudent.
  rewrite !(admin_update_role db uid userId _ Hadmin).
  now rewrite !retarget_not_unique by exact Htwo.
Qed.

(** [role_change_fails_on_two_rows] for the user 3 of [db_two_roles]. *)
Lemma role_change_fails_on_two_rows_witness :
  handlePromoteToStaff db_two_roles 9%N 3%N = Failed
  /\ handleDemoteToStudent db_two_roles 9%N 3%N = Failed.
Proof.
  apply (role_change_fails_on_two_rows db_two_roles 9%N 3%N).
  - reflexivity.
  - vm_compute. lia.
Defined.

Lemma set_role_back (r : app_role) (x : user_roles.row) :
  set_role (user_roles.role x) (set_role r x) = x.
Proof. now destruct x. Qed.

(** X8: promoting a student and demoting them again gives back the
    database as it was, whoever else is in it: the two statements of an
    admin (another user than the one promoted) undo each other. *)
Theorem promote_then_demote_restores (db : database) (uid userId : uuid) :
  has_role db uid admin = true ->
  uid <> userId ->
  unique_user_id_role (tbl_user_roles db) = true ->
  map user_roles.role (role_rows db userId) = [student] ->
  run db [PromoteToStaff uid userId; DemoteToStudent uid userId] = db.
Proof.
  intros Hadmin Hneq Huniq Hrole.
  assert (Hone : (List.length (filter (fun x => N.eqb (user_roles.user_id x) userId)
                                      (tbl_user_roles db)) <= 1)%nat).
  { fold (role_rows db userId). rewrite <- (length_map user_roles.role), Hrole.
    simpl. lia. }
  unfold run. simpl. unfold step at 2. simpl. unfold handlePromoteToStaff.
  rewrite (admin_update_role db uid userId staff Hadmin).
  rewrite (retarget_unique userId staff _ Huniq Hone).
  set (db1 := set_user_roles db (map (retarget userId staff) (tbl_user_roles db))).
  assert (Hadmin1 : has_role db1 uid admin = true).
  { rewrite has_role_rows. unfold role_rows, db1. simpl. rewrite retarget_rows.
    apply N.eqb_neq in Hneq. rewrite Hneq. fold (role_rows db uid).
    now rewrite <- has_role_rows. }
  unfold step. simpl. unfold handleDemoteToStudent.
  rewrite (admin_update_role db1 uid userId student Hadmin1).
  assert (Hback : map (retarget userId student) (tbl_user_roles db1) = tbl_user_roles db).
  { unfold db1. simpl. rewrite map_map. apply map_unchanged. intros x Hx.
    unfold retarget at 2.
    destruct (N.eqb (user_roles.user_id x) userId) eqn:E.
    - unfold retarget. simpl. rewrite E.
      assert (Hr : In (user_roles.role x) (map user_roles.role (role_rows db userId))).
      { apply in_map. apply filter_In. auto. }
      rewrite Hrole in Hr. destruct Hr as [Hr|[]]. rewrite Hr at 1.
      apply set_role_back.
    - unfold retarget. now rewrite E. }
  rewrite Hback, Huniq. unfold db1. now destruct db.
Qed.

(** [promote_then_demote_restores] for the user 2, created by the signup
    trigger, and the admin 9. *)
Lemma promote_then_demote_restores_witness :
  run (handle_new_user db_init 2%N 102%N) [PromoteToStaff 9%N 2%N; DemoteToStudent 9%N 2%N]
  = handle_new_user db_init 2%N 102%N.
Proof.
  apply (promote_then_demote_restores (handle_new_user db_init 2%N 102%N) 9%N 2%N).
  - reflexivity.
  - discriminate.
  - reflexivity.
  - reflexivity.
Defined.

Lemma update_role_keeps_non_admins (db db' : database) (uid userId v : uuid)
    (r : app_role) :
  r <> admin ->
  update_role db uid userId r = Committed db' ->
  has_role db' v admin = true -> has_role db v admin = true.
Proof.
  intros Hr. unfold update_role. destruct (_ && _); [|discriminate].
  intros Hc. injection Hc as <-. unfold has_role. simpl. intros H.
  apply existsb_exists in H. destruct H as [y [Hy Hk]].
  apply in_map_iff in Hy. destruct Hy as [x [<- Hx]].
  apply existsb_exists. exists x. split; [exact Hx|].
  destruct (_ && canUpdateRole db uid x); [|exact Hk].
  simpl in Hk. apply andb_prop in Hk. destruct Hk as [_ Hk].
  apply app_role_eqb_eq in Hk. contradiction.
Qed.

Lemma step_keeps_non_admins (db : database) (q : request) (v : uuid) :
  has_role (step db q) v admin = true -> has_role db v admin = true.
Proof.
  unfold step. destruct q; simpl.
  - unfold handleSubmitComplaint. now destruct (_ && _).
  - unfold handleStatusUpdate, update_complaint. now destruct (forallb _ _).
  - unfold handleAssignStaff, update_complaint. now destruct (forallb _ _).
  - unfold handlePromoteToStaff.
    destruct (update_role db uid userId staff) as [db'|] eqn:E; [|auto].
    apply (update_role_keeps_non_admins db db' uid userId v staff); [discriminate|exact E].
  - unfold handleDemoteToStudent.
    destruct (update_role db uid userId student) as [db'|] eqn:E; [|auto].
    apply (update_role_keeps_non_admins db db' uid userId v student); [discriminate|exact E].
Qed.

(** X9: no sequence of requests of the handlers makes anybody an admin:
    who has the role [admin] afterwards had it before. *)
Theorem handlers_never_grant_admin (db : database) (qs : list request) (v : uuid) :
  has_role (run db qs) v admin = true -> has_role db v admin = true.
Proof.
  unfold run. revert db. induction qs as [|q qs IH]; intros db; simpl; [auto|].
  intros H. apply (step_keeps_non_admins db q v). now apply IH.
Qed.

(** [handlers_never_grant_admin] for the admin 9 after two requests. *)
Lemma handlers_never_grant_admin_witness :
  has_role db_init 9%N admin = true.
Proof.
  apply (handlers_never_grant_admin db_init
           [PromoteToStaff 9%N 1%N; AssignStaff 9%N "2024-03-13T12:00:00Z" 50%N 1%N] 9%N).
  reflexivity.
Defined.

(** X10: the signup trigger gives a user that had no role row exactly
    one, with the role [student]; the rows of the others stay, the
    constraint [UNIQUE(user_id, role)] is kept, and the new user reads
    exactly the complaints they submitted. *)
Theorem handle_new_user_is_student (db : database) (new_user role_row_id : uuid) :
  role_rows db new_user = [] ->
  map user_roles.role (role_rows (handle_new_user db new_user role_row_id) new_user)
  = [student]
  /\ (forall v, v <> new_user ->
        role_rows (handle_new_user db new_user role_row_id) v = role_rows db v)
  /\ (unique_user_id_role (tbl_user_roles db) = true ->
      unique_user_id_role (tbl_user_roles (handle_new_user db new_user role_row_id)) = true)
  /\ (forall c, canRead (handle_new_user db new_user role_row_id) new_user c
                = N.eqb new_user (complaints.student_id c)).
Proof.
  intros Hnone.
  assert (Hrows : forall v,
             role_rows (handle_new_user db new_user role_row_id) v
             = role_rows db v
               ++ (if N.eqb new_user v
                   then [user_roles.mk role_row_id new_user student] else [])).
  { intros v. unfold role_rows. simpl. rewrite filter_app. simpl.
    now destruct (N.eqb new_user v). }
  split; [|split; [|split]].
  - rewrite Hrows, Hnone, N.eqb_refl. reflexivity.
  - intros v Hv. rewrite Hrows.
    assert (N.eqb new_user v = false) as -> by (apply N.eqb_neq; congruence).
    apply app_nil_r.
  - simpl. unfold role_rows in Hnone. revert Hnone.
    induction (tbl_user_roles db) as [|x rs IH]; simpl; [reflexivity|].
    destruct (N.eqb_spec (user_roles.user_id x) new_user) as [E|E]; [discriminate|].
    intros Hnone Hu. apply andb_prop in Hu. destruct Hu as [Hx Hu].
    rewrite (IH Hnone Hu), andb_true_r, existsb_app. simpl.
    apply negb_true_iff in Hx. rewrite Hx. simpl.
    assert (N.eqb new_user (user_roles.user_id x) = false) as ->
        by (apply N.eqb_neq; congruence).
    reflexivity.
  - intros c. rewrite canRead_spec, !has_role_rows, Hrows, Hnone, N.eqb_refl. simpl.
    now rewrite !orb_false_r.
Qed.

(** [handle_new_user_is_student] for the signup of the user 2. *)
Lemma handle_new_user_is_student_witness :
  map user_roles.role (role_rows (handle_new_user db_init 2%N 102%N) 2%N) = [student]
  /\ (forall v, v <> 2%N ->
        role_rows (handle_new_user db_init 2%N 102%N) v = role_rows db_init v)
  /\ (unique_user_id_role (tbl_user_roles db_init) = true ->
      unique_user_id_role (tbl_user_roles (handle_new_user db_init 2%N 102%N)) = true)
  /\ (forall c, canRead (handle_new_user db_init 2%N 102%N) 2%N c
                = N.eqb 2%N (complaints.student_id c)).
Proof.
  apply (handle_new_user_is_student db_init 2%N 102%N). reflexivity.
Defined.

(** ** What no action does *)

Lemma act_submitted (trim : string -> string) (db : database) (a : action) :
  exists rest,
    map submitted (tbl_complaints (act trim db a))
    = map submitted (tbl_complaints db) ++ rest.
Proof.
  destruct a as [q|uid id new_id now newComment]; simpl.
  - unfold step. destruct q; simpl.
    + unfold handleSubmitComplaint. destruct (_ && _).
      * simpl. rewrite map_app. eexists. reflexivity.
      * exists []. now rewrite app_nil_r.
    + exists []. rewrite app_nil_r.
      unfold handleStatusUpdate, update_complaint. destruct (forallb _ _); [|reflexivity].
      simpl. rewrite map_map. apply map_ext. intros c. now destruct (_ && _).
    + exists []. rewrite app_nil_r.
      unfold handleAssignStaff, update_complaint. destruct (forallb _ _); [|reflexivity].
      simpl. rewrite map_map. apply map_ext. intros c. now destruct (_ && _).
    + exists []. rewrite app_nil_r.
      unfold handlePromoteToStaff, update_role. now destruct (_ && _).
    + exists []. rewrite app_nil_r.
      unfold handleDemoteToStudent, update_role. now destruct (_ && _).
  - exists []. rewrite app_nil_r. unfold handleAddComment.
    destruct (String.eqb _ _); [reflexivity|]. unfold insert_comment.
    now destruct (_ && _).
Qed.

(** X11: no sequence of actions (requests of the dashboards, comments)
    deletes a complaint, reorders the table, or changes what was
    submitted: the key, the student, the title, the description, the
    category and [created_at] of every complaint stay, and new complaints
    come after the old ones. *)
Theorem submitted_complaints_stay (trim : string -> string) (db : database)
    (acts : list action) :
  exists rest,
    map submitted (tbl_complaints (perform trim db acts))
    = map submitted (tbl_complaints db) ++ rest.
Proof.
  unfold perform. revert db. induction acts as [|a acts IH]; intros db; simpl.
  - exists []. now rewrite app_nil_r.
  - destruct (IH (act trim db a)) as [rest2 H2].
    destruct (act_submitted trim db a) as [rest1 H1].
    exists (rest1 ++ rest2). now rewrite H2, H1, app_assoc.
Qed.

Lemma act_comments (trim : string -> string) (db : database) (a : action) :
  exists rest, tbl_comments (act trim db a) = tbl_comments db ++ rest.
Proof.
  destruct a as [q|uid id new_id now newComment]; simpl.
  - exists []. rewrite app_nil_r. unfold step. destruct q; simpl.
    + unfold handleSubmitComplaint. now destruct (_ && _).
    + unfold handleStatusUpdate, update_complaint. now destruct (forallb _ _).
    + unfold handleAssignStaff, update_complaint. now destruct (forallb _ _).
    + unfold handlePromoteToStaff, update_role. now destruct (_ && _).
    + unfold handleDemoteToStudent, update_role. now destruct (_ && _).
  - unfold handleAddComment. destruct (String.eqb _ _).
    + exists []. now rewrite app_nil_r.
    + unfold insert_comment. destruct (_ && _).
      * simpl. eexists. reflexivity.
      * exists []. now rewrite app_nil_r.
Qed.

(** X12: the table of comments only grows at its end: no sequence of
    actions edits or deletes a comment. *)
Theorem comments_append_only (trim : string -> string) (db : database)
    (acts : list action) :
  exists rest, tbl_comments (perform trim db acts) = tbl_comments db ++ rest.
Proof.
  unfold perform. revert db. induction acts as [|a acts IH]; intros db; simpl.
  - exists []. now rewrite app_nil_r.
  - destruct (IH (act trim db a)) as [rest2 H2].
    destruct (act_comments trim db a) as [rest1 H1].
    exists (rest1 ++ rest2). now rewrite H2, H1, app_assoc.
Qed.

Lemma references_hold_spec (db : database) :
  references_hold db = true
  <-> (forall c, In c (tbl_complaints db) ->
         uuid_in (complaints.student_id c) (auth_users db) = true
         /\ forall u, complaints.assigned_to c = Some u ->
                      uuid_in u (auth_users db) = true)
      /\ (forall m, In m (tbl_comments db) ->
            uuid_in (comments.complaint_id m) (map complaints.id (tbl_complaints db)) = true
            /\ uuid_in (comments.user_id m) (auth_users db) = true).
Proof.
  unfold references_hold. rewrite andb_true_iff, !forallb_forall. split.
  - intros [Hc Hm]. split.
    + intros c Hin. specialize (Hc c Hin). apply andb_prop in Hc. destruct Hc as [Hs Ha].
      split; [exact Hs|]. intros u Hu. now rewrite Hu in Ha.
    + intros m Hin. specialize (Hm m Hin). now apply andb_prop in Hm.
  - intros [Hc Hm]. split.
    + intros c Hin. destruct (Hc c Hin) as [Hs Ha]. rewrite Hs. simpl.
      destruct (complaints.assigned_to c) as [u|]; [now apply Ha|reflexivity].
    + intros m Hin. destruct (Hm m Hin) as [H1 H2]. now rewrite H1, H2.
Qed.

Lemma update_complaint_references (db db' : database) (uid : uuid) (now : string)
    (complaintId : uuid) (set : complaints.row -> complaints.row) :
  (forall c, complaints.id (set c) = complaints.id c) ->
  (forall c, complaints.student_id (set c) = complaints.student_id c) ->
  references_hold db = true ->
  update_complaint db uid now complaintId set = Committed db' ->
  references_hold db' = true.
Proof.
  intros Hid Hst Href. unfold update_complaint.
  destruct (forallb _ (tbl_complaints db)) eqn:Hall; [|discriminate].
  intros Hc. injection Hc as <-.
  rewrite forallb_forall in Hall. apply references_hold_spec in Href.
  destruct Href as [HC HM]. apply references_hold_spec. simpl. split.
  - intros y Hy. apply in_map_iff in Hy. destruct Hy as [c [<- Hin]].
    destruct (HC c Hin) as [Hs Ha]. specialize (Hall c Hin).
    destruct (N.eqb (complaints.id c) complaintId && canUpdate db uid c);
      [|now split].
    simpl in Hall. apply andb_prop in Hall. destruct Hall as [_ Hfk].
    simpl. rewrite Hst. split; [exact Hs|]. intros u Hu.
    unfold assigned_to_fk in Hfk. simpl in Hfk. rewrite Hu in Hfk.
    destruct (complaints.assigned_to c) as [v|] eqn:Hv; [|exact Hfk].
    apply orb_prop in Hfk. destruct Hfk as [Hfk|Hfk]; [|exact Hfk].
    apply N.eqb_eq in Hfk. subst v. now apply Ha.
  - intros m Hin. destruct (HM m Hin) as [H1 H2]. split; [|exact H2].
    rewrite map_map.
    erewrite map_ext; [exact H1|]. intros c. simpl.
    destruct (_ && _); [|reflexivity]. simpl. now rewrite Hid.
Qed.

Lemma act_references (trim : string -> string) (db : database) (a : action) :
  references_hold db = true -> references_hold (act trim db a) = true.
Proof.
  intros Href. destruct a as [q|uid id new_id now newComment]; simpl.
  - unfold step. destruct q; simpl.
    + unfold handleSubmitComplaint. destruct (_ && _) eqn:Hok; [|exact Href].
      apply andb_prop in Hok. destruct Hok as [_ Huser].
      apply references_hold_spec in Href. destruct Href as [HC HM].
      apply references_hold_spec. simpl. split.
      * intros c Hin. apply in_app_iff in Hin. destruct Hin as [Hin|[<-|[]]];
          [now apply HC|]. simpl. split; [exact Huser|discriminate].
      * intros m Hin. destruct (HM m Hin) as [H1 H2]. split; [|exact H2].
        rewrite map_app. unfold uuid_in. rewrite existsb_app.
        apply orb_true_iff. left. exact H1.
    + unfold handleStatusUpdate.
      destruct (update_complaint _ _ _ _ _) as [db'|] eqn:E; [|exact Href].
      now apply (update_complaint_references db db' uid now id (set_status newStatus)).
    + unfold handleAssignStaff.
      destruct (update_complaint _ _ _ _ _) as [db'|] eqn:E; [|exact Href].
      now apply (update_complaint_references db db' uid now complaintId
                   (fun c => set_status in_progress (set_assigned_to (Some staffId) c))).
    + unfold handlePromoteToStaff, update_role. now destruct (_ && _).
    + unfold handleDemoteToStudent, update_role. now destruct (_ && _).
  - unfold handleAddComment. destruct (String.eqb _ _); [exact Href|].
    unfold insert_comment. destruct (_ && _) eqn:Hok; [|exact Href].
    apply andb_prop in Hok. destruct Hok as [Hok Huser].
    apply andb_prop in Hok. destruct Hok as [_ Hcomplaint].
    apply references_hold_spec in Href. destruct Href as [HC HM].
    apply references_hold_spec. simpl. split; [exact HC|].
    intros m Hin. apply in_app_iff in Hin. destruct Hin as [Hin|[<-|[]]];
      [now apply HM|]. simpl. now split.
Qed.

(** X13: the foreign keys hold after every sequence of actions when they
    held before: every complaint has a student and, when it has one, an
    assignee among the users, and every comment has its complaint and an
    author among the users. *)
Theorem references_hold_invariant (trim : string -> string) (db : database)
    (acts : list action) :
  references_hold db = true -> references_hold (perform trim db acts) = true.
Proof.
  unfold perform. revert db. induction acts as [|a acts IH]; intros db Href; simpl.
  - exact Href.
  - apply IH. now apply act_references.
Qed.

(** [references_hold_invariant] for [actions_commented] from [db_init]. *)
Lemma references_hold_invariant_witness :
  references_hold (perform trim_ascii db_init actions_commented) = true
  /\ tbl_comments (perform trim_ascii db_init actions_commented) = [comment_60].
Proof.
  split; [|reflexivity].
  apply (references_hold_invariant trim_ascii db_init actions_commented). reflexivity.
Defined.

(** ** A complaint from its submission on *)

(** X14: any user can file a complaint, whatever their role: the statement
    fails only on an unknown user or a key that is taken.  The new
    complaint is pending and unassigned, and until an admin acts on it a
    status update of anybody else, staff included, commits without
    changing anything. *)
Theorem submitted_complaint_waits_for_admin (db : database) (uid new_id : uuid)
    (now : string) (title description : string) (category : complaint_category) :
  uuid_in uid (auth_users db) = true ->
  uuid_in new_id (map complaints.id (tbl_complaints db)) = false ->
  exists c db',
    handleSubmitComplaint db uid new_id now title description category = Committed db'
    /\ tbl_complaints db' = tbl_complaints db ++ [c]
    /\ submitted c = (new_id, uid, title, description, category, now)
    /\ complaints.status c = pending
    /\ complaints.assigned_to c = None
    /\ (forall v, canUpdate db' v c = has_role db v admin)
    /\ (forall v now' s, has_role db v admin = false ->
          handleStatusUpdate db' v now' new_id s = Committed db').
Proof.
  intros Huser Hfresh. unfold handleSubmitComplaint.
  assert (canInsert db uid
            {| complaints.id := new_id; complaints.student_id := uid;
               complaints.title := title; complaints.description := description;
               complaints.category := category; complaints.status := pending;
               complaints.assigned_to := None; complaints.created_at := now;
               complaints.updated_at := now |} = true) as ->.
  { unfold canInsert, Students_can_create_complaints. simpl. now rewrite N.eqb_refl. }
  rewrite Hfresh, Huser. simpl. eexists. eexists. split; [reflexivity|].
  split; [reflexivity|]. split; [reflexivity|]. split; [reflexivity|].
  split; [reflexivity|]. split.
  - intros v. rewrite canUpdate_spec, has_role_set_complaints. simpl.
    now rewrite andb_false_r.
  - intros v now' s Hadmin.
    unfold handleStatusUpdate, update_complaint.
    assert (Hhit : forall c, In c (tbl_complaints db ++
                     [{| complaints.id := new_id; complaints.student_id := uid;
                         complaints.title := title; complaints.description := description;
                         complaints.category := category; complaints.status := pending;
                         complaints.assigned_to := None; complaints.created_at := now;
                         complaints.updated_at := now |}]) ->
              N.eqb (complaints.id c) new_id
              && canUpdate (set_complaints db (tbl_complaints db ++
                     [{| complaints.id := new_id; complaints.student_id := uid;
                         complaints.title := title; complaints.description := description;
                         complaints.category := category; complaints.status := pending;
                         complaints.assigned_to := None; complaints.created_at := now;
                         complaints.updated_at := now |}])) v c = false).
    { intros c Hin. apply in_app_iff in Hin. destruct Hin as [Hin|[<-|[]]].
      - apply andb_false_iff. left. apply N.eqb_neq. intros E.
        assert (uuid_in new_id (map complaints.id (tbl_complaints db)) = true) as Hin'.
        { apply existsb_exists. exists (complaints.id c). split; [now apply in_map|].
          apply N.eqb_eq. now symmetry. }
        congruence.
      - rewrite canUpdate_spec, !has_role_set_complaints, Hadmin. simpl.
        now rewrite !andb_false_r. }
    simpl tbl_complaints.
    replace (forallb _ _) with true.
    + rewrite map_unchanged; [reflexivity|]. intros c Hin. now rewrite (Hhit c Hin).
    + symmetry. apply forallb_forall. intros c Hin. now rewrite (Hhit c Hin).
Qed.

(** [submitted_complaint_waits_for_admin] for the staff member 7 filing a
    complaint. *)
Lemma submitted_complaint_waits_for_admin_witness :
  exists c db',
    handleSubmitComplaint db_init 7%N 51%N "2024-03-10T08:00:00+00:00"
      "Wifi" "Down" technical = Committed db'
    /\ tbl_complaints db' = tbl_complaints db_init ++ [c]
    /\ submitted c = (51%N, 7%N, "Wifi"%string, "Down"%string, technical,
                    "2024-03-10T08:00:00+00:00"%string)
    /\ complaints.status c = pending
    /\ complaints.assigned_to c = None
    /\ (forall v, canUpdate db' v c = has_role db_init v admin)
    /\ (forall v now' s, has_role db_init v admin = false ->
          handleStatusUpdate db' v now' 51%N s = Committed db').
Proof.
  apply (submitted_complaint_waits_for_admin db_init 7%N 51%N); reflexivity.
Defined.

(** X15: the assignment does not look at the role of the assignee.  An
    admin can assign a complaint to any user; when that user is neither
    staff nor admin nor the student of the complaint, the complaint is then
    in progress with an assignee who can neither read nor update it. *)
Theorem handleAssignStaff_ignores_role (db : database) (uid : uuid) (now : string)
    (complaintId staffId : uuid) (c : complaints.row) :
  has_role db uid admin = true ->
  uuid_in staffId (auth_users db) = true ->
  has_role db staffId staff = false ->
  has_role db staffId admin = false ->
  In c (tbl_complaints db) ->
  complaints.id c = complaintId ->
  complaints.student_id c <> staffId ->
  exists c' db',
    handleAssignStaff db uid now complaintId staffId = Committed db'
    /\ In c' (tbl_complaints db')
    /\ submitted c' = submitted c
    /\ complaints.assigned_to c' = Some staffId
    /\ complaints.status c' = in_progress
    /\ canRead db' staffId c' = false
    /\ canUpdate db' staffId c' = false.
Proof.
  intros Hadmin Huser Hstaff Hnotadmin Hin Hid Hstudent.
  exists (update_updated_at now (set_status in_progress (set_assigned_to (Some staffId) c))).
  eexists. unfold handleAssignStaff.
  rewrite (admin_update_complaint db uid now complaintId _ Hadmin).
  - split; [reflexivity|]. split; [|split; [reflexivity|split; [reflexivity|split;
      [reflexivity|split]]]].
    + simpl. apply in_map_iff. exists c. split; [|exact Hin].
      apply N.eqb_eq in Hid. now rewrite Hid.
    + rewrite canRead_spec, !has_role_set_complaints, Hstaff, Hnotadmin. simpl.
      rewrite !orb_false_r. apply N.eqb_neq. congruence.
    + rewrite canUpdate_spec, !has_role_set_complaints, Hstaff, Hnotadmin. reflexivity.
  - intros x. unfold assigned_to_fk. simpl. rewrite Huser.
    destruct (complaints.assigned_to x); [apply orb_true_r|reflexivity].
Qed.

(** [handleAssignStaff_ignores_role] for the admin 9 assigning the
    complaint 50 of the student 1 to the student 2. *)
Lemma handleAssignStaff_ignores_role_witness :
  exists c' db',
    handleAssignStaff db_two_students 9%N "2024-03-10T09:00:00+00:00" 50%N 2%N
    = Committed db'
    /\ In c' (tbl_complaints db')
    /\ submitted c' = submitted complaint_50
    /\ complaints.assigned_to c' = Some 2%N
    /\ complaints.status c' = in_progress
    /\ canRead db' 2%N c' = false
    /\ canUpdate db' 2%N c' = false.
Proof.
  apply (handleAssignStaff_ignores_role db_two_students 9%N
           "2024-03-10T09:00:00+00:00" 50%N 2%N complaint_50).
  - reflexivity.
  - reflexivity.
  - reflexivity.
  - reflexivity.
  - left. reflexivity.
  - reflexivity.
  - discriminate.
Defined.

(** ** Comments *)

Lemma canInsertComment_canReadComment (db : database) (uid : uuid) (m : comments.row) :
  canInsertComment db uid m
  = N.eqb uid (comments.user_id m) && canReadComment db uid m.
Proof.
  unfold canInsertComment, canReadComment,
    Users_can_create_comments_on_accessible_complaints,
    Users_can_view_comments_on_accessible_complaints.
  simpl. now destruct (N.eqb uid (comments.user_id m)), (exists_accessible_complaint _ _ _ _).
Qed.

(** Who reads the comments of a complaint: its student, the admins, and
    its assignee while staff. *)
Lemma canReadComment_participants (db : database) (uid : uuid) (m : comments.row)
    (c : complaints.row) :
  NoDup (map complaints.id (tbl_complaints db)) ->
  In c (tbl_complaints db) ->
  complaints.id c = comments.complaint_id m ->
  canReadComment db uid m
  = N.eqb uid (complaints.student_id c)
    || has_role db uid admin
    || has_role db uid staff && sql_true (sql_eq (complaints.assigned_to c) (Some uid)).
Proof.
  intros Hpk Hin Hid. rewrite (canReadComment_spec db uid m c Hpk Hin Hid), canRead_spec.
  rewrite (N.eqb_sym (complaints.student_id c) uid).
  now destruct (N.eqb uid (complaints.student_id c)), (has_role db uid staff),
    (has_role db uid admin), (sql_true _).
Qed.

(** Comments on an id that no complaint has are readable by nobody. *)
Lemma canReadComment_no_complaint (db : database) (uid : uuid) (m : comments.row) :
  uuid_in (comments.complaint_id m) (map complaints.id (tbl_complaints db)) = false ->
  canReadComment db uid m = false.
Proof.
  intros Hno. unfold canReadComment, Users_can_view_comments_on_accessible_complaints,
    exists_accessible_complaint.
  destruct (existsb _ (visible_complaints db uid)) eqn:H; [exfalso|reflexivity].
  apply existsb_exists in H.
  destruct H as [c [Hin Hc]]. rewrite accessible_complaint_spec in Hc.
  apply andb_prop in Hc. destruct Hc as [Hc _]. apply N.eqb_eq in Hc.
  unfold visible_complaints in Hin. apply filter_In in Hin. destruct Hin as [Hin _].
  assert (uuid_in (comments.complaint_id m) (map complaints.id (tbl_complaints db)) = true).
  { apply existsb_exists. exists (complaints.id c). split; [now apply in_map|].
    apply N.eqb_eq. now symmetry. }
  congruence.
Qed.

(** X16: a comment that is not blank is stored exactly when the principal
    is the student of the complaint, an admin, or its assignee and staff;
    from anybody else the insert fails.  The row holds the trimmed text. *)
Theorem handleAddComment_participants (trim : string -> string) (db : database)
    (uid id new_id : uuid) (now newComment : string) (c : complaints.row) :
  NoDup (map complaints.id (tbl_complaints db)) ->
  In c (tbl_complaints db) ->
  complaints.id c = id ->
  uuid_in new_id (map comments.id (tbl_comments db)) = false ->
  uuid_in uid (auth_users db) = true ->
  trim newComment <> ""%string ->
  handleAddComment trim db uid id new_id now newComment
  = Some (if N.eqb uid (complaints.student_id c)
             || has_role db uid admin
             || has_role db uid staff
                && sql_true (sql_eq (complaints.assigned_to c) (Some uid))
          then Committed
                 (set_comments db
                    (tbl_comments db
                     ++ [ {| comments.id := new_id;
                             comments.complaint_id := id;
                             comments.user_id := uid;
                             comments.message := trim newComment;
                             comments.created_at := now |} ]))
          else Failed).
Proof.
  intros Hpk Hin Hid Hfresh Huser Htrim. unfold handleAddComment.
  apply String.eqb_neq in Htrim. rewrite Htrim. f_equal.
  unfold insert_comment. rewrite canInsertComment_canReadComment. simpl.
  rewrite (canReadComment_participants db uid _ c Hpk Hin) by (simpl; exact Hid).
  rewrite N.eqb_refl, Hfresh, Huser. simpl.
  assert (uuid_in id (map complaints.id (tbl_complaints db)) = true) as ->.
  { apply existsb_exists. exists (complaints.id c). split; [now apply in_map|].
    apply N.eqb_eq. now symmetry. }
  now rewrite !andb_true_r.
Qed.

(** [handleAddComment_participants] for the student 1 on complaint 50. *)
Lemma handleAddComment_participants_witness :
  handleAddComment trim_ascii (run db_init requests_assigned) 1%N 50%N 60%N
    "2024-03-10T12:00:00+00:00" " Any news? "
  = Some (Committed (set_comments (run db_init requests_assigned) [comment_60])).
Proof.
  apply (handleAddComment_participants trim_ascii (run db_init requests_assigned)
           1%N 50%N 60%N "2024-03-10T12:00:00+00:00" " Any news? "
           complaint_50_assigned).
  - constructor; [intros []|constructor].
  - left. reflexivity.
  - reflexivity.
  - reflexivity.
  - reflexivity.
  - discriminate.
Defined.

(** ** The fetches *)

Lemma filter_none (A : Type) (keep : A -> bool) (l : list A) :
  (forall x, In x l -> keep x = false) -> filter keep l = [].
Proof.
  intros H. induction l as [|x l IH]; simpl; [reflexivity|].
  rewrite H by (left; reflexivity). apply IH. intros y Hy. apply H. now right.
Qed.

(** The one row of a key. *)
Lemma complaint_of_id (cs : list complaints.row) (c : complaints.row) (k : uuid) :
  NoDup (map complaints.id cs) ->
  In c cs ->
  complaints.id c = k ->
  filter (fun x => N.eqb (complaints.id x) k) cs = [c].
Proof.
  intros Hpk Hin Hid. induction cs as [|x cs IH]; [contradiction|].
  simpl in Hpk. apply NoDup_cons_iff in Hpk. destruct Hpk as [Hx Hpk]. simpl.
  destruct Hin as [->|Hin].
  - apply N.eqb_eq in Hid. rewrite Hid. f_equal. apply filter_none.
    intros y Hy. apply N.eqb_neq. intros E. apply Hx. apply N.eqb_eq in Hid.
    rewrite Hid, <- E. now apply in_map.
  - destruct (N.eqb_spec (complaints.id x) k) as [E|E]; [|now apply IH].
    exfalso. apply Hx. rewrite E, <- Hid. now apply in_map.
Qed.

Lemma filter_swap (A : Type) (f g : A -> bool) (l : list A) :
  filter f (filter g l) = filter g (filter f l).
Proof.
  induction l as [|x l IH]; simpl; [reflexivity|].
  destruct (f x) eqn:Ef, (g x) eqn:Eg; simpl; rewrite ?Ef, ?Eg, IH; reflexivity.
Qed.

(** What the principal sees under an id: the complaint, when it may read
    it. *)
Lemma visible_complaint_of_id (db : database) (uid : uuid) (c : complaints.row)
    (k : uuid) :
  NoDup (map complaints.id (tbl_complaints db)) ->
  In c (tbl_complaints db) ->
  complaints.id c = k ->
  filter (fun x => N.eqb (complaints.id x) k) (visible_complaints db uid)
  = if canRead db uid c then [c] else [].
Proof.
  intros Hpk Hin Hid. unfold visible_complaints.
  rewrite filter_swap, (complaint_of_id _ c k Hpk Hin Hid). simpl.
  now destruct (canRead db uid c).
Qed.

(** The policy of [comments] looks at a comment through its complaint
    only: the comments of a complaint are visible together or not at
    all. *)
Lemma visible_comments_of_complaint (db : database) (uid : uuid) (c : complaints.row)
    (k : uuid) :
  NoDup (map complaints.id (tbl_complaints db)) ->
  In c (tbl_complaints db) ->
  complaints.id c = k ->
  filter (fun m => N.eqb (comments.complaint_id m) k) (visible_comments db uid)
  = if participant db uid c
    then filter (fun m => N.eqb (comments.complaint_id m) k) (tbl_comments db)
    else [].
Proof.
  intros Hpk Hin Hid. unfold visible_comments. rewrite filter_swap.
  assert (H : forall m, In m (filter (fun m => N.eqb (comments.complaint_id m) k)
                                     (tbl_comments db)) ->
                        canReadComment db uid m = participant db uid c).
  { intros m Hm. apply filter_In in Hm. destruct Hm as [_ Hm]. apply N.eqb_eq in Hm.
    apply (canReadComment_participants db uid m c Hpk Hin). congruence. }
  destruct (participant db uid c).
  - induction (filter _ (tbl_comments db)) as [|m l IH]; simpl; [reflexivity|].
    rewrite H by (left; reflexivity). f_equal. apply IH. intros y Hy. apply H. now right.
  - now apply filter_none.
Qed.

Section FetchFacts.

Variable order_complaints : bool -> list complaints.row -> list complaints.row.
Variable order_comments : bool -> list comments.row -> list comments.row.
Variable tbl_profiles : list profiles.row.

(** [ORDER BY] returns the rows it is given, in some order. *)
Hypothesis order_complaints_perm :
  forall ascending l, Permutation (order_complaints ascending l) l.
Hypothesis order_comments_perm :
  forall ascending l, Permutation (order_comments ascending l) l.

Lemma complaintsWithProfiles_rows (uid : uuid) (data : list complaints.row) :
  map row (complaintsWithProfiles tbl_profiles uid data) = data.
Proof. unfold complaintsWithProfiles. rewrite map_map. simpl. apply map_id. Qed.

(** X17: the student dashboard lists exactly the complaints of its user:
    the policies hide none of them, whatever other roles the user has. *)
Theorem fetchComplaints_own (db : database) (uid : uuid) (c : complaints.row) :
  In c (fetchComplaints order_complaints db uid)
  <-> In c (tbl_complaints db) /\ complaints.student_id c = uid.
Proof.
  unfold fetchComplaints, visible_complaints. split.
  - intros H. apply (Permutation_in _ (order_complaints_perm false _)) in H.
    apply filter_In in H. destruct H as [H Hs]. apply filter_In in H.
    split; [tauto|]. now apply N.eqb_eq.
  - intros [Hin Hs].
    apply (Permutation_in _ (Permutation_sym (order_complaints_perm false _))).
    apply filter_In. split; [|now apply N.eqb_eq].
    apply filter_In. split; [exact Hin|].
    rewrite canRead_spec, Hs, N.eqb_refl. reflexivity.
Qed.

(** X18: for a staff member who is not an admin, the staff dashboard lists
    exactly the complaints whose status the staff member can update. *)
Theorem fetchAssignedComplaints_updatable (db : database) (uid : uuid)
    (c : complaints.row) :
  has_role db uid staff = true ->
  has_role db uid admin = false ->
  In c (map row (fetchAssignedComplaints order_complaints tbl_profiles db uid))
  <-> In c (tbl_complaints db) /\ canUpdate db uid c = true.
Proof.
  intros Hstaff Hadmin. unfold fetchAssignedComplaints.
  set (data := order_complaints false _).
  assert (Hrows : map row match data with
                          | [] => []
                          | _ :: _ => complaintsWithProfiles tbl_profiles uid data
                          end = data).
  { destruct data eqn:E; [reflexivity|]. apply complaintsWithProfiles_rows. }
  rewrite Hrows. unfold data, visible_complaints.
  rewrite canUpdate_spec, Hstaff, Hadmin, orb_false_r. simpl. split.
  - intros H. apply (Permutation_in _ (order_complaints_perm false _)) in H.
    apply filter_In in H. destruct H as [H Ha]. apply filter_In in H. tauto.
  - intros [Hin Ha].
    apply (Permutation_in _ (Permutation_sym (order_complaints_perm false _))).
    apply filter_In. split; [|exact Ha]. apply filter_In. split; [exact Hin|].
    rewrite canRead_spec, Hstaff. now rewrite orb_true_r.
Qed.


(** X20: the complaint page shows all the comments of a complaint to its
    participants and none to anybody else. *)
Theorem fetchComments_all_or_none (db : database) (uid id : uuid) (c : complaints.row) :
  NoDup (map complaints.id (tbl_complaints db)) ->
  In c (tbl_complaints db) ->
  complaints.id c = id ->
  Permutation
    (map comment_row (fetchComments order_comments tbl_profiles db uid id))
    (if participant db uid c
     then filter (fun m => N.eqb (comments.complaint_id m) id) (tbl_comments db)
     else []).
Proof.
  intros Hpk Hin Hid. unfold fetchComments.
  rewrite (visible_comments_of_complaint db uid c id Hpk Hin Hid).
  set (data := order_comments true _).
  assert (Hrows : forall f : comments.row -> option profile,
             map comment_row
                 match data with
                 | [] => []
                 | _ :: _ => map (fun m => {| comment_row := m; user_profile := f m |}) data
                 end = data).
  { intros f. destruct data eqn:E; [reflexivity|]. rewrite map_map. apply map_id. }
  rewrite Hrows. apply order_comments_perm.
Qed.

(** X21: a staff member who may read a complaint without taking part in
    it (not its student, not its assignee, not an admin) gets the page of
    the complaint with an empty list of comments, whatever comments there
    are, and the comment they send is refused. *)
Theorem staff_reads_but_cannot_comment (trim : string -> string) (db : database)
    (uid id new_id : uuid) (now newComment : string) (c : complaints.row) :
  NoDup (map complaints.id (tbl_complaints db)) ->
  In c (tbl_complaints db) ->
  complaints.id c = id ->
  has_role db uid staff = true ->
  participant db uid c = false ->
  trim newComment <> ""%string ->
  (forall prev, exists p,
      fetchComplaintDetails tbl_profiles db uid prev id = Page (Some (c, p)))
  /\ fetchComments order_comments tbl_profiles db uid id = []
  /\ handleAddComment trim db uid id new_id now newComment = Some Failed.
Proof.
  intros Hpk Hin Hid Hstaff Hpart Htrim. split; [|split].
  - intros prev. unfold fetchComplaintDetails.
    rewrite (visible_complaint_of_id db uid c id Hpk Hin Hid), canRead_spec, Hstaff.
    rewrite orb_true_r. simpl. eexists. reflexivity.
  - unfold fetchComments.
    rewrite (visible_comments_of_complaint db uid c id Hpk Hin Hid), Hpart.
    now rewrite (Permutation_nil (Permutation_sym (order_comments_perm true []))).
  - unfold handleAddComment. apply String.eqb_neq in Htrim. rewrite Htrim.
    unfold insert_comment. rewrite canInsertComment_canReadComment.
    rewrite (canReadComment_participants db uid _ c Hpk Hin) by (simpl; exact Hid).
    fold (participant db uid c). rewrite Hpart. now rewrite andb_false_r.
Qed.

End FetchFacts.

Lemma order_by_created_at_perm (A : Type) (created_at : A -> string)
    (ascending : bool) (l : list A) :
  Permutation (order_by_created_at created_at ascending l) l.
Proof. apply Permutation_sym. apply Array_sort_perm. Qed.

(** [fetchComplaints_own] for the student 1 and complaint 50. *)
Lemma fetchComplaints_own_witness :
  In complaint_50_assigned
     (fetchComplaints (order_by_created_at complaints.created_at)
                      (run db_init requests_assigned) 1%N).
Proof.
  apply (fetchComplaints_own (order_by_created_at complaints.created_at)
           (order_by_created_at_perm _ _) (run db_init requests_assigned) 1%N
           complaint_50_assigned).
  split; [left; reflexivity|reflexivity].
Defined.

(** [fetchAssignedComplaints_updatable] for the staff member 7, the
    assignee of complaint 50. *)
Lemma fetchAssignedComplaints_updatable_witness :
  In complaint_50_assigned
     (map row (fetchAssignedComplaints (order_by_created_at complaints.created_at)
                 profiles_init (run db_init requests_assigned) 7%N)).
Proof.
  apply (fetchAssignedComplaints_updatable (order_by_created_at complaints.created_at)
           profiles_init (order_by_created_at_perm _ _)
           (run db_init requests_assigned) 7%N complaint_50_assigned).
  - reflexivity.
  - reflexivity.
  - split; [left; reflexivity|reflexivity].
Defined.


(** [fetchComments_all_or_none] for the student 1 on complaint 50. *)
Lemma fetchComments_all_or_none_witness :
  Permutation
    (map comment_row
         (fetchComments (order_by_created_at comments.created_at) profiles_init
                        (perform trim_ascii db_init actions_commented) 1%N 50%N))
    [comment_60].
Proof.
  apply (fetchComments_all_or_none (order_by_created_at comments.created_at)
           profiles_init (order_by_created_at_perm _ _)
           (perform trim_ascii db_init actions_commented) 1%N 50%N
           complaint_50_assigned).
  - constructor; [intros []|constructor].
  - left. reflexivity.
  - reflexivity.
Defined.

(** [staff_reads_but_cannot_comment] for the staff member 8 on complaint
    50, which is assigned to 7 and has the comment 60. *)
Lemma staff_reads_but_cannot_comment_witness :
  (forall prev, exists p,
      fetchComplaintDetails profiles_init
        (perform trim_ascii db_init actions_commented) 8%N prev 50%N
      = Page (Some (complaint_50_assigned, p)))
  /\ fetchComments (order_by_created_at comments.created_at) profiles_init
       (perform trim_ascii db_init actions_commented) 8%N 50%N = []
  /\ handleAddComment trim_ascii (perform trim_ascii db_init actions_commented)
       8%N 50%N 61%N "2024-03-10T13:00:00+00:00" "I can help" = Some Failed.
Proof.
  apply (staff_reads_but_cannot_comment (order_by_created_at comments.created_at)
           profiles_init (order_by_created_at_perm _ _) trim_ascii
           (perform trim_ascii db_init actions_commented) 8%N 50%N 61%N
           "2024-03-10T13:00:00+00:00" "I can help" complaint_50_assigned).
  - constructor; [intros []|constructor].
  - left. reflexivity.
  - reflexivity.
  - reflexivity.
  - reflexivity.
  - discriminate.
Defined.

(** ** The lists of the admin dashboard *)

(** [Map.get] on the entries made from rows: the value of the last row of
    that key. *)
Lemma Map_get_rows (R V : Type) (key : R -> uuid) (val : R -> V) (rows : list R)
    (k : uuid) :
  Map_get (map (fun r => (key r, val r)) rows) k
  = option_map val (hd_error (rev (filter (fun r => N.eqb (key r) k) rows))).
Proof.
  unfold Map_get. rewrite <- map_rev, <- filter_rev.
  induction (rev rows) as [|r l IH]; simpl; [reflexivity|].
  destruct (N.eqb (key r) k); [reflexivity|exact IH].
Qed.


Section AdminLists.

Variable order_complaints : bool -> list complaints.row -> list complaints.row.
Variable tbl_profiles : list profiles.row.

(** X22: [fetchData] sets the list of staff members only when it finds
    one.  After an admin has demoted the only staff member, the role is
    gone, but the refreshed dashboard keeps the list it had. *)
Theorem fetchData_keeps_stale_staff (db : database) (uid userId : uuid)
    (prev : AdminState) :
  has_role db uid admin = true ->
  unique_user_id_role (tbl_user_roles db) = true ->
  (List.length (role_rows db userId) <= 1)%nat ->
  (forall x, In x (tbl_user_roles db) ->
             user_roles.role x = staff -> user_roles.user_id x = userId) ->
  exists db',
    handleDemoteToStudent db uid userId = Committed db'
    /\ has_role db' userId staff = false
    /\ st_staffMembers (fetchData order_complaints tbl_profiles db' uid prev)
       = st_staffMembers prev.
Proof.
  intros Hadmin Huniq Hone Honly. unfold handleDemoteToStudent.
  rewrite (admin_update_role db uid userId student Hadmin).
  rewrite (retarget_unique userId student _ Huniq Hone).
  eexists. split; [reflexivity|].
  assert (Hnone : forall x, In x (map (retarget userId student) (tbl_user_roles db)) ->
                            app_role_eqb (user_roles.role x) staff = false).
  { intros x Hx. apply in_map_iff in Hx. destruct Hx as [y [<- Hy]].
    unfold retarget. destruct (N.eqb_spec (user_roles.user_id y) userId) as [E|E];
      [reflexivity|].
    apply not_true_is_false. intros Hs. apply app_role_eqb_eq in Hs.
    apply E. now apply Honly. }
  split.
  - unfold has_role. simpl. apply not_true_is_false. intros H.
    apply existsb_exists in H. destruct H as [x [Hx Hk]].
    apply andb_prop in Hk. destruct Hk as [_ Hk]. rewrite (Hnone x Hx) in Hk.
    discriminate.
  - unfold fetchData. cbv zeta. simpl st_staffMembers.
    rewrite filter_none; [reflexivity|].
    intros x Hx. unfold visible_roles in Hx. apply filter_In in Hx.
    destruct Hx as [Hx _]. now apply Hnone.
Qed.


End AdminLists.

(** [fetchData_keeps_stale_staff] for the admin 9 demoting the staff
    member 7 of [db_one_staff], from the state of a first fetch. *)
Lemma fetchData_keeps_stale_staff_witness :
  exists db',
    handleDemoteToStudent db_one_staff 9%N 7%N = Committed db'
    /\ has_role db' 7%N staff = false
    /\ st_staffMembers
         (fetchData (order_by_created_at complaints.created_at) profiles_init db' 9%N
            (fetchData (order_by_created_at complaints.created_at) profiles_init
                       db_one_staff 9%N state_init))
       = [ {| StaffMember.id := 7%N;
              StaffMember.full_name := "Bala";
              StaffMember.email := "bala@example.org" |} ].
Proof.
  apply (fetchData_keeps_stale_staff (order_by_created_at complaints.created_at)
           profiles_init db_one_staff 9%N 7%N
           (fetchData (order_by_created_at complaints.created_at) profiles_init
                      db_one_staff 9%N state_init)).
  - reflexivity.
  - reflexivity.
  - simpl. lia.
  - intros x [<-|[<-|[<-|[]]]]; simpl; intros H; try reflexivity; discriminate.
Defined.


Lemma profile_of_id (ps : list profiles.row) (k : uuid) :
  NoDup (map profiles.id ps) ->
  hd_error (rev (filter (fun p => N.eqb (profiles.id p) k) ps))
  = find (fun p => N.eqb (profiles.id p) k) ps.
Proof.
  intros Hpk. induction ps as [|x ps IH]; [reflexivity|].
  simpl in Hpk. apply NoDup_cons_iff in Hpk. destruct Hpk as [Hx Hpk]. simpl.
  destruct (N.eqb_spec (profiles.id x) k) as [E|E]; [|now apply IH].
  rewrite filter_none; [reflexivity|]. intros y Hy. apply N.eqb_neq. intros Ey.
  apply Hx. rewrite E, <- Ey. now apply in_map.
Qed.

(** X24: the join of the complaints with the profiles: every complaint
    comes with the name of the profile of its student, and without one
    (shown as "Unknown") exactly when the student has no profile. *)
Theorem complaintsWithProfiles_join (tbl_profiles : list profiles.row) (uid : uuid)
    (data : list complaints.row) :
  NoDup (map profiles.id tbl_profiles) ->
  complaintsWithProfiles tbl_profiles uid data
  = map (fun c =>
           {| row := c;
              student_profile :=
                option_map (fun p => {| full_name := profiles.full_name p |})
                  (find (fun p => N.eqb (profiles.id p) (complaints.student_id c))
                        tbl_profiles) |})
        data.
Proof.
  intros Hpk. unfold complaintsWithProfiles. apply map_ext_in. intros c Hc.
  f_equal. f_equal.
  rewrite (Map_get_rows profiles.row profiles.row profiles.id (fun p => p)).
  unfold profiles_in, visible_profiles. rewrite filter_swap.
  rewrite (filter_swap _ (fun p => N.eqb (profiles.id p) (complaints.student_id c))).
  assert (Hall : forall l : list profiles.row,
             filter (fun p => sql_true (Users_can_view_all_profiles uid p)) l = l).
  { intros l. induction l as [|x l IH]; simpl; [reflexivity|]. f_equal. exact IH. }
  rewrite Hall.
  assert (Hin : forall l : list profiles.row,
             filter (fun p => uuid_in (profiles.id p) (map complaints.student_id data))
                    (filter (fun p => N.eqb (profiles.id p) (complaints.student_id c)) l)
             = filter (fun p => N.eqb (profiles.id p) (complaints.student_id c)) l).
  { intros l. induction l as [|x l IH]; simpl; [reflexivity|].
    destruct (N.eqb_spec (profiles.id x) (complaints.student_id c)) as [E|E];
      [|exact IH].
    simpl. rewrite IH.
    assert (uuid_in (profiles.id x) (map complaints.student_id data) = true) as ->;
      [|reflexivity].
    apply existsb_exists. exists (complaints.student_id c).
    split; [now apply in_map|]. now apply N.eqb_eq. }
  rewrite Hin, (profile_of_id tbl_profiles _ Hpk).
  now destruct (find _ tbl_profiles).
Qed.

(** [complaintsWithProfiles_join] for complaint 50 and a complaint of a
    student without a profile. *)
Lemma complaintsWithProfiles_join_witness :
  map student_profile
      (complaintsWithProfiles profiles_init 9%N
         [ complaint_50;
           {| complaints.id := 52%N; complaints.student_id := 2%N;
              complaints.title := "Fan"; complaints.description := "Noisy";
              complaints.category := infrastructure; complaints.status := pending;
              complaints.assigned_to := None;
              complaints.created_at := "2024-03-11T08:00:00+00:00";
              complaints.updated_at := "2024-03-11T08:00:00+00:00" |} ])
  = [ Some {| full_name := "Asha" |}; None ].
Proof.
  rewrite (complaintsWithProfiles_join profiles_init 9%N).
  - reflexivity.
  - repeat constructor; simpl; intuition discriminate.
Defined.

(** ** The counts of the admin dashboard *)

Lemma filter_perm_length (keep : Complaint -> bool) (l l' : list Complaint) :
  Permutation l l' -> List.length (filter keep l) = List.length (filter keep l').
Proof.
  intros Hp. induction Hp as [|x l l' Hp IH|x y l|l l' l'' Hp1 IH1 Hp2 IH2]; simpl.
  - reflexivity.
  - destruct (keep x); simpl; now rewrite IH.
  - now destruct (keep x), (keep y).
  - now rewrite IH1.
Qed.

Lemma filter_filter_length (keep pass : Complaint -> bool) (l : list Complaint) :
  (List.length (filter keep (filter pass l)) <= List.length (filter keep l))%nat.
Proof.
  induction l as [|x l IH]; simpl; [lia|].
  destruct (pass x), (keep x) eqn:E; simpl; rewrite ?E; simpl; lia.
Qed.

Lemma filter_implied_length (keep keep' : Complaint -> bool) (l : list Complaint) :
  (forall x, keep x = true -> keep' x = true) ->
  (List.length (filter keep l) <= List.length (filter keep' l))%nat.
Proof.
  intros H. induction l as [|x l IH]; simpl; [lia|].
  destruct (keep x) eqn:E.
  - rewrite (H x E). simpl. lia.
  - destruct (keep' x); simpl; lia.
Qed.

(** X25: the three slices of the status chart add up to the number of
    complaints. *)
Theorem statusChartData_total (complaints : list Complaint) :
  list_sum (map (fun slice => snd (fst slice)) (statusChartData complaints))
  = List.length complaints.
Proof.
  unfold statusChartData, pendingCount, inProgressCount, resolvedCount. simpl.
  induction complaints as [|c cs IH]; simpl; [reflexivity|].
  destruct (complaints.status c); simpl; lia.
Qed.

(** X26: an overdue complaint is pending and unassigned, so the overdue
    notice never counts more than the notice of the unassigned and never
    shows without it: the test on the overdue list that opens the
    notification area adds nothing. *)
Theorem overdueComplaints_within_unassigned (LocalTZA : Z -> bool -> Z) (now : Z)
    (complaints : list Complaint) :
  (List.length (overdueComplaints LocalTZA now complaints) <= unassignedCount complaints)%nat
  /\ (List.length (overdueComplaints LocalTZA now complaints) <= pendingCount complaints)%nat
  /\ (Nat.ltb 0 (unassignedCount complaints)
      || Nat.ltb 0 (List.length (overdueComplaints LocalTZA now complaints))
      = Nat.ltb 0 (unassignedCount complaints)).
Proof.
  assert (H1 : (List.length (overdueComplaints LocalTZA now complaints)
                <= unassignedCount complaints)%nat).
  { apply filter_implied_length. intros x Hx.
    apply andb_prop in Hx. destruct Hx as [Hx _]. now apply andb_prop in Hx. }
  split; [exact H1|]. split.
  - apply filter_implied_length. intros x Hx.
    apply andb_prop in Hx. destruct Hx as [Hx _]. now apply andb_prop in Hx.
  - destruct (Nat.ltb_spec 0 (unassignedCount complaints)) as [Hu|Hu]; [reflexivity|].
    simpl. apply Nat.ltb_ge. lia.
Qed.

Section Tabs.

Variable localeCompare : string -> string -> Z.
Variable toLowerCase : string -> string.

(** X27: the two tabs split the filtered list; the unassigned tab never
    holds more than the notice of the unassigned counts, holds as many
    with the filters at their defaults, whatever the sort key, and is
    empty as soon as a staff member is chosen in the filter. *)
Theorem tabs_of_sortedComplaints (sortBy searchQuery : string)
    (statusFilter : option complaint_status) (staffFilter : option uuid)
    (complaints : list Complaint) :
  (List.length (unassignedComplaints
                  (sortedComplaints localeCompare sortBy
                     (filteredComplaints toLowerCase searchQuery statusFilter staffFilter
                                         complaints)))
   + List.length (assignedComplaints
                    (sortedComplaints localeCompare sortBy
                       (filteredComplaints toLowerCase searchQuery statusFilter
                                           staffFilter complaints)))
   = List.length (filteredComplaints toLowerCase searchQuery statusFilter staffFilter
                                     complaints))%nat
  /\ (List.length (unassignedComplaints
                     (sortedComplaints localeCompare sortBy
                        (filteredComplaints toLowerCase searchQuery statusFilter
                                            staffFilter complaints)))
      <= unassignedCount complaints)%nat
  /\ List.length (unassignedComplaints
                    (sortedComplaints localeCompare sortBy
                       (filteredComplaints toLowerCase "" None None complaints)))
     = unassignedCount complaints
  /\ (forall staffId,
        unassignedComplaints
          (sortedComplaints localeCompare sortBy
             (filteredComplaints toLowerCase searchQuery statusFilter (Some staffId)
                                 complaints)) = []).
Proof.
  assert (Hperm : forall l, Permutation (sortedComplaints localeCompare sortBy l) l).
  { intros l. apply Permutation_sym. apply Array_sort_perm. }
  split; [|split; [|split]].
  - unfold unassignedComplaints, assignedComplaints.
    rewrite <- (Permutation_length
                  (Hperm (filteredComplaints toLowerCase searchQuery statusFilter
                                             staffFilter complaints))).
    induction (sortedComplaints _ _ _) as [|c l IH]; simpl; [reflexivity|].
    destruct (truthy (complaints.assigned_to c)); simpl; lia.
  - unfold unassignedComplaints, unassignedCount.
    rewrite (filter_perm_length _ _ _ (Hperm _)). unfold filteredComplaints.
    apply filter_filter_length.
  - unfold unassignedComplaints, unassignedCount.
    rewrite (filter_perm_length _ _ _ (Hperm _)). f_equal. f_equal.
    unfold filteredComplaints. simpl.
    induction complaints as [|c cs IH]; simpl; [reflexivity|]. now rewrite IH.
  - intros staffId. unfold unassignedComplaints. apply filter_none. intros c Hc.
    apply (Permutation_in _ (Hperm _)) in Hc. unfold filteredComplaints in Hc.
    apply filter_In in Hc. destruct Hc as [_ Hc].
    apply andb_prop in Hc. destruct Hc as [_ Hc].
    destruct (complaints.assigned_to c); [reflexivity|discriminate].
Qed.

End Tabs.

(** X28: the category chart has at most five bars, so the [slice(0, 5)]
    of the page drops none; the bars count every complaint once, and no
    bar is empty or longer than the track. *)
Theorem categoryData_bars (complaints : list Complaint) :
  firstn 5 (categoryData complaints) = categoryData complaints
  /\ list_sum (map value (categoryData complaints)) = List.length complaints
  /\ (forall item, In item (categoryData complaints) ->
        (1 <= value item <= List.length complaints)%nat).
Proof.
  assert (Hnames : NoDup (map name (categoryData complaints))).
  { rewrite categoryData_fold, fold_tally_names. simpl. apply first_occurrences_NoDup. }
  assert (Hsum : list_sum (map value (categoryData complaints)) = List.length complaints).
  { rewrite categoryData_fold, sum_fold_tally. reflexivity. }
  split; [|split; [exact Hsum|]].
  - apply firstn_all2. rewrite <- (length_map name).
    change 5%nat with (List.length [academic; infrastructure; administrative;
                                    technical; other]).
    apply NoDup_incl_length; [exact Hnames|]. intros k _. destruct k; simpl; tauto.
  - intros item Hin.
    pose proof (held_of_entry item _ Hnames Hin) as Hheld.
    rewrite categoryData_fold, held_fold_tally in Hheld. simpl in Hheld.
    assert (Hk : In (name item) (map name (categoryData complaints)))
        by now apply in_map.
    rewrite categoryData_fold, fold_tally_names in Hk. simpl in Hk.
    apply first_occurrences_In in Hk. destruct Hk as [Hk _].
    apply in_map_iff in Hk. destruct Hk as [c [Hc Hin']].
    assert (Hpos : (1 <= count_category (name item) complaints)%nat).
    { apply count_category_pos. exists c. tauto. }
    split; [lia|]. rewrite <- Hheld. unfold count_category.
    rewrite <- (length_map (fun c : Complaint => c)), map_id.
    clear. induction complaints as [|c cs IH]; simpl; [lia|].
    destruct (complaint_category_eqb _ _); simpl; lia.
Qed.

(** ** [get_user_role] *)

Lemma find_role_rows (db : database) (u : uuid) :
  find (fun r => N.eqb (user_roles.user_id r) u) (tbl_user_roles db)
  = hd_error (role_rows db u).
Proof.
  unfold role_rows. induction (tbl_user_roles db) as [|x rs IH]; simpl; [reflexivity|].
  now destruct (N.eqb (user_roles.user_id x) u).
Qed.

(** X29: [get_user_role] agrees with [has_role]: the role it returns is
    one the user has, it returns none exactly for a user without a role
    row, and for a user with one role row the two functions say the
    same. *)
Theorem get_user_role_has_role (db : database) (u : uuid) :
  (forall r, get_user_role db u = Some r -> has_role db u r = true)
  /\ (get_user_role db u = None <-> role_rows db u = [])
  /\ (forall x r, role_rows db u = [x] ->
        (has_role db u r = true <-> get_user_role db u = Some r)).
Proof.
  unfold get_user_role. rewrite find_role_rows. split; [|split].
  - intros r Hr. rewrite has_role_rows.
    destruct (role_rows db u) as [|x l]; [discriminate|]. simpl in Hr.
    injection Hr as <-. simpl.
    assert (app_role_eqb (user_roles.role x) (user_roles.role x) = true) as ->
        by now apply app_role_eqb_eq.
    reflexivity.
  - destruct (role_rows db u); simpl; split; congruence.
  - intros x r Hx. rewrite has_role_rows, Hx. simpl. rewrite orb_false_r.
    rewrite app_role_eqb_eq. split; congruence.
Qed.
